(** * The scrapeURL acquisition pipeline, embedded and verified

    A shallow embedding of the request-acquisition pipeline of the API
    ([scraper/scrapeURL]): the capability matrix of the engines
    ([engines/index.ts]), the specialty content detector
    ([engines/utils/specialtyHandler.ts]), the PDF parser front end
    ([engines/pdf/index.ts]) and the orchestrator
    ([scrapeURL/index.ts]: [buildFeatureFlags], [applySpecialtyParsing],
    [selectEngineAndScrape], [scrapeURLSingle]).

    Asynchronous, throwing code is written in a state-and-exception monad
    over a [World] that holds the temporary directory, the state of the
    services the pipeline talks to, and a trace of the calls it makes.
    Engines, parsers, postprocessors and transformers are collaborators
    whose code lives elsewhere: they are fields of an environment record
    [Env] and the theorems hold for every environment. *)

From stdpp Require Import base option list gmap strings.
From Stdlib Require Import ZArith Ascii String.

Open Scope string_scope.
Open Scope Z_scope.

(** ** JavaScript strings and truthiness *)

Module Js.

(** [s.startsWith(p)] *)
Definition startsWith (s p : string) : bool := String.prefix p s.

(** [s.includes(p)] *)
Fixpoint includes (s p : string) : bool :=
  String.prefix p s ||
  match s with
  | EmptyString => false
  | String _ rest => includes rest p
  end.

(** [s.toLowerCase()] on the ASCII range (media types are ASCII). *)
Definition lowerAscii (c : ascii) : ascii :=
  let n := nat_of_ascii c in
  if (Nat.leb 65 n && Nat.leb n 90)%bool then ascii_of_nat (n + 32) else c.

Fixpoint toLowerCase (s : string) : string :=
  match s with
  | EmptyString => EmptyString
  | String c rest => String (lowerAscii c) (toLowerCase rest)
  end.

(** Truthiness of the values the pipeline tests with [if (x)], [!x],
    [x && y] and [x ? a : b]. *)
Class Truthy (A : Type) := truthy : A -> bool.

#[global] Instance truthy_bool : Truthy bool := fun b => b.
#[global] Instance truthy_string : Truthy string :=
  fun s => match s with EmptyString => false | _ => true end.
#[global] Instance truthy_Z : Truthy Z := fun n => negb (n =? 0).
#[global] Instance truthy_option {A} `{Truthy A} : Truthy (option A) :=
  fun o => match o with Some a => truthy a | None => false end.

(** An object (record, array) is always truthy: only [undefined] is not. *)
Definition defined {A} (o : option A) : bool :=
  match o with Some _ => true | None => false end.

(** [a ?? b] *)
Definition nullish {A} (o : option A) (d : A) : A := default d o.

End Js.

(** ** Engines and feature flags ([engines/index.ts]) *)

Inductive Engine : Type :=
| fire_engine_chrome_cdp   (* "fire-engine;chrome-cdp" *)
| playwright
| fetch
| index.

Inductive FeatureFlag : Type :=
| actions
| waitFor
| screenshot
| screenshot_fullScreen    (* "screenshot@fullScreen" *)
| atsv
| location
| mobile
| skipTlsVerification
| useFastMode
| stealthProxy
| branding
| disableAdblock.

#[global] Instance Engine_eq_dec : EqDecision Engine.
Proof. solve_decision. Defined.

#[global] Instance FeatureFlag_eq_dec : EqDecision FeatureFlag.
Proof. solve_decision. Defined.

(** The [featureFlags] constant array, which is also the key order of every
    [features] object of [engineOptions]. *)
Definition featureFlags : list FeatureFlag :=
  [ actions; waitFor; screenshot; screenshot_fullScreen; atsv; location;
    mobile; skipTlsVerification; useFastMode; stealthProxy; branding;
    disableAdblock ].

Definition FeatureFlag_index (f : FeatureFlag) : nat :=
  match f with
  | actions => 0 | waitFor => 1 | screenshot => 2
  | screenshot_fullScreen => 3 | atsv => 4 | location => 5 | mobile => 6
  | skipTlsVerification => 7 | useFastMode => 8 | stealthProxy => 9
  | branding => 10 | disableAdblock => 11
  end%nat.

#[global] Program Instance FeatureFlag_countable : Countable FeatureFlag :=
  inj_countable FeatureFlag_index (fun n => featureFlags !! n) _.
Next Obligation. by intros []. Qed.

(** [engineOptions[engine].features[flag]] *)
Definition engineOptions (engine : Engine) (flag : FeatureFlag) : bool :=
  match engine with
  | index =>
      match flag with
      | actions => false
      | waitFor => true
      | screenshot => true
      | screenshot_fullScreen => true
      | atsv => false
      | location => true
      | mobile => true
      | skipTlsVerification => true
      | useFastMode => true
      | stealthProxy => false
      | branding => false
      | disableAdblock => true
      end
  | fire_engine_chrome_cdp =>
      match flag with
      | actions => true
      | waitFor => true
      | screenshot => true
      | screenshot_fullScreen => true
      | atsv => false
      | location => true
      | mobile => true
      | skipTlsVerification => true
      | useFastMode => false
      | stealthProxy => true
      | branding => true
      | disableAdblock => false
      end
  | playwright =>
      match flag with
      | actions => false
      | waitFor => true
      | screenshot => false
      | screenshot_fullScreen => false
      | atsv => false
      | location => false
      | mobile => false
      | skipTlsVerification => true
      | useFastMode => false
      | stealthProxy => false
      | branding => false
      | disableAdblock => false
      end
  | fetch =>
      match flag with
      | actions => false
      | waitFor => false
      | screenshot => false
      | screenshot_fullScreen => false
      | atsv => false
      | location => false
      | mobile => false
      | skipTlsVerification => true
      | useFastMode => true
      | stealthProxy => false
      | branding => false
      | disableAdblock => false
      end
  end.

(** [Object.entries(engineOptions[engine].features)] *)
Definition features_entries (engine : Engine) : list (FeatureFlag * bool) :=
  map (fun flag => (flag, engineOptions engine flag)) featureFlags.

(** [set.has(x)] on a JavaScript [Set]. *)
Definition has (s : gset FeatureFlag) (flag : FeatureFlag) : bool :=
  bool_decide (flag ∈ s).

(** [getUnsupportedFeatures(meta, engine)], on [meta.featureFlags]: the
    supported requested flags are collected first, then deleted one by one
    from a copy of the requested set. *)
Definition getUnsupportedFeatures
    (metaFlags : gset FeatureFlag) (engine : Engine) : gset FeatureFlag :=
  let supportedFlags : gset FeatureFlag :=
    list_to_set
      (map fst
         (List.filter
            (fun '(flag, isSupported) => isSupported && has metaFlags flag)
            (features_entries engine))) in
  set_fold
    (fun flag unsupportedFeatures =>
       if has supportedFlags flag
       then unsupportedFeatures ∖ {[ flag ]}
       else unsupportedFeatures)
    metaFlags metaFlags.

(** The flags an engine's capability table marks as supported. *)
Definition capabilities (engine : Engine) : gset FeatureFlag :=
  list_to_set (List.filter (engineOptions engine) featureFlags).

(** ** Data model ([controllers/v2/types], [scrapeURL/index.ts]) *)

(** A file's bytes, and a [Buffer] of them. *)
Definition Buffer : Type := string.

(** An optional property that may also hold [null]. *)
Inductive Nullable (A : Type) : Type :=
| undefined
| null
| value (a : A).
Arguments undefined {A}.
Arguments null {A}.
Arguments value {A} a.

#[global] Instance truthy_Nullable {A} : Js.Truthy (Nullable A) :=
  fun n => match n with value _ => true | _ => false end.

Inductive ProxyTier : Type := basic | stealth.

Inductive CacheState : Type := hit | miss.

#[global] Instance CacheState_eq_dec : EqDecision CacheState.
Proof. solve_decision. Defined.

Module Format.
(** One entry of [options.formats]. *)
Record t : Type := mk {
  type : string;
  fullPage : option bool;
  viewport : option (Z * Z);
  quality : option Z;
}.
End Format.

Module Action.
(** One entry of [options.actions]. *)
Record t : Type := mk { type : string }.
End Action.

Module Parser.
(** One entry of [options.parsers]: a name or an object. *)
Inductive t : Type :=
| name (n : string)
| object (type : string) (maxPages : option Z).
End Parser.

Module ScrapeOptions.
Record t : Type := mk {
  formats : list Format.t;
  actions : option (list Action.t);
  waitFor : Z;
  location : option string;
  mobile : bool;
  skipTlsVerification : option bool;
  fastMode : bool;
  proxy : option string;
  blockAds : bool;
  maxAge : option Z;
  headers : option (list (string * string));
  parsers : option (list Parser.t);
  timeout : option Z;
}.
End ScrapeOptions.

Module InternalOptions.
Record t : Type := mk {
  teamId : string;
  forceEngine : option Engine;
  atsv : option bool;
  zeroDataRetention : option bool;
  unnormalizedSourceURL : option string;
}.
End InternalOptions.

Module Prefetch.
(** The object held by [meta.pdfPrefetch] and [meta.documentPrefetch]. *)
Record t : Type := mk {
  filePath : string;
  url : option string;
  status : Z;
  proxyUsed : ProxyTier;
  contentType : option string;
}.
End Prefetch.

Module Meta.
Record t : Type := mk {
  id : string;
  url : string;
  rewrittenUrl : option string;
  options : ScrapeOptions.t;
  internalOptions : InternalOptions.t;
  featureFlags : gset FeatureFlag;
  pdfPrefetch : Nullable Prefetch.t;
  documentPrefetch : Nullable Prefetch.t;
  winnerEngine : option Engine;
}.

Definition forceEngine (m : t) : option Engine :=
  InternalOptions.forceEngine (internalOptions m).

Definition set_pdfPrefetch (p : Nullable Prefetch.t) (m : t) : t :=
  mk (id m) (url m) (rewrittenUrl m) (options m) (internalOptions m)
     (featureFlags m) p (documentPrefetch m) (winnerEngine m).

Definition set_documentPrefetch (p : Nullable Prefetch.t) (m : t) : t :=
  mk (id m) (url m) (rewrittenUrl m) (options m) (internalOptions m)
     (featureFlags m) (pdfPrefetch m) p (winnerEngine m).

Definition set_winnerEngine (e : Engine) (m : t) : t :=
  mk (id m) (url m) (rewrittenUrl m) (options m) (internalOptions m)
     (featureFlags m) (pdfPrefetch m) (documentPrefetch m) (Some e).
End Meta.

Module PdfMetadata.
Record t : Type := mk { numPages : Z; title : option string }.
End PdfMetadata.

Module BinaryFile.
Record t : Type := mk { name : option string; content : string }.
End BinaryFile.

Module EngineScrapeResult.
Record t : Type := mk {
  url : string;
  html : string;
  markdown : option string;
  statusCode : Z;
  error : option string;
  screenshot : option string;
  actions : option (list string);
  branding : option string;
  pdfMetadata : option PdfMetadata.t;
  cacheInfo : option Z;              (* [{ created_at }], as an instant *)
  contentType : option string;
  postprocessorsUsed : option (list string);
  proxyUsed : option ProxyTier;
  timezone : option string;
  binaryFile : option BinaryFile.t;
}.

Definition set_contentType (c : option string) (r : t) : t :=
  mk (url r) (html r) (markdown r) (statusCode r) (error r) (screenshot r)
     (actions r) (branding r) (pdfMetadata r) (cacheInfo r) c
     (postprocessorsUsed r) (proxyUsed r) (timezone r) (binaryFile r).
End EngineScrapeResult.

Module Metadata.
Record t : Type := mk {
  sourceURL : string;
  url : string;
  statusCode : Z;
  error : option string;
  numPages : option Z;
  title : option string;
  contentType : option string;
  timezone : option string;
  proxyUsed : ProxyTier;
  cacheState : option CacheState;
  cachedAt : option Z;
  postprocessorsUsed : option (list string);
}.
End Metadata.

Module Document.
Record t : Type := mk {
  markdown : option string;
  rawHtml : string;
  screenshot : option string;
  actions : option (list string);
  branding : option string;
  metadata : Metadata.t;
  warning : option string;
}.
End Document.

Module EngineOutcome.
Record t : Type := mk {
  engine : Engine;
  unsupportedFeatures : gset FeatureFlag;
  result : EngineScrapeResult.t;
  indexAttempted : bool;
}.
End EngineOutcome.

Module SpecialtyPlan.
Inductive SpecialtyType : Type := pdf | document.

Record t : Type := mk {
  type : SpecialtyType;
  contentType : option string;
  prefetch : Nullable Prefetch.t;
}.
End SpecialtyPlan.

Module SpecialtyDetectionInput.
Record t : Type := mk {
  headers : option (list (string * string));
  contentType : option string;
  body : option string;
  binaryFile : option BinaryFile.t;
  url : option string;
  status : option Z;
  proxyUsed : option ProxyTier;
}.
End SpecialtyDetectionInput.

(** ** Errors ([scrapeURL/error.ts], [lib/error.ts]) *)

Inductive ScrapeError : Type :=
| IndexMissError
| NoCachedDataError
| EngineError (message : string)
| ActionsNotSupportedError (message : string)
| ZDRViolationError (feature : string)
| PDFPrefetchFailed
| DocumentPrefetchFailed
| PDFInsufficientTimeError (pageCount minTimeout : Z)
| AbortManagerThrownError
| TypeError (message : string)
| Error (message : string).

#[global] Instance ScrapeError_eq_dec : EqDecision ScrapeError.
Proof. solve_decision. Defined.

(** ** Effects: the world, the trace and the monad *)

(** What a call of the pipeline leaves behind, in order. *)
Inductive Event : Type :=
| EngineCall (engine : Engine)         (* an [engineHandlers[engine]] call *)
| DownloadFile (url : string)
| WriteFile (path : string)
| ReadFile (path : string)
| Unlink (path : string)
| ParserCall (name : string)
| PostprocessorRun (name : string)
| Transformers
| Log (level message : string).

#[global] Instance Event_eq_dec : EqDecision Event.
Proof. solve_decision. Defined.

Inductive Outcome (A : Type) : Type :=
| Returned (a : A)
| Thrown (e : ScrapeError).
Arguments Returned {A} a.
Arguments Thrown {A} e.

Section Effects.

(** The state of whatever lies outside the pipeline: network, clocks,
    timers, remote services. *)
Context {S : Type}.

(** What a collaborator can see and change. *)
Record Outside : Type := mkOutside {
  files : gmap string Buffer;
  services : S;
}.

Record World : Type := mkWorld {
  outside : Outside;
  trace : list Event;
}.

(** A call into a collaborator, and a computation of the pipeline. *)
Definition Collab (A : Type) : Type := Outside -> Outcome A * Outside.
Definition Async (A : Type) : Type := World -> Outcome A * World.

Definition ret {A} (a : A) : Async A := fun w => (Returned a, w).

Definition bind {A B} (c : Async A) (k : A -> Async B) : Async B :=
  fun w =>
    match c w with
    | (Returned a, w') => k a w'
    | (Thrown e, w') => (Thrown e, w')
    end.

Definition throw {A} (e : ScrapeError) : Async A := fun w => (Thrown e, w).

(** [try { c } catch (error) { handler error }] *)
Definition try_catch {A} (c : Async A) (handler : ScrapeError -> Async A)
  : Async A :=
  fun w =>
    match c w with
    | (Returned a, w') => (Returned a, w')
    | (Thrown e, w') => handler e w'
    end.

(** [try { c } finally { cleanup }]: the cleanup runs on both exits, and
    an error it throws replaces the outcome of [c]. *)
Definition try_finally {A} (c : Async A) (cleanup : Async unit) : Async A :=
  fun w =>
    match c w with
    | (r, w') =>
        match cleanup w' with
        | (Returned _, w'') => (r, w'')
        | (Thrown e, w'') => (Thrown e, w'')
        end
    end.

Definition emit (ev : Event) : Async unit :=
  fun w => (Returned tt, mkWorld (outside w) (trace w ++ [ev])).

Definition log (level message : string) : Async unit :=
  emit (Log level message).

(** Calling a collaborator: the call is recorded, then it runs. *)
Definition call {A} (ev : Event) (c : Collab A) : Async A :=
  fun w =>
    match c (outside w) with
    | (r, o') => (r, mkWorld o' (trace w ++ [ev]))
    end.

(** A collaborator whose calls are not traced (timers, clocks). *)
Definition quiet {A} (c : Collab A) : Async A :=
  fun w =>
    match c (outside w) with
    | (r, o') => (r, mkWorld o' (trace w))
    end.

End Effects.

Arguments Outside S : clear implicits.
Arguments World S : clear implicits.
Arguments Collab S A : clear implicits.
Arguments Async S A : clear implicits.

Notation "x <- c ;; k" := (bind c (fun x => k))
  (at level 100, c at next level, right associativity).
Notation "c ;;; k" := (bind c (fun _ => k))
  (at level 100, right associativity).

(** ** Collaborators *)

Module Download.
(** What [downloadFile] resolves to: the temporary file it wrote and the
    parts of the response the pipeline reads. *)
Record t : Type := mk {
  tempFilePath : string;
  response_url : string;
  response_status : Z;
  response_contentType : option string;   (* [headers.get("Content-Type")] *)
}.
End Download.

Module PDFProcessorResult.
Record t : Type := mk { html : string; markdown : option string }.
End PDFProcessorResult.

Module Postprocessor.
Record t {S : Type} : Type := mk {
  name : string;
  shouldRun : Meta.t -> string -> option (list string) -> bool;
  run : Meta.t -> EngineScrapeResult.t -> Collab S EngineScrapeResult.t;
}.
Arguments t S : clear implicits.
End Postprocessor.

(** Configuration and the code the pipeline calls but does not contain. *)
Record Env {S : Type} : Type := mkEnv {
  (* [config] and [services/index] *)
  FIRE_ENGINE_BETA_URL : option string;
  PLAYWRIGHT_MICROSERVICE_URL : option string;
  FIRECRAWL_INDEX_WRITE_ONLY : option bool;
  useIndex : bool;
  RUNPOD_MU_API_KEY : option string;
  RUNPOD_MU_POD_ID : option string;
  (* [lib/format-utils], [controllers/v2/types] *)
  hasFormatOfType : list Format.t -> string -> option Format.t;
  getPDFMaxPages : option (list Parser.t) -> option Z;
  shouldParsePDF : option (list Parser.t) -> bool;
  (* [buildMetaObject]'s lookups *)
  urlSpecificParams :
    string ->
    option ((ScrapeOptions.t -> ScrapeOptions.t)
            * (InternalOptions.t -> InternalOptions.t));
  getEngineForUrl : string -> option Engine;
  rewriteUrl : string -> option string;
  (* [engineHandlers] *)
  engineHandlers : Engine -> Meta.t -> Collab S EngineScrapeResult.t;
  (* [engines/utils/downloadFile], [engines/document] *)
  downloadFile :
    string -> string -> bool -> option (list (string * string)) ->
    Collab S Download.t;
  scrapeDocument : Meta.t -> Collab S EngineScrapeResult.t;
  (* PDF parsers *)
  getPdfMetadata : string -> Collab S PdfMetadata.t;
  scrapePDFWithRunPodMU :
    Meta.t -> string -> string -> option Z -> Collab S PDFProcessorResult.t;
  PdfParse : Buffer -> Collab S string;
  escapeHtml : string -> string;
  (* [postprocessors], [transformers] *)
  postprocessors : list (Postprocessor.t S);
  executeTransformers : Meta.t -> Document.t -> Collab S Document.t;
  (* [meta.abort] *)
  throwIfAborted : Collab S unit;
  scrapeTimeout : S -> option Z;
  (* the platform *)
  newURL : string -> option string;          (* [new URL(s)], [None]: it throws *)
  randomUUID : S -> string * S;
  tmpdir : string;
  writeFileError : S -> string -> option ScrapeError;
  fromBase64 : string -> Buffer;
  toBase64 : Buffer -> string;
}.
Arguments Env S : clear implicits.

(** ** The file system ([fs/promises]) *)

Section FileSystem.

Context {S : Type} (env : Env S).

(** [writeFile(path, data)] *)
Definition writeFile (path : string) (data : Buffer) : Async S unit :=
  fun w =>
    let o := outside w in
    match writeFileError env (services o) path with
    | Some e => (Thrown e, mkWorld o (trace w ++ [WriteFile path]))
    | None =>
        (Returned tt,
         mkWorld (mkOutside (<[path := data]> (files o)) (services o))
                 (trace w ++ [WriteFile path]))
    end.

(** The temporary directory accepts every write. *)
Definition writable : Prop :=
  forall s path, writeFileError env s path = None.

(** [readFile(path)] *)
Definition readFile (path : string) : Async S Buffer :=
  fun w =>
    let w' := mkWorld (outside w) (trace w ++ [ReadFile path]) in
    match files (outside w) !! path with
    | Some data => (Returned data, w')
    | None => (Thrown (Error "ENOENT"), w')
    end.

(** [unlink(path)] *)
Definition unlink (path : string) : Async S unit :=
  fun w =>
    let o := outside w in
    match files o !! path with
    | Some _ =>
        (Returned tt,
         mkWorld (mkOutside (delete path (files o)) (services o))
                 (trace w ++ [Unlink path]))
    | None => (Thrown (Error "ENOENT"), mkWorld o (trace w ++ [Unlink path]))
    end.

(** [crypto.randomUUID()] *)
Definition freshUUID : Async S string :=
  fun w =>
    let o := outside w in
    let '(u, s') := randomUUID env (services o) in
    (Returned u, mkWorld (mkOutside (files o) s') (trace w)).

End FileSystem.

(** ** Specialty content detection ([engines/utils/specialtyHandler.ts]) *)

Definition documentTypes : list string :=
  [ "application/vnd.openxmlformats-officedocument.wordprocessingml.document";
    "application/vnd.openxmlformats-officedocument.spreadsheetml.sheet";
    "application/vnd.ms-excel";
    "application/msword";
    "application/rtf";
    "text/rtf";
    "application/vnd.oasis.opendocument.text" ].

Definition getHeaderContentType
    (headers : option (list (string * string))) (fallback : option string)
  : option string :=
  if Js.truthy fallback then fallback
  else
    match List.find
            (fun x => String.eqb (Js.toLowerCase (fst x)) "content-type")
            (default [] headers) with
    | Some x => Some (snd x)
    | None => None
    end.

Definition getDocumentExtension (contentType : option string) : string :=
  match contentType with
  | None => "tmp"
  | Some ct =>
      if negb (Js.truthy ct) then "tmp"
      else if Js.includes ct "wordprocessingml" || Js.includes ct "msword"
      then "docx"
      else if Js.includes ct "spreadsheetml" || Js.includes ct "ms-excel"
      then "xlsx"
      else if Js.includes ct "opendocument.text" then "odt"
      else if Js.includes ct "rtf" then "rtf"
      else "tmp"
  end.

Definition specialtyTypeName (t : SpecialtyPlan.SpecialtyType) : string :=
  match t with SpecialtyPlan.pdf => "pdf" | SpecialtyPlan.document => "document" end.

Definition hasPdfSignature (body binaryContent : option string) : bool :=
  let raw := Js.nullish body "" in
  let base64 := Js.nullish binaryContent "" in
  Js.startsWith raw "%PDF-"
  || Js.startsWith raw "JVBERi0"
  || Js.startsWith base64 "JVBERi0".

Definition hasDocumentSignature (body binaryContent : option string) : bool :=
  let raw := Js.nullish body "" in
  let base64 := Js.nullish binaryContent "" in
  Js.startsWith raw "PK"
  || Js.startsWith raw "UEsD"
  || Js.startsWith base64 "UEsD".

(** [normalizedContentType?.startsWith(p)] *)
Definition startsWith' (normalizedContentType : option string) (p : string)
  : bool :=
  match normalizedContentType with
  | Some ct => Js.startsWith ct p
  | None => false
  end.

(** The three classifications [detectSpecialtyPlan] computes from the
    normalized content type. *)
Definition isDocument (normalizedContentType : option string) : bool :=
  existsb (startsWith' normalizedContentType) documentTypes.

Definition isPdf (normalizedContentType : option string) : bool :=
  bool_decide (normalizedContentType = Some "application/pdf")
  || startsWith' normalizedContentType "application/pdf;".

Definition isOctetStream (normalizedContentType : option string) : bool :=
  bool_decide (normalizedContentType = Some "application/octet-stream")
  || startsWith' normalizedContentType "application/octet-stream;".

Section SpecialtyHandler.

Context {S : Type} (env : Env S).

Definition base64ToPrefetch
    (contentBase64 fileExtension : string)
    (fileType : SpecialtyPlan.SpecialtyType)
    (url : option string) (status : option Z)
    (proxyUsed : option ProxyTier) (contentType : option string)
  : Async S (Nullable Prefetch.t) :=
  uuid <- freshUUID env ;;
  let filePath :=
    tmpdir env ++ "/" ++ "tempFile-" ++ uuid ++ "." ++ fileExtension in
  try_catch
    (writeFile env filePath (fromBase64 env contentBase64))
    (fun error =>
       log "error"
           ("Failed to write " ++ specialtyTypeName fileType
            ++ " prefetch file") ;;;
       throw error) ;;;
  ret (value
         (Prefetch.mk filePath url (Js.nullish status 200)
                      (Js.nullish proxyUsed basic) contentType)).

Definition detectSpecialtyPlan (input : SpecialtyDetectionInput.t)
  : Async S (option SpecialtyPlan.t) :=
  let contentType :=
    getHeaderContentType (SpecialtyDetectionInput.headers input)
                         (SpecialtyDetectionInput.contentType input) in
  let normalizedContentType := Js.toLowerCase <$> contentType in
  let binaryContent :=
    BinaryFile.content <$> SpecialtyDetectionInput.binaryFile input in
  let body := SpecialtyDetectionInput.body input in
  if negb (Js.truthy normalizedContentType)
     && negb (Js.truthy body)
     && negb (Js.truthy binaryContent)
  then
    log "warn" "Failed to detect specialty type: no content or headers" ;;;
    ret None
  else
    let isDocument := isDocument normalizedContentType in
    let isPdf := isPdf normalizedContentType in
    let isOctetStream := isOctetStream normalizedContentType in
    if isDocument || (isOctetStream && hasDocumentSignature body binaryContent)
    then
      prefetch <-
        (match binaryContent with
         | Some content =>
             if Js.truthy content
             then base64ToPrefetch content
                    (getDocumentExtension normalizedContentType)
                    SpecialtyPlan.document
                    (SpecialtyDetectionInput.url input)
                    (SpecialtyDetectionInput.status input)
                    (SpecialtyDetectionInput.proxyUsed input)
                    normalizedContentType
             else ret undefined
         | None => ret undefined
         end) ;;
      ret (Some (SpecialtyPlan.mk SpecialtyPlan.document
                                  normalizedContentType prefetch))
    else if isPdf || (isOctetStream && hasPdfSignature body binaryContent)
    then
      prefetch <-
        (match binaryContent with
         | Some content =>
             if Js.truthy content
             then base64ToPrefetch content "pdf" SpecialtyPlan.pdf
                    (SpecialtyDetectionInput.url input)
                    (SpecialtyDetectionInput.status input)
                    (SpecialtyDetectionInput.proxyUsed input)
                    normalizedContentType
             else ret undefined
         | None => ret undefined
         end) ;;
      ret (Some (SpecialtyPlan.mk SpecialtyPlan.pdf
                                  normalizedContentType prefetch))
    else if negb (Js.truthy normalizedContentType)
            && hasDocumentSignature body binaryContent
    then
      ret (Some (SpecialtyPlan.mk SpecialtyPlan.document
                                  normalizedContentType undefined))
    else if negb (Js.truthy normalizedContentType)
            && hasPdfSignature body binaryContent
    then
      ret (Some (SpecialtyPlan.mk SpecialtyPlan.pdf
                                  normalizedContentType undefined))
    else ret None.

End SpecialtyHandler.

(** ** The PDF parser front end ([engines/pdf/index.ts]) *)

Definition MAX_FILE_SIZE : Z := 19 * 1024 * 1024.
Definition MILLISECONDS_PER_PAGE : Z := 150.

Section ScrapePDF.

Context {S : Type} (env : Env S).

Definition scrapePDFWithParsePDF (meta : Meta.t) (tempFilePath : string)
  : Async S PDFProcessorResult.t :=
  log "debug" "Processing PDF document with parse-pdf" ;;;
  data <- readFile tempFilePath ;;
  text <- call (ParserCall "PdfParse") (PdfParse env data) ;;
  let escaped := escapeHtml env text in
  ret (PDFProcessorResult.mk escaped (Some escaped)).

(** The statements of [scrapePDF] inside its [try] block. *)
Definition scrapePDF_try
    (meta : Meta.t) (shouldParse : bool) (maxPages : option Z)
    (tempFilePath responseUrl : string) (statusCode : Z)
    (contentType : option string) (proxyUsed : ProxyTier)
  : Async S EngineScrapeResult.t :=
  data <- readFile tempFilePath ;;
  let base64Content := toBase64 env data in
  if negb shouldParse then
    ret (EngineScrapeResult.mk responseUrl base64Content
           (Some base64Content) statusCode None None None None None None
           contentType None (Some proxyUsed) None None)
  else
    pdfMetadata <-
      call (ParserCall "getPdfMetadata") (getPdfMetadata env tempFilePath) ;;
    let effectivePageCount :=
      match maxPages with
      | Some m =>
          if Js.truthy m then Z.min (PdfMetadata.numPages pdfMetadata) m
          else PdfMetadata.numPages pdfMetadata
      | None => PdfMetadata.numPages pdfMetadata
      end in
    timeout <- (fun w => (Returned (scrapeTimeout env (services (outside w))), w)) ;;
    if match timeout with
       | Some t => t <? effectivePageCount * MILLISECONDS_PER_PAGE
       | None => false
       end
    then
      throw (PDFInsufficientTimeError
               effectivePageCount
               (effectivePageCount * MILLISECONDS_PER_PAGE + 5000))
    else
      result <-
        (if (Z.of_nat (String.length base64Content) <? MAX_FILE_SIZE)
            && Js.truthy (RUNPOD_MU_API_KEY env)
            && Js.truthy (RUNPOD_MU_POD_ID env)
         then
           try_catch
             (r <- call (ParserCall "scrapePDFWithRunPodMU")
                        (scrapePDFWithRunPodMU env meta tempFilePath
                                               base64Content maxPages) ;;
              log "info" "MU v1 completed" ;;;
              ret r)
             (fun error =>
                if bool_decide (error = AbortManagerThrownError)
                then throw error
                else
                  log "warn" "RunPod MU failed to parse PDF" ;;;
                  log "info" "MU v1 failed" ;;;
                  throw error)
         else scrapePDFWithParsePDF meta tempFilePath) ;;
      ret (EngineScrapeResult.mk responseUrl
             (PDFProcessorResult.html result)
             (PDFProcessorResult.markdown result) statusCode None None None
             None
             (Some (PdfMetadata.mk effectivePageCount
                                   (PdfMetadata.title pdfMetadata)))
             None contentType None (Some proxyUsed) None None).

(** The [finally] block of [scrapePDF]. *)
Definition scrapePDF_finally (tempFilePath : string) : Async S unit :=
  try_catch
    (unlink tempFilePath)
    (fun error => log "warn" "Failed to clean up temporary PDF file").

Definition scrapePDF (meta : Meta.t) : Async S EngineScrapeResult.t :=
  let shouldParse :=
    shouldParsePDF env (ScrapeOptions.parsers (Meta.options meta)) in
  let maxPages :=
    getPDFMaxPages env (ScrapeOptions.parsers (Meta.options meta)) in
  let mismatch (contentType : option string) : bool :=
    match contentType with
    | Some ct => Js.truthy ct && negb (Js.includes ct "application/pdf")
    | None => false
    end in
  bound <-
    (match Meta.pdfPrefetch meta with
     | value pdfPrefetch =>
         let tempFilePath := Prefetch.filePath pdfPrefetch in
         let responseUrl :=
           Js.nullish (Prefetch.url pdfPrefetch)
             (Js.nullish (Meta.rewrittenUrl meta) (Meta.url meta)) in
         let statusCode := Prefetch.status pdfPrefetch in
         let contentType := Prefetch.contentType pdfPrefetch in
         let proxyUsed := Prefetch.proxyUsed pdfPrefetch in
         if mismatch contentType then throw PDFPrefetchFailed
         else ret (tempFilePath, responseUrl, statusCode, contentType,
                   proxyUsed)
     | _ =>
         let url := Js.nullish (Meta.rewrittenUrl meta) (Meta.url meta) in
         file <-
           call (DownloadFile url)
                (downloadFile env (Meta.id meta) url
                   (Js.truthy
                      (ScrapeOptions.skipTlsVerification (Meta.options meta)))
                   (ScrapeOptions.headers (Meta.options meta))) ;;
         let tempFilePath := Download.tempFilePath file in
         let responseUrl := Download.response_url file in
         let statusCode := Download.response_status file in
         let contentType := Download.response_contentType file in
         if mismatch contentType then throw PDFPrefetchFailed
         else ret (tempFilePath, responseUrl, statusCode, contentType, basic)
     end) ;;
  let '(tempFilePath, responseUrl, statusCode, contentType, proxyUsed) :=
    bound in
  try_finally
    (scrapePDF_try meta shouldParse maxPages tempFilePath responseUrl
                   statusCode contentType proxyUsed)
    (scrapePDF_finally tempFilePath).

End ScrapePDF.

(** ** The orchestrator ([scrapeURL/index.ts], [engines/index.ts]) *)

Definition engineName (engine : Engine) : string :=
  match engine with
  | fire_engine_chrome_cdp => "fire-engine;chrome-cdp"
  | playwright => "playwright"
  | fetch => "fetch"
  | index => "index"
  end.

Definition flagName (flag : FeatureFlag) : string :=
  match flag with
  | actions => "actions"
  | waitFor => "waitFor"
  | screenshot => "screenshot"
  | screenshot_fullScreen => "screenshot@fullScreen"
  | atsv => "atsv"
  | location => "location"
  | mobile => "mobile"
  | skipTlsVerification => "skipTlsVerification"
  | useFastMode => "useFastMode"
  | stealthProxy => "stealthProxy"
  | branding => "branding"
  | disableAdblock => "disableAdblock"
  end.

(** The order in which [buildFeatureFlags] adds flags, hence the order in
    which a flag set built by it is iterated. *)
Definition insertionOrder : list FeatureFlag :=
  [ actions; screenshot_fullScreen; screenshot; branding; waitFor; atsv;
    location; mobile; skipTlsVerification; useFastMode; stealthProxy;
    disableAdblock ].

(** [[...flags].join(", ")] *)
Definition joinFlags (flags : gset FeatureFlag) : string :=
  String.concat ", " (map flagName (List.filter (has flags) insertionOrder)).

(** The [cacheMetadata] object of [scrapeURLSingle]: its [cacheState] and
    [cachedAt] properties, absent when the object is empty. *)
Definition cacheMetadata
    (indexAttempted : bool) (engine : Engine)
    (engineResult : EngineScrapeResult.t)
  : option CacheState * option Z :=
  if indexAttempted then
    if bool_decide (engine = index)
       && Js.defined (EngineScrapeResult.cacheInfo engineResult)
    then (Some hit, EngineScrapeResult.cacheInfo engineResult)
    else (Some miss, None)
  else (None, None).

Section Orchestrator.

Context {S : Type} (env : Env S).

Definition buildFeatureFlags
    (url : string) (options : ScrapeOptions.t)
    (internalOptions : InternalOptions.t) : gset FeatureFlag :=
  let add (c : bool) (flag : FeatureFlag) (flags : gset FeatureFlag) :=
    if c then {[ flag ]} ∪ flags else flags in
  let formats := ScrapeOptions.formats options in
  let flags : gset FeatureFlag := ∅ in
  let flags := add (Js.defined (ScrapeOptions.actions options)) actions flags in
  let flags :=
    match hasFormatOfType env formats "screenshot" with
    | Some fmt =>
        if Js.truthy (Format.fullPage fmt)
        then {[ screenshot_fullScreen ]} ∪ flags
        else {[ screenshot ]} ∪ flags
    | None => flags
    end in
  let flags :=
    add (Js.defined (hasFormatOfType env formats "branding")) branding flags in
  let flags := add (negb (ScrapeOptions.waitFor options =? 0)) waitFor flags in
  let flags :=
    add (Js.truthy (InternalOptions.atsv internalOptions)) atsv flags in
  let flags := add (Js.truthy (ScrapeOptions.location options)) location flags in
  let flags := add (ScrapeOptions.mobile options) mobile flags in
  let flags :=
    add (Js.truthy (ScrapeOptions.skipTlsVerification options))
        skipTlsVerification flags in
  let flags := add (ScrapeOptions.fastMode options) useFastMode flags in
  let flags :=
    add (bool_decide (ScrapeOptions.proxy options = Some "stealth"))
        stealthProxy flags in
  let flags := add (negb (ScrapeOptions.blockAds options)) disableAdblock flags in
  flags.

(** The request data [buildMetaObject] computes (its logger, timers, mock
    and cost tracking carry no data of the pipeline's decisions). *)
Definition buildMetaObject
    (id url : string) (options : ScrapeOptions.t)
    (internalOptions : InternalOptions.t) : Meta.t :=
  let '(options, internalOptions) :=
    match urlSpecificParams env url with
    | Some specParams =>
        (fst specParams options, snd specParams internalOptions)
    | None => (options, internalOptions)
    end in
  let internalOptions :=
    match InternalOptions.forceEngine internalOptions with
    | None =>
        match getEngineForUrl env url with
        | Some forcedEngine =>
            InternalOptions.mk
              (InternalOptions.teamId internalOptions)
              (Some forcedEngine)
              (InternalOptions.atsv internalOptions)
              (InternalOptions.zeroDataRetention internalOptions)
              (InternalOptions.unnormalizedSourceURL internalOptions)
        | None => internalOptions
        end
    | Some _ => internalOptions
    end in
  let nonEmpty {A} (l : option (list A)) : bool :=
    match l with Some (_ :: _) => true | _ => false end in
  let skipTls :=
    Js.nullish (ScrapeOptions.skipTlsVerification options)
      (if nonEmpty (ScrapeOptions.headers options)
          || nonEmpty (ScrapeOptions.actions options)
       then false else true) in
  Meta.mk id url (rewriteUrl env url)
    (ScrapeOptions.mk
       (ScrapeOptions.formats options) (ScrapeOptions.actions options)
       (ScrapeOptions.waitFor options) (ScrapeOptions.location options)
       (ScrapeOptions.mobile options) (Some skipTls)
       (ScrapeOptions.fastMode options) (ScrapeOptions.proxy options)
       (ScrapeOptions.blockAds options) (ScrapeOptions.maxAge options)
       (ScrapeOptions.headers options) (ScrapeOptions.parsers options)
       (ScrapeOptions.timeout options))
    internalOptions
    (buildFeatureFlags url options internalOptions)
    undefined undefined None.

Definition selectLiveEngine (meta : Meta.t) : Async S Engine :=
  if Js.truthy (FIRE_ENGINE_BETA_URL env) then ret fire_engine_chrome_cdp
  else if Js.truthy (PLAYWRIGHT_MICROSERVICE_URL env) then ret playwright
  else
    log "info" "No live engine configured; defaulting to fetch" ;;;
    ret fetch.

Definition shouldUseIndex (meta : Meta.t) : bool :=
  let options := Meta.options meta in
  let formats := ScrapeOptions.formats options in
  let screenshotFormat := hasFormatOfType env formats "screenshot" in
  let hasCustomScreenshotSettings :=
    Js.defined (screenshotFormat ≫= Format.viewport)
    || Js.defined (screenshotFormat ≫= Format.quality) in
  useIndex env
  && negb (bool_decide (FIRECRAWL_INDEX_WRITE_ONLY env = Some true))
  && negb (Js.defined (hasFormatOfType env formats "changeTracking"))
  && negb (Js.defined (hasFormatOfType env formats "branding"))
  && negb (Js.defined (getPDFMaxPages env (ScrapeOptions.parsers options)))
  && negb hasCustomScreenshotSettings
  && negb (bool_decide (ScrapeOptions.maxAge options = Some 0))
  && match ScrapeOptions.headers options with
     | None => true
     | Some h => bool_decide (h = [])
     end
  && match ScrapeOptions.actions options with
     | None => true
     | Some a => bool_decide (a = [])
     end
  && negb (bool_decide (ScrapeOptions.proxy options = Some "stealth")).

Definition scrapeURLWithEngine (meta : Meta.t) (engine : Engine)
  : Async S EngineScrapeResult.t :=
  call (EngineCall engine) (engineHandlers env engine meta).

(** [prefetchPdfFile] and [prefetchDocumentFile] have the same body. *)
Definition prefetchFile
    (meta : Meta.t) (engineResult : EngineScrapeResult.t)
    (contentType : option string) : Async S (Nullable Prefetch.t) :=
  let url := EngineScrapeResult.url engineResult in
  download <-
    call (DownloadFile url)
         (downloadFile env (Meta.id meta) url
            (Js.truthy (ScrapeOptions.skipTlsVerification (Meta.options meta)))
            (ScrapeOptions.headers (Meta.options meta))) ;;
  ret (value
         (Prefetch.mk
            (Download.tempFilePath download)
            (Some (Download.response_url download))
            (Download.response_status download)
            (Js.nullish (EngineScrapeResult.proxyUsed engineResult) basic)
            (match Download.response_contentType download with
             | Some ct => Some ct
             | None => contentType
             end))).

Definition prefetchPdfFile := prefetchFile.
Definition prefetchDocumentFile := prefetchFile.

(** [a ?? b ?? c] on content types. *)
Definition firstContentType (a b c : option string) : option string :=
  match a with
  | Some _ => a
  | None => match b with Some _ => b | None => c end
  end.

Definition applySpecialtyParsing
    (meta : Meta.t) (engine : Engine) (engineResult : EngineScrapeResult.t)
  : Async S (Meta.t * EngineScrapeResult.t) :=
  specialtyPlan <-
    detectSpecialtyPlan env
      (SpecialtyDetectionInput.mk None
         (EngineScrapeResult.contentType engineResult)
         (Some (EngineScrapeResult.html engineResult))
         (EngineScrapeResult.binaryFile engineResult)
         (Some (EngineScrapeResult.url engineResult))
         (Some (EngineScrapeResult.statusCode engineResult))
         (EngineScrapeResult.proxyUsed engineResult)) ;;
  match specialtyPlan with
  | None => ret (meta, engineResult)
  | Some specialtyPlan =>
      if bool_decide (engine = fire_engine_chrome_cdp)
         && negb (Js.truthy (SpecialtyPlan.prefetch specialtyPlan))
      then
        throw (EngineError
                 ("Fire Engine response missing file payload for "
                  ++ specialtyTypeName (SpecialtyPlan.type specialtyPlan)))
      else
        match SpecialtyPlan.type specialtyPlan with
        | SpecialtyPlan.pdf =>
            pdfPrefetch <-
              (match SpecialtyPlan.prefetch specialtyPlan with
               | value p => ret (value p)
               | _ => prefetchPdfFile meta engineResult
                        (SpecialtyPlan.contentType specialtyPlan)
               end) ;;
            let meta := Meta.set_pdfPrefetch pdfPrefetch meta in
            pdfResult <- scrapePDF env meta ;;
            ret (meta,
                 EngineScrapeResult.set_contentType
                   (firstContentType
                      (EngineScrapeResult.contentType pdfResult)
                      (SpecialtyPlan.contentType specialtyPlan)
                      (EngineScrapeResult.contentType engineResult))
                   pdfResult)
        | SpecialtyPlan.document =>
            documentPrefetch <-
              (match SpecialtyPlan.prefetch specialtyPlan with
               | value p => ret (value p)
               | _ => prefetchDocumentFile meta engineResult
                        (SpecialtyPlan.contentType specialtyPlan)
               end) ;;
            let meta := Meta.set_documentPrefetch documentPrefetch meta in
            documentResult <-
              call (ParserCall "scrapeDocument") (scrapeDocument env meta) ;;
            ret (meta,
                 EngineScrapeResult.set_contentType
                   (firstContentType
                      (EngineScrapeResult.contentType documentResult)
                      (SpecialtyPlan.contentType specialtyPlan)
                      (EngineScrapeResult.contentType engineResult))
                   documentResult)
        end
  end.

(** [forceEngine ?? selectLiveEngine(meta)] *)
Definition chooseLiveEngine (meta : Meta.t) : Async S Engine :=
  match InternalOptions.forceEngine (Meta.internalOptions meta) with
  | Some e => ret e
  | None => selectLiveEngine meta
  end.

(** [selectEngineAndScrape] from [const liveEngine] on: the live engine
    is chosen, checked against the must-have flags, invoked, and its
    result goes through specialty parsing. *)
Definition scrapeWithLiveEngine
    (meta : Meta.t) (indexEligible : bool) (enginesAttempted : list string)
  : Async S (Meta.t * EngineOutcome.t * list string) :=
  let flags := Meta.featureFlags meta in
  liveEngine <- chooseLiveEngine meta ;;
  let unsupportedFeatures := getUnsupportedFeatures flags liveEngine in
  let enginesAttempted : list string :=
    (enginesAttempted ++ [engineName liveEngine])%list in
  if has flags actions && has unsupportedFeatures actions then
    throw (ActionsNotSupportedError
             "Actions are not supported by this engine. Actions require Fire Engine (fire-engine) to be enabled.")
  else if has flags branding && has unsupportedFeatures branding then
    throw (Error "Branding extraction requires Chrome CDP (fire-engine).")
  else
    rawResult <- scrapeURLWithEngine meta liveEngine ;;
    parsed <- applySpecialtyParsing meta liveEngine rawResult ;;
    let '(meta, parsedResult) := parsed in
    ret (meta,
         EngineOutcome.mk liveEngine unsupportedFeatures parsedResult
                          indexEligible,
         enginesAttempted).

Definition selectEngineAndScrape (meta : Meta.t)
  : Async S (Meta.t * EngineOutcome.t * list string) :=
  let enginesAttempted : list string := [] in
  let forceEngine := InternalOptions.forceEngine (Meta.internalOptions meta) in
  let indexEligible :=
    bool_decide (forceEngine = None) && shouldUseIndex meta in
  let flags := Meta.featureFlags meta in
  if bool_decide (forceEngine = Some index) then
    let enginesAttempted : list string := (enginesAttempted ++ ["index"])%list in
    result <- scrapeURLWithEngine meta index ;;
    ret (meta,
         EngineOutcome.mk index (getUnsupportedFeatures flags index) result
                          true,
         enginesAttempted)
  else if indexEligible then
    let enginesAttempted : list string := (enginesAttempted ++ ["index"])%list in
    cached <-
      try_catch
        (result <- scrapeURLWithEngine meta index ;;
         ret (Some result))
        (fun error =>
           if negb (bool_decide (error = IndexMissError))
              && negb (bool_decide (error = NoCachedDataError))
           then throw error
           else ret None) ;;
    match cached with
    | Some result =>
        ret (meta,
             EngineOutcome.mk index (getUnsupportedFeatures flags index)
                              result true,
             enginesAttempted)
    | None => scrapeWithLiveEngine meta indexEligible enginesAttempted
    end
  else scrapeWithLiveEngine meta indexEligible enginesAttempted.

(** The zero-data-retention checks at the head of [scrapeURLSingle]:
    the argument of the [ZDRViolationError] they throw, if any. *)
Definition zdrViolation (meta : Meta.t) : option string :=
  let flags := Meta.featureFlags meta in
  let findAction (type : string) : bool :=
    match ScrapeOptions.actions (Meta.options meta) with
    | Some l =>
        Js.defined
          (List.find (fun x => String.eqb (Action.type x) type) l)
    | None => false
    end in
  if Js.truthy (InternalOptions.zeroDataRetention (Meta.internalOptions meta))
  then
    if has flags screenshot then Some "screenshot"
    else if has flags screenshot_fullScreen then Some "screenshot@fullScreen"
    else if findAction "screenshot" then Some "screenshot action"
    else if findAction "pdf" then Some "pdf action"
    else None
  else None.

(** One turn of the [for (const postprocessor of postprocessors)] loop. *)
Definition runPostprocessor
    (meta : Meta.t) (postprocessor : Postprocessor.t S)
    (engineResult : EngineScrapeResult.t) : Async S EngineScrapeResult.t :=
  match newURL env (EngineScrapeResult.url engineResult) with
  | None => throw (TypeError "Invalid URL")
  | Some finalUrl =>
      if Postprocessor.shouldRun postprocessor meta finalUrl
           (EngineScrapeResult.postprocessorsUsed engineResult)
      then
        log "info"
            ("Running postprocessor " ++ Postprocessor.name postprocessor) ;;;
        try_catch
          (call (PostprocessorRun (Postprocessor.name postprocessor))
                (Postprocessor.run postprocessor meta engineResult))
          (fun error =>
             log "warn"
                 ("Failed to run postprocessor "
                  ++ Postprocessor.name postprocessor) ;;;
             ret engineResult)
      else ret engineResult
  end.

Fixpoint runPostprocessors
    (meta : Meta.t) (chain : list (Postprocessor.t S))
    (engineResult : EngineScrapeResult.t) : Async S EngineScrapeResult.t :=
  match chain with
  | [] => ret engineResult
  | postprocessor :: rest =>
      engineResult <- runPostprocessor meta postprocessor engineResult ;;
      runPostprocessors meta rest engineResult
  end.

(** The [document] object [scrapeURLSingle] assembles, with the warning
    about unsupported features appended. *)
Definition assembleDocument
    (meta : Meta.t) (outcome : EngineOutcome.t)
    (engineResult : EngineScrapeResult.t) : Document.t :=
  let engine := EngineOutcome.engine outcome in
  let unsupportedFeatures := EngineOutcome.unsupportedFeatures outcome in
  let cache :=
    cacheMetadata (EngineOutcome.indexAttempted outcome) engine engineResult in
  let pdfMetadata := EngineScrapeResult.pdfMetadata engineResult in
  Document.mk
    (EngineScrapeResult.markdown engineResult)
    (EngineScrapeResult.html engineResult)
    (EngineScrapeResult.screenshot engineResult)
    (EngineScrapeResult.actions engineResult)
    (EngineScrapeResult.branding engineResult)
    (Metadata.mk
       (Js.nullish
          (InternalOptions.unnormalizedSourceURL (Meta.internalOptions meta))
          (Meta.url meta))
       (EngineScrapeResult.url engineResult)
       (EngineScrapeResult.statusCode engineResult)
       (EngineScrapeResult.error engineResult)
       (PdfMetadata.numPages <$> pdfMetadata)
       (match pdfMetadata ≫= PdfMetadata.title with
        | Some t => if Js.truthy t then Some t else None
        | None => None
        end)
       (EngineScrapeResult.contentType engineResult)
       (EngineScrapeResult.timezone engineResult)
       (Js.nullish (EngineScrapeResult.proxyUsed engineResult) basic)
       (fst cache) (snd cache)
       (EngineScrapeResult.postprocessorsUsed engineResult))
    (if bool_decide (unsupportedFeatures = ∅) then None
     else
       Some ("The engine used does not support the following features: "
             ++ joinFlags unsupportedFeatures
             ++ " -- your scrape may be partial.")).

(** [scrapeURLSingle] from the assembly of the document on. *)
Definition finishDocument
    (meta : Meta.t) (outcome : EngineOutcome.t)
    (engineResult : EngineScrapeResult.t)
  : Async S (Document.t * gset FeatureFlag) :=
  let unsupportedFeatures := EngineOutcome.unsupportedFeatures outcome in
  let document := assembleDocument meta outcome engineResult in
  (if bool_decide (unsupportedFeatures = ∅) then ret tt
   else log "warn" "The engine used does not support some features") ;;;
  document <- call Transformers (executeTransformers env meta document) ;;
  ret (document, unsupportedFeatures).

(** [scrapeURLSingle] from the engine's outcome on. *)
Definition postprocess
    (selected : Meta.t * EngineOutcome.t * list string)
  : Async S (Document.t * gset FeatureFlag) :=
  let '(meta, outcome, enginesAttempted) := selected in
  let engine := EngineOutcome.engine outcome in
  let meta := Meta.set_winnerEngine engine meta in
  engineResult <-
    runPostprocessors meta (postprocessors env)
                      (EngineOutcome.result outcome) ;;
  finishDocument meta outcome engineResult.

(** The world in which engine selection starts when the checks at the
    head of [scrapeURLSingle] pass: [o] is what [throwIfAborted] left. *)
Definition started (w : World S) (o : Outside S) : World S :=
  mkWorld o (trace w ++ [Log "info" "Scraping URL"]).

(** The transformers leave the cache fields of the metadata as they find
    them. *)
Definition transformersKeepCache : Prop :=
  forall meta document o document' o',
    executeTransformers env meta document o = (Returned document', o') ->
    Metadata.cacheState (Document.metadata document')
      = Metadata.cacheState (Document.metadata document)
    /\ Metadata.cachedAt (Document.metadata document')
       = Metadata.cachedAt (Document.metadata document).

Definition scrapeURLSingle (meta : Meta.t)
  : Async S (Document.t * gset FeatureFlag) :=
  log "info" "Scraping URL" ;;;
  match zdrViolation meta with
  | Some feature => throw (ZDRViolationError feature)
  | None => ret tt
  end ;;;
  quiet (throwIfAborted env) ;;;
  selected <- selectEngineAndScrape meta ;;
  postprocess selected.

End Orchestrator.

(** ** Reading traces *)

(** The engines a trace shows to have been invoked, in order. *)
Definition engineCalls (t : list Event) : list Engine :=
  omap (fun ev => match ev with EngineCall e => Some e | _ => None end) t.

Definition isEngineCall (ev : Event) : bool :=
  match ev with EngineCall _ => true | _ => false end.

(** A trace segment without engine invocations. *)
Definition noEngine (t : list Event) : Prop := engineCalls t = [].

(** A computation [appends P] when, from every world, the trace it leaves
    is the one it found followed by a segment satisfying [P]. *)
Definition appends {S A : Type} (P : list Event -> Prop) (c : Async S A)
  : Prop :=
  forall w, exists t, (trace (c w).2 = trace w ++ t)%list /\ P t.

(** ** A concrete deployment, for evaluating the pipeline *)

Module Example.

(** [formats.find(f => f.type === type)] *)
Definition findFormat (formats : list Format.t) (type : string)
  : option Format.t :=
  List.find (fun f => String.eqb (Format.type f) type) formats.

Definition page (cacheInfo : option Z) : EngineScrapeResult.t :=
  EngineScrapeResult.mk "https://example.com/" "<html></html>" None 200
    None None None None None cacheInfo (Some "text/html") None (Some basic)
    None None.

(** A deployment with the index enabled and no live backend configured
    (the live engine is [fetch]); the outcomes of the index and of the
    live engine, and the postprocessor chain, are given. *)
Definition env
    (indexOutcome liveOutcome : Outcome EngineScrapeResult.t)
    (chain : list (Postprocessor.t unit)) : Env unit :=
  {| FIRE_ENGINE_BETA_URL := None;
     PLAYWRIGHT_MICROSERVICE_URL := None;
     FIRECRAWL_INDEX_WRITE_ONLY := None;
     useIndex := true;
     RUNPOD_MU_API_KEY := None;
     RUNPOD_MU_POD_ID := None;
     hasFormatOfType := findFormat;
     getPDFMaxPages := fun _ => None;
     shouldParsePDF := fun _ => true;
     urlSpecificParams := fun _ => None;
     getEngineForUrl := fun _ => None;
     rewriteUrl := fun _ => None;
     engineHandlers := fun engine _ o =>
       match engine with
       | index => (indexOutcome, o)
       | _ => (liveOutcome, o)
       end;
     downloadFile := fun _ url _ _ o =>
       (Returned (Download.mk "/tmp/download.bin" url 200 None),
        mkOutside (<["/tmp/download.bin" := "bytes"]> (files o)) (services o));
     scrapeDocument := fun _ o => (Thrown (Error "no document parser"), o);
     getPdfMetadata := fun _ o => (Returned (PdfMetadata.mk 1 None), o);
     scrapePDFWithRunPodMU := fun _ _ _ _ o => (Thrown (Error "no RunPod"), o);
     PdfParse := fun data o => (Returned data, o);
     escapeHtml := fun s => s;
     postprocessors := chain;
     executeTransformers := fun _ document o => (Returned document, o);
     throwIfAborted := fun o => (Returned tt, o);
     scrapeTimeout := fun _ => None;
     newURL := fun s => Some s;
     randomUUID := fun s => ("00000000-0000-4000-8000-000000000000", s);
     tmpdir := "/tmp";
     writeFileError := fun _ _ => None;
     fromBase64 := fun s => s;
     toBase64 := fun s => s |}.

Definition options (actions : option (list Action.t)) : ScrapeOptions.t :=
  ScrapeOptions.mk [Format.mk "markdown" None None None] actions 0 None
    false None false None true None None None None.

Definition internalOptions (forceEngine : option Engine)
  : InternalOptions.t :=
  InternalOptions.mk "team" forceEngine None None None.

Definition emptyWorld : World unit := mkWorld (mkOutside ∅ tt) [].

(** The request [buildMetaObject] builds from these options. *)
Definition meta
    (e : Env unit) (actions : option (list Action.t))
    (forceEngine : option Engine) : Meta.t :=
  buildMetaObject e "scrape-1" "https://example.com/" (options actions)
                  (internalOptions forceEngine).

(** An index entry with and without cache provenance, a cache miss, and
    a live engine that must not be reached. *)
Definition cached : Outcome EngineScrapeResult.t :=
  Returned (page (Some 1700000000000)).
Definition unstamped : Outcome EngineScrapeResult.t :=
  Returned (page None).
Definition missing : Outcome EngineScrapeResult.t := Thrown IndexMissError.
Definition unreachable : Outcome EngineScrapeResult.t :=
  Thrown (Error "the live engine was invoked").
Definition live : Outcome EngineScrapeResult.t := Returned (page None).

(** A live response that announces a PDF and carries no payload. *)
Definition pdfPage : EngineScrapeResult.t :=
  EngineScrapeResult.mk "https://example.com/paper.pdf" "" None 200
    None None None None None None (Some "application/pdf") None (Some basic)
    None None.

(** A prefetched file that turned out to be an HTML page, on disk. *)
Definition htmlPrefetch : Prefetch.t :=
  Prefetch.mk "/tmp/tempFile-1.pdf" (Some "https://example.com/paper.pdf")
              200 basic (Some "text/html").

Definition diskWithPrefetch : World unit :=
  mkWorld (mkOutside {[ "/tmp/tempFile-1.pdf" := "<html>denied</html>" ]} tt)
          [].

(** A postprocessor that always applies and always throws, and one that
    always applies and records its name. *)
Definition failing : Postprocessor.t unit :=
  Postprocessor.mk unit "failing" (fun _ _ _ => true)
    (fun _ _ o => (Thrown (Error "boom"), o)).

Definition tagging : Postprocessor.t unit :=
  Postprocessor.mk unit "tagging" (fun _ _ _ => true)
    (fun _ r o =>
       (Returned
          (EngineScrapeResult.mk
             (EngineScrapeResult.url r) (EngineScrapeResult.html r)
             (EngineScrapeResult.markdown r) (EngineScrapeResult.statusCode r)
             (EngineScrapeResult.error r) (EngineScrapeResult.screenshot r)
             (EngineScrapeResult.actions r) (EngineScrapeResult.branding r)
             (EngineScrapeResult.pdfMetadata r)
             (EngineScrapeResult.cacheInfo r)
             (EngineScrapeResult.contentType r)
             (Some (default [] (EngineScrapeResult.postprocessorsUsed r)
                    ++ ["tagging"])%list)
             (EngineScrapeResult.proxyUsed r) (EngineScrapeResult.timezone r)
             (EngineScrapeResult.binaryFile r)),
        o)).

End Example.
(** ** More of JavaScript's strings *)

Module JsString.

(** [s.endsWith(p)]: [p] is [s] or a suffix of its tail. *)
Fixpoint endsWith (s p : string) : bool :=
  String.eqb s p ||
  match s with
  | EmptyString => false
  | String _ rest => endsWith rest p
  end.

(** [s.substring(n)]: what follows the first [n] characters. *)
Fixpoint substringFrom (n : nat) (s : string) : string :=
  match n, s with
  | O, _ => s
  | S n', String _ rest => substringFrom n' rest
  | S _, EmptyString => EmptyString
  end.

End JsString.

(** ** Engine forcing ([scraper/WebScraper/utils/engine-forcing.ts]) *)

Module EngineForcing.

(** A value of the parsed [FORCED_ENGINE_DOMAINS] object: a string, or
    anything else. *)
Inductive Json : Type :=
| JString (s : string)
| JOther.

(** The four strings [initializeEngineForcing] accepts as engines. *)
Definition engineOfName (s : string) : option Engine :=
  if String.eqb s "fire-engine;chrome-cdp" then Some fire_engine_chrome_cdp
  else if String.eqb s "playwright" then Some playwright
  else if String.eqb s "fetch" then Some fetch
  else if String.eqb s "index" then Some index
  else None.

(** Defining or updating the own property [key]: an existing key keeps
    its place. The keys are domain patterns; none is taken to be an array
    index, which JavaScript would enumerate first. *)
Fixpoint setOwn (object : list (string * Engine)) (key : string) (v : Engine)
  : list (string * Engine) :=
  match object with
  | [] => [(key, v)]
  | (k, x) :: rest =>
      if String.eqb k key then (k, v) :: rest
      else (k, x) :: setOwn rest key v
  end.

(** [object[key] = v] on an object made by [{}] and a string [v]. The key
    "__proto__" names the accessor of [Object.prototype], whose setter
    ignores a string: nothing is stored. *)
Definition assign (object : list (string * Engine)) (key : string) (v : Engine)
  : list (string * Engine) :=
  if String.eqb key "__proto__" then object else setOwn object key v.

(** The loop of [initializeEngineForcing] over [Object.entries(parsed)]:
    the mappings and the warnings logged, newest last. *)
Fixpoint collect
    (entries : list (string * Json))
    (engineMappings : list (string * Engine)) (logged : list Event)
  : list (string * Engine) * list Event :=
  match entries with
  | [] => (engineMappings, logged)
  | (domain, engine) :: rest =>
      match engine with
      | JOther =>
          collect rest engineMappings
            (logged ++ [Log "warn" "Ignoring invalid forced engine entry"])%list
      | JString name =>
          match engineOfName name with
          | None =>
              collect rest engineMappings
                (logged ++ [Log "warn" "Ignoring unsupported forced engine"])%list
          | Some e => collect rest (assign engineMappings domain e) logged
          end
      end
  end.

(** [initializeEngineForcing()]: the value it leaves in [engineMappings]
    and what it logs. [trim] is [String.prototype.trim]; [JSON_parse]
    gives the entries of the parsed object, or [None] when it throws. *)
Definition initializeEngineForcing
    (trim : string -> string)
    (JSON_parse : string -> option (list (string * Json)))
    (envVar : option string)
  : list (string * Engine) * list Event :=
  match envVar with
  | None => ([], [])
  | Some text =>
      if negb (Js.truthy text) || String.eqb (trim text) "" then ([], [])
      else
        match JSON_parse text with
        | Some parsed => collect parsed [] []
        | None =>
            ([],
             [Log "error"
                  "Error parsing FORCED_ENGINE_DOMAINS environment variable"])
        end
  end.

Definition domainMatchesPattern (domain pattern : string) : bool :=
  if String.eqb domain pattern then true
  else if Js.startsWith pattern "*." then
    let basePattern := JsString.substringFrom 2 pattern in
    String.eqb domain basePattern
    || JsString.endsWith domain ("." ++ basePattern)
  else
    String.eqb domain pattern || JsString.endsWith domain ("." ++ pattern).

(** The [for] loop of [getEngineForUrl]. [toLowerCase] is
    [String.prototype.toLowerCase], which knows all of Unicode: domain
    patterns need not be ASCII. *)
Fixpoint firstMatch
    (toLowerCase : string -> string)
    (domain : string) (entries : list (string * Engine))
  : option Engine :=
  match entries with
  | [] => None
  | (pattern, engine) :: rest =>
      if domainMatchesPattern domain (toLowerCase pattern)
      then Some engine
      else firstMatch toLowerCase domain rest
  end.

(** [getEngineForUrl(url)], given the current [engineMappings] ([None]
    for [null]). [trim] and [toLowerCase] are the methods of
    [String.prototype]; [parse] is tldts' [parse]: [None] when it throws,
    otherwise the [domain] property of its result. *)
Definition getEngineForUrl
    (engineMappings : option (list (string * Engine)))
    (trim toLowerCase : string -> string)
    (parse : string -> option (option string))
    (url : string) : option Engine * list Event :=
  match engineMappings with
  | None => (None, [])
  | Some entries =>
      if bool_decide (entries = []) then (None, [])
      else
        let lowerCaseUrl := toLowerCase (trim url) in
        match parse lowerCaseUrl with
        | None => (None, [Log "warn" "Error parsing URL for engine forcing"])
        | Some domain =>
            if negb (Js.truthy domain) then (None, [])
            else (firstMatch toLowerCase (Js.nullish domain "") entries, [])
        end
  end.

End EngineForcing.

(** ** More ways to read traces *)

(** Whether an event is an [unlink]. *)
Definition isUnlink (ev : Event) : bool :=
  match ev with
  | Unlink _ => true
  | _ => false
  end.

(** A trace segment in which no file is unlinked. *)
Definition noUnlink (t : list Event) : Prop :=
  Forall (fun ev => isUnlink ev = false) t.

(** Whether an event is a download. *)
Definition isDownload (ev : Event) : bool :=
  match ev with
  | DownloadFile _ => true
  | _ => false
  end.

(** A trace segment in which nothing is downloaded. *)
Definition noDownload (t : list Event) : Prop :=
  Forall (fun ev => isDownload ev = false) t.

(** The postprocessors a trace shows to have run, in order. *)
Definition postprocessorRuns (t : list Event) : list string :=
  omap (fun ev => match ev with PostprocessorRun n => Some n | _ => None end)
       t.

(** The [unlink]s of a path in a trace. *)
Definition unlinks (path : string) (t : list Event) : nat :=
  List.length (List.filter (fun ev => bool_decide (ev = Unlink path)) t).

(** ** A second deployment, for the failure paths *)

Module Deployment.

(** What varies between the deployments below. *)
Record knobs : Type := mkKnobs {
  aborted : option ScrapeError;        (* what [throwIfAborted] throws *)
  writeError : option ScrapeError;     (* what [writeFile] throws *)
  parsePDF : bool;                     (* [shouldParsePDF] *)
  maxPages : option Z;                 (* [getPDFMaxPages] *)
  timeLeft : option Z;                 (* [meta.abort.scrapeTimeout()] *)
  pages : Z;                           (* pages [getPdfMetadata] counts *)
  runPod : option (Outcome PDFProcessorResult.t);
  validURL : bool;                     (* whether [new URL] accepts *)
}.

Definition defaults : knobs :=
  mkKnobs None None true None None 3 None true.

Definition configured
    (k : knobs) (liveOutcome : Outcome EngineScrapeResult.t)
    (chain : list (Postprocessor.t unit)) : Env unit :=
  {| FIRE_ENGINE_BETA_URL := None;
     PLAYWRIGHT_MICROSERVICE_URL := None;
     FIRECRAWL_INDEX_WRITE_ONLY := None;
     useIndex := false;
     RUNPOD_MU_API_KEY :=
       match runPod k with Some _ => Some "key" | None => None end;
     RUNPOD_MU_POD_ID :=
       match runPod k with Some _ => Some "pod" | None => None end;
     hasFormatOfType := Example.findFormat;
     getPDFMaxPages := fun _ => maxPages k;
     shouldParsePDF := fun _ => parsePDF k;
     urlSpecificParams := fun _ => None;
     getEngineForUrl := fun _ => None;
     rewriteUrl := fun _ => None;
     engineHandlers := fun _ _ o => (liveOutcome, o);
     downloadFile := fun _ url _ _ o =>
       (Returned (Download.mk "/tmp/download.bin" url 200 None),
        mkOutside (<["/tmp/download.bin" := "bytes"]> (files o)) (services o));
     scrapeDocument := fun _ o => (Thrown (Error "no document parser"), o);
     getPdfMetadata := fun _ o => (Returned (PdfMetadata.mk (pages k) None), o);
     scrapePDFWithRunPodMU := fun _ _ _ _ o =>
       (match runPod k with
        | Some r => r
        | None => Thrown (Error "RunPod is not configured")
        end, o);
     PdfParse := fun data o => (Returned data, o);
     escapeHtml := fun s => s;
     postprocessors := chain;
     executeTransformers := fun _ document o => (Returned document, o);
     throwIfAborted := fun o =>
       (match aborted k with Some e => Thrown e | None => Returned tt end, o);
     scrapeTimeout := fun _ => timeLeft k;
     newURL := fun s => if validURL k then Some s else None;
     randomUUID := fun s => ("00000000-0000-4000-8000-000000000000", s);
     tmpdir := "/tmp";
     writeFileError := fun _ _ => writeError k;
     fromBase64 := fun s => s;
     toBase64 := fun s => s |}.

(** A request whose PDF was prefetched to a file on disk. *)
Definition pdfPrefetch : Prefetch.t :=
  Prefetch.mk "/tmp/tempFile-1.pdf" (Some "https://example.com/paper.pdf")
              200 basic (Some "application/pdf").

Definition pdfMeta (k : knobs) : Meta.t :=
  Meta.set_pdfPrefetch (value pdfPrefetch)
    (buildMetaObject (configured k Example.live []) "scrape-1"
       "https://example.com/paper.pdf" (Example.options None)
       (Example.internalOptions None)).

Definition pdfOnDisk : World unit :=
  mkWorld (mkOutside {[ "/tmp/tempFile-1.pdf" := "%PDF-1.5 body" ]} tt) [].

(** An HTML page whose body happens to start with the PDF signature. *)
Definition disguisedPage : EngineScrapeResult.t :=
  EngineScrapeResult.mk "https://example.com/" "%PDF-1.4 in a web page" None
    200 None None None None None None (Some "text/html; charset=utf-8") None
    (Some basic) None None.

(** A response that carries a PDF as payload and names no content type. *)
Definition inlinePdf : EngineScrapeResult.t :=
  EngineScrapeResult.mk "https://example.com/paper.pdf" "" None 200
    None None None None None None None None (Some basic) None
    (Some (BinaryFile.mk None "JVBERi0xLjQK")).

(** A response that carries a PDF as payload and says so. *)
Definition declaredPdf : EngineScrapeResult.t :=
  EngineScrapeResult.mk "https://example.com/paper.pdf" "" None 200
    None None None None None None (Some "application/pdf") None (Some basic)
    None (Some (BinaryFile.mk None "JVBERi0xLjQK")).

(** A request for a screenshot of the visible part of the page. *)
Definition screenshotOptions : ScrapeOptions.t :=
  ScrapeOptions.mk [Format.mk "screenshot" None None None] None 0 None
    false None false None true None None None None.

(** A postprocessor that never applies. *)
Definition dormant : Postprocessor.t unit :=
  Postprocessor.mk unit "dormant" (fun _ _ _ => false)
    (fun _ r o => (Returned r, o)).

(** A deployment whose downloads answer with the given content type. *)
Definition answering (contentType : option string) (e : Env unit)
  : Env unit :=
  mkEnv unit
    (FIRE_ENGINE_BETA_URL e) (PLAYWRIGHT_MICROSERVICE_URL e)
    (FIRECRAWL_INDEX_WRITE_ONLY e) (useIndex e) (RUNPOD_MU_API_KEY e)
    (RUNPOD_MU_POD_ID e) (hasFormatOfType e) (getPDFMaxPages e)
    (shouldParsePDF e) (urlSpecificParams e) (getEngineForUrl e)
    (rewriteUrl e) (engineHandlers e)
    (fun _ url _ _ o =>
       (Returned (Download.mk "/tmp/download.bin" url 200 contentType),
        mkOutside (<["/tmp/download.bin" := "<html>denied</html>"]> (files o))
                  (services o)))
    (scrapeDocument e) (getPdfMetadata e) (scrapePDFWithRunPodMU e)
    (PdfParse e) (escapeHtml e) (postprocessors e) (executeTransformers e)
    (throwIfAborted e) (scrapeTimeout e) (newURL e) (randomUUID e)
    (tmpdir e) (writeFileError e) (fromBase64 e) (toBase64 e).

End Deployment.


(** ** Capability matching *)

Section Capabilities.

Implicit Types (F : gset FeatureFlag) (E : Engine) (f : FeatureFlag).

Lemma featureFlags_complete f : f ∈ featureFlags.
Proof. destruct f; unfold featureFlags; set_solver. Qed.

Lemma elem_of_capabilities E f :
  f ∈ capabilities E ↔ engineOptions E f = true.
Proof.
  unfold capabilities. rewrite elem_of_list_to_set, list_elem_of_In.
  rewrite filter_In, <- list_elem_of_In.
  pose proof (featureFlags_complete f). tauto.
Qed.

Lemma elem_of_supportedFlags F E f :
  f ∈ (list_to_set
         (map fst
            (List.filter
               (fun '(flag, isSupported) => isSupported && has F flag)
               (features_entries E))) : gset FeatureFlag)
  ↔ engineOptions E f = true ∧ f ∈ F.
Proof.
  rewrite elem_of_list_to_set, list_elem_of_In, in_map_iff. split.
  - intros [[g b] [<- Hin]]. apply filter_In in Hin as [Hin Hb].
    unfold features_entries in Hin. apply in_map_iff in Hin as [g' [Hg _]].
    inversion Hg; subst. simpl.
    apply andb_true_iff in Hb as [Hb Hh]. unfold has in Hh.
    apply bool_decide_eq_true in Hh. done.
  - intros [Hs Hf]. exists (f, true). split; [done|].
    apply filter_In. split.
    + unfold features_entries. apply in_map_iff. exists f.
      rewrite Hs. split; [done|]. apply list_elem_of_In, featureFlags_complete.
    + simpl. unfold has. by apply bool_decide_eq_true.
Qed.

(** Deleting, from any set [Y], the members of [X] found in [S]. *)
Lemma delete_loop (S Y X : gset FeatureFlag) :
  set_fold
    (fun flag acc => if has S flag then acc ∖ {[ flag ]} else acc) Y X
  = Y ∖ (X ∩ S).
Proof.
  apply (set_fold_ind_L
           (fun r (X : gset FeatureFlag) => r = Y ∖ (X ∩ S))).
  - apply set_eq. intros f. set_unfold. tauto.
  - intros x X' r Hx Hr. subst r. unfold has.
    apply set_eq. intros f. case_bool_decide as Hin.
    + rewrite !elem_of_difference, !elem_of_intersection, elem_of_union,
        elem_of_singleton.
      split; [intros [[? ?] ?] | intros [? ?]].
      * split; [done|]. intros [[? | ?] ?]; tauto.
      * repeat split; try done; [tauto|]. intros ->. tauto.
    + rewrite !elem_of_difference, !elem_of_intersection, elem_of_union,
        elem_of_singleton.
      split; intros [? Hn]; (split; [done|]); intros [Hx' ?]; apply Hn.
      * destruct Hx' as [-> | ?]; [done|]. tauto.
      * tauto.
Qed.

Lemma getUnsupportedFeatures_difference F E :
  getUnsupportedFeatures F E = F ∖ capabilities E.
Proof.
  unfold getUnsupportedFeatures. rewrite delete_loop.
  apply set_eq. intros f.
  rewrite !elem_of_difference, elem_of_intersection.
  rewrite elem_of_supportedFlags, elem_of_capabilities. tauto.
Qed.

(** C2. For every set of requested flags [F] and every engine [E],
    [getUnsupportedFeatures] returns the set difference of [F] and the
    flags the capability table of [E] marks as supported; if [E]
    supports every flag of [F] the result is the empty set. *)
Theorem getUnsupportedFeatures_spec F E :
  getUnsupportedFeatures F E = F ∖ capabilities E
  ∧ ((∀ f, f ∈ F → engineOptions E f = true) →
     getUnsupportedFeatures F E = ∅).
Proof.
  split; [apply getUnsupportedFeatures_difference|].
  intros Hall. rewrite getUnsupportedFeatures_difference.
  apply set_eq. intros f. rewrite elem_of_difference, elem_of_capabilities.
  split; [|set_solver]. intros [Hf Hn]. by apply Hall in Hf.
Qed.

Lemma getUnsupportedFeatures_spec_witness :
  getUnsupportedFeatures {[ waitFor; mobile ]} index
    = {[ waitFor; mobile ]} ∖ capabilities index
  ∧ getUnsupportedFeatures {[ waitFor; mobile ]} index = ∅.
Proof.
  destruct (getUnsupportedFeatures_spec {[ waitFor; mobile ]} index)
    as [Hdiff Hempty].
  split; [exact Hdiff|]. apply Hempty. intros f Hf.
  apply elem_of_union in Hf as [Hf | Hf];
    apply elem_of_singleton in Hf; subst f; reflexivity.
Defined.

End Capabilities.

(** * Properties *)

Open Scope list_scope.

(** ** Laws of the monad *)

Section MonadLaws.

Context {S : Type}.
Implicit Types (w : World S).

Lemma bind_Returned {A B} (c : Async S A) (k : A -> Async S B) w a w' :
  c w = (Returned a, w') -> bind c k w = k a w'.
Proof. intros H. unfold bind. by rewrite H. Qed.

Lemma bind_Thrown {A B} (c : Async S A) (k : A -> Async S B) w e w' :
  c w = (Thrown e, w') -> bind c k w = (Thrown e, w').
Proof. intros H. unfold bind. by rewrite H. Qed.

Lemma try_catch_Returned {A} (c : Async S A) h w a w' :
  c w = (Returned a, w') -> try_catch c h w = (Returned a, w').
Proof. intros H. unfold try_catch. by rewrite H. Qed.

Lemma try_catch_Thrown {A} (c : Async S A) h w e w' :
  c w = (Thrown e, w') -> try_catch c h w = h e w'.
Proof. intros H. unfold try_catch. by rewrite H. Qed.

Lemma call_eq {A} (ev : Event) (c : Collab S A) w r o' :
  c (outside w) = (r, o') ->
  call ev c w = (r, mkWorld o' (trace w ++ [ev])).
Proof. intros H. unfold call. by rewrite H. Qed.

End MonadLaws.

(** ** Trace disciplines *)

Section TraceDiscipline.

Context {S : Type}.
Variable P : list Event -> Prop.
Hypothesis P_nil : P [].
Hypothesis P_app : forall t1 t2, P t1 -> P t2 -> P (t1 ++ t2).

Lemma appends_ret {A} (a : A) : appends P (@ret S A a).
Proof. intros w. exists []. simpl. by rewrite app_nil_r. Qed.

Lemma appends_throw {A} e : appends P (@throw S A e).
Proof. intros w. exists []. simpl. by rewrite app_nil_r. Qed.

Lemma appends_bind {A B} (c : Async S A) (k : A -> Async S B) :
  appends P c -> (forall a, appends P (k a)) -> appends P (bind c k).
Proof.
  intros Hc Hk w. unfold bind. destruct (Hc w) as [t1 [E1 P1]].
  destruct (c w) as [[a|e] w1]; simpl in E1.
  - destruct (Hk a w1) as [t2 [E2 P2]]. exists (t1 ++ t2).
    rewrite E2, E1, app_assoc. auto.
  - exists t1. auto.
Qed.

Lemma appends_try_catch {A} (c : Async S A) h :
  appends P c -> (forall e, appends P (h e)) -> appends P (try_catch c h).
Proof.
  intros Hc Hh w. unfold try_catch. destruct (Hc w) as [t1 [E1 P1]].
  destruct (c w) as [[a|e] w1]; simpl in E1.
  - exists t1. auto.
  - destruct (Hh e w1) as [t2 [E2 P2]]. exists (t1 ++ t2).
    rewrite E2, E1, app_assoc. auto.
Qed.

Lemma appends_try_finally {A} (c : Async S A) f :
  appends P c -> appends P f -> appends P (try_finally c f).
Proof.
  intros Hc Hf w. unfold try_finally. destruct (Hc w) as [t1 [E1 P1]].
  destruct (c w) as [r w1]; simpl in E1.
  destruct (Hf w1) as [t2 [E2 P2]].
  destruct (f w1) as [[u|e] w2]; simpl in E2;
    exists (t1 ++ t2); simpl; rewrite E2, E1, app_assoc; auto.
Qed.

Lemma appends_emit ev : P [ev] -> appends P (@emit S ev).
Proof. intros H w. exists [ev]. auto. Qed.

Lemma appends_log level message :
  P [Log level message] -> appends P (@log S level message).
Proof. apply appends_emit. Qed.

Lemma appends_call {A} ev (c : Collab S A) : P [ev] -> appends P (call ev c).
Proof.
  intros H w. unfold call. destruct (c (outside w)) as [r o'].
  exists [ev]. auto.
Qed.

Lemma appends_quiet {A} (c : Collab S A) : appends P (quiet c).
Proof.
  intros w. unfold quiet. destruct (c (outside w)) as [r o'].
  exists []. simpl. by rewrite app_nil_r.
Qed.

Lemma appends_readFile path : P [ReadFile path] -> appends P (@readFile S path).
Proof.
  intros H w. unfold readFile. destruct (files (outside w) !! path);
    exists [ReadFile path]; auto.
Qed.

Lemma appends_unlink path : P [Unlink path] -> appends P (@unlink S path).
Proof.
  intros H w. unfold unlink. destruct (files (outside w) !! path);
    exists [Unlink path]; auto.
Qed.

Lemma appends_writeFile (env : Env S) path data :
  P [WriteFile path] -> appends P (writeFile env path data).
Proof.
  intros H w. unfold writeFile.
  destruct (writeFileError env (services (outside w)) path);
    exists [WriteFile path]; auto.
Qed.

Lemma appends_freshUUID (env : Env S) : appends P (freshUUID env).
Proof.
  intros w. unfold freshUUID.
  destruct (randomUUID env (services (outside w))) as [u s'].
  exists []. simpl. by rewrite app_nil_r.
Qed.

Lemma appends_read {A} (f : World S -> A) :
  appends P (fun w : World S => (Returned (f w), w)).
Proof. intros w. exists []. simpl. by rewrite app_nil_r. Qed.

End TraceDiscipline.

(** One step of a proof that a function of the pipeline [appends P]. *)
Ltac appends_step :=
  match goal with
  | |- appends _ (bind _ _) =>
      apply appends_bind; try assumption; [ | intros ?]
  | |- appends _ (ret _) => apply appends_ret; assumption
  | |- appends _ (throw _) => apply appends_throw; assumption
  | |- appends _ (try_catch _ _) =>
      apply appends_try_catch; try assumption; [ | intros ?]
  | |- appends _ (try_finally _ _) =>
      apply appends_try_finally; try assumption
  | |- appends _ (log _ _) => apply appends_log; auto
  | |- appends _ (emit _) => apply appends_emit; auto
  | |- appends _ (call _ _) => apply appends_call; auto
  | |- appends _ (quiet _) => apply appends_quiet; assumption
  | |- appends _ (readFile _) => apply appends_readFile; auto
  | |- appends _ (unlink _) => apply appends_unlink; auto
  | |- appends _ (writeFile _ _ _) => apply appends_writeFile; auto
  | |- appends _ (freshUUID _) => apply appends_freshUUID; assumption
  | |- appends _ (fun w => (Returned _, w)) => apply appends_read; assumption
  | |- appends _ (if ?b then _ else _) => destruct b
  | |- appends _ (match ?x with _ => _ end) => destruct x
  end.

(** ** Functions that invoke no engine *)

Section NoEngine.

Context {S : Type} (env : Env S).
Variable P : list Event -> Prop.
Hypothesis P_nil : P [].
Hypothesis P_app : forall t1 t2, P t1 -> P t2 -> P (t1 ++ t2).
Hypothesis P_other : forall ev, isEngineCall ev = false -> P [ev].

Lemma appends_base64ToPrefetch c ext ty url st px ct :
  appends P (base64ToPrefetch env c ext ty url st px ct).
Proof. unfold base64ToPrefetch. repeat appends_step. Qed.

Lemma appends_detectSpecialtyPlan input :
  appends P (detectSpecialtyPlan env input).
Proof.
  unfold detectSpecialtyPlan.
  repeat first [ apply appends_base64ToPrefetch | appends_step ].
Qed.

Lemma appends_scrapePDF_try meta sp mp t u sc ct px :
  appends P (scrapePDF_try env meta sp mp t u sc ct px).
Proof.
  unfold scrapePDF_try, scrapePDFWithParsePDF. repeat appends_step.
Qed.

Lemma appends_scrapePDF meta : appends P (scrapePDF env meta).
Proof.
  unfold scrapePDF, scrapePDF_finally.
  repeat first [ apply appends_scrapePDF_try | appends_step ].
Qed.

Lemma appends_prefetchFile meta r ct :
  appends P (prefetchFile env meta r ct).
Proof. unfold prefetchFile. repeat appends_step. Qed.

Lemma appends_applySpecialtyParsing meta engine r :
  appends P (applySpecialtyParsing env meta engine r).
Proof.
  unfold applySpecialtyParsing, prefetchPdfFile, prefetchDocumentFile.
  repeat first [ apply appends_detectSpecialtyPlan
               | apply appends_scrapePDF
               | apply appends_prefetchFile
               | appends_step ].
Qed.

Lemma appends_runPostprocessor meta p r :
  appends P (runPostprocessor env meta p r).
Proof. unfold runPostprocessor. repeat appends_step. Qed.

Lemma appends_runPostprocessors meta chain r :
  appends P (runPostprocessors env meta chain r).
Proof.
  revert r. induction chain as [|p rest IH]; intros r; simpl.
  - by apply appends_ret.
  - apply appends_bind; [done | apply appends_runPostprocessor | done].
Qed.

Lemma appends_selectLiveEngine meta : appends P (selectLiveEngine env meta).
Proof. unfold selectLiveEngine. repeat appends_step. Qed.

End NoEngine.

(** ** Engine invocations in a trace *)

Lemma engineCalls_app (t1 t2 : list Event) :
  engineCalls (t1 ++ t2) = engineCalls t1 ++ engineCalls t2.
Proof. apply omap_app. Qed.

Lemma noEngine_nil : noEngine [].
Proof. reflexivity. Qed.

Lemma noEngine_app t1 t2 : noEngine t1 -> noEngine t2 -> noEngine (t1 ++ t2).
Proof. unfold noEngine. rewrite engineCalls_app. by intros -> ->. Qed.

Lemma noEngine_other ev : isEngineCall ev = false -> noEngine [ev].
Proof. by destruct ev. Qed.

Lemma appends_noEngine {S A} (c : Async S A) (w : World S) :
  appends noEngine c -> engineCalls (trace (c w).2) = engineCalls (trace w).
Proof.
  intros H. destruct (H w) as [t [-> Ht]].
  rewrite engineCalls_app, Ht. apply app_nil_r.
Qed.

(** ** The pipeline, stage by stage *)

Section Pipeline.

Context {S : Type} (env : Env S).
Implicit Types (meta : Meta.t) (w : World S) (o : Outside S).

Lemma scrapeURLSingle_started meta w o :
  zdrViolation meta = None ->
  throwIfAborted env (outside w) = (Returned tt, o) ->
  scrapeURLSingle env meta w
  = bind (selectEngineAndScrape env meta) (postprocess env) (started w o).
Proof.
  intros Hzdr Habort. unfold scrapeURLSingle. rewrite Hzdr.
  unfold bind at 1. simpl. unfold bind at 1. simpl.
  unfold bind at 1. unfold quiet. simpl. by rewrite Habort.
Qed.

Lemma finishDocument_noEngine meta outcome r :
  appends noEngine (finishDocument env meta outcome r).
Proof.
  unfold finishDocument.
  pose proof noEngine_nil. pose proof noEngine_app.
  repeat appends_step; by apply noEngine_other.
Qed.

Lemma postprocess_noEngine selected :
  appends noEngine (postprocess env selected).
Proof.
  destruct selected as [[meta outcome] att]. unfold postprocess.
  apply appends_bind; [apply noEngine_app | | intros r].
  - apply appends_runPostprocessors;
      auto using noEngine_nil, noEngine_app, noEngine_other.
  - apply finishDocument_noEngine.
Qed.

(** [finishDocument] hands the document it assembles to the transformers;
    their answer is its outcome. *)
Lemma finishDocument_transformers meta outcome r w :
  finishDocument env meta outcome r w
  = (let answer :=
       executeTransformers env meta (assembleDocument meta outcome r)
                           (outside w) in
     (match answer.1 with
      | Returned d => Returned (d, EngineOutcome.unsupportedFeatures outcome)
      | Thrown e => Thrown e
      end,
      mkWorld answer.2
        (trace w
         ++ (if bool_decide (EngineOutcome.unsupportedFeatures outcome = ∅)
             then []
             else [Log "warn"
                       "The engine used does not support some features"])
         ++ [Transformers]))).
Proof.
  unfold finishDocument, bind, ret, log, emit, call. cbv zeta.
  destruct (bool_decide (EngineOutcome.unsupportedFeatures outcome = ∅));
    cbn [outside trace fst snd];
    destruct (executeTransformers env meta (assembleDocument meta outcome r)
                                  (outside w)) as [[d|e] o];
    cbn [fst snd]; by rewrite <- ?app_assoc.
Qed.

Lemma finishDocument_Returned meta outcome r w d uf w' :
  finishDocument env meta outcome r w = (Returned (d, uf), w') ->
  executeTransformers env meta (assembleDocument meta outcome r) (outside w)
    = (Returned d, outside w')
  /\ uf = EngineOutcome.unsupportedFeatures outcome
  /\ exists t, trace w' = trace w ++ t ++ [Transformers].
Proof.
  rewrite finishDocument_transformers. cbv zeta.
  destruct (executeTransformers env meta (assembleDocument meta outcome r)
                                (outside w)) as [[d0|e] o];
    cbn [fst snd]; [|discriminate].
  intros [= <- <- <-]. eauto.
Qed.

(** A request that returns a document has passed the checks at the head
    of [scrapeURLSingle], selected an engine, run the postprocessor chain
    and finished the document. *)
Lemma scrapeURLSingle_Returned meta w d uf w' :
  scrapeURLSingle env meta w = (Returned (d, uf), w') ->
  exists o1 meta1 outcome att w1 r' w3,
    zdrViolation meta = None
    /\ throwIfAborted env (outside w) = (Returned tt, o1)
    /\ selectEngineAndScrape env meta (started w o1)
       = (Returned (meta1, outcome, att), w1)
    /\ runPostprocessors env
         (Meta.set_winnerEngine (EngineOutcome.engine outcome) meta1)
         (postprocessors env) (EngineOutcome.result outcome) w1
       = (Returned r', w3)
    /\ finishDocument env
         (Meta.set_winnerEngine (EngineOutcome.engine outcome) meta1)
         outcome r' w3
       = (Returned (d, uf), w').
Proof.
  intros H.
  destruct (zdrViolation meta) as [feature|] eqn:Hzdr.
  { unfold scrapeURLSingle in H. rewrite Hzdr in H. discriminate H. }
  destruct (throwIfAborted env (outside w)) as [[[]|e] o1] eqn:Habort.
  - rewrite (scrapeURLSingle_started meta w o1 Hzdr Habort) in H.
    unfold bind in H.
    destruct (selectEngineAndScrape env meta (started w o1))
      as [[[[meta1 outcome] att]|e] w1] eqn:Hsel; [|discriminate H].
    unfold postprocess, bind in H.
    destruct (runPostprocessors env
                (Meta.set_winnerEngine (EngineOutcome.engine outcome) meta1)
                (postprocessors env) (EngineOutcome.result outcome) w1)
      as [[r'|e] w3] eqn:Hchain; [|discriminate H].
    exists o1, meta1, outcome, att, w1, r', w3. auto.
  - unfold scrapeURLSingle in H. rewrite Hzdr in H.
    unfold bind, log, emit, ret, quiet in H. cbn [outside trace] in H.
    rewrite Habort in H. discriminate H.
Qed.

(** A cache read that succeeds is the whole of engine selection. *)
Lemma selectEngineAndScrape_index_hit meta w r o :
  Meta.forceEngine meta = None ->
  shouldUseIndex env meta = true ->
  engineHandlers env index meta (outside w) = (Returned r, o) ->
  selectEngineAndScrape env meta w
  = (Returned
       (meta,
        EngineOutcome.mk index
          (getUnsupportedFeatures (Meta.featureFlags meta) index) r true,
        ["index"]),
     mkWorld o (trace w ++ [EngineCall index])).
Proof.
  intros Hforce Hindex Hcall. unfold selectEngineAndScrape.
  unfold Meta.forceEngine in Hforce.
  rewrite Hforce, Hindex. simpl.
  unfold bind, try_catch, scrapeURLWithEngine, call. by rewrite Hcall.
Qed.

Lemma cacheState_assembleDocument meta outcome r :
  Metadata.cacheState (Document.metadata (assembleDocument meta outcome r))
  = fst (cacheMetadata (EngineOutcome.indexAttempted outcome)
                       (EngineOutcome.engine outcome) r).
Proof. reflexivity. Qed.

(** C1 (amended). When no engine is forced, [shouldUseIndex] holds and
    the index engine returns, engine selection returns the index result
    and the request invokes no live engine. The document assembled from
    the result the postprocessor chain leaves has [cacheState] "hit" when
    that result carries [cacheInfo] and "miss" when it does not; it is
    this document that is handed to the transformers, whose answer is the
    outcome of the request; so the final document says the same wherever
    the transformers leave the cache fields alone. *)
Theorem index_hit_short_circuits meta w o1 r o2 :
  Meta.forceEngine meta = None ->
  shouldUseIndex env meta = true ->
  zdrViolation meta = None ->
  throwIfAborted env (outside w) = (Returned tt, o1) ->
  engineHandlers env index meta o1 = (Returned r, o2) ->
  let outcome :=
    EngineOutcome.mk index
      (getUnsupportedFeatures (Meta.featureFlags meta) index) r true in
  let meta' := Meta.set_winnerEngine index meta in
  let w2 := mkWorld o2 (trace (started w o1) ++ [EngineCall index]) in
  selectEngineAndScrape env meta (started w o1)
    = (Returned (meta, outcome, ["index"]), w2)
  /\ engineCalls (trace (scrapeURLSingle env meta w).2)
     = engineCalls (trace w) ++ [index]
  /\ forall r' w3,
       runPostprocessors env meta' (postprocessors env) r w2
         = (Returned r', w3) ->
       let handed := assembleDocument meta' outcome r' in
       let state :=
         Some (if Js.defined (EngineScrapeResult.cacheInfo r')
               then hit else miss) in
       let answer := executeTransformers env meta' handed (outside w3) in
       Metadata.cacheState (Document.metadata handed) = state
       /\ scrapeURLSingle env meta w
          = (match answer.1 with
             | Returned d =>
                 Returned (d, EngineOutcome.unsupportedFeatures outcome)
             | Thrown e => Thrown e
             end,
             mkWorld answer.2
               (trace w3
                ++ (if bool_decide
                         (EngineOutcome.unsupportedFeatures outcome = ∅)
                    then []
                    else [Log "warn"
                              "The engine used does not support some features"])
                ++ [Transformers]))
       /\ (transformersKeepCache env ->
           forall d uf w',
             scrapeURLSingle env meta w = (Returned (d, uf), w') ->
             Metadata.cacheState (Document.metadata d) = state).
Proof.
  intros Hforce Hindex Hzdr Habort Hcall outcome meta' w2.
  assert (Hsel : selectEngineAndScrape env meta (started w o1)
                 = (Returned (meta, outcome, ["index"]), w2))
    by (by apply selectEngineAndScrape_index_hit).
  split; [exact Hsel|].
  rewrite (scrapeURLSingle_started meta w o1 Hzdr Habort).
  rewrite (bind_Returned _ _ _ _ _ Hsel). split.
  - rewrite appends_noEngine by apply postprocess_noEngine.
    unfold w2, started. simpl. rewrite !engineCalls_app. simpl.
    by rewrite app_nil_r.
  - intros r' w3 Hchain handed state answer.
    assert (Hfinish : postprocess env (meta, outcome, ["index"]) w2
                      = finishDocument env meta' outcome r' w3).
    { unfold postprocess. fold meta'. simpl.
      by rewrite (bind_Returned _ _ _ _ _ Hchain). }
    assert (Hstate : Metadata.cacheState (Document.metadata handed) = state).
    { unfold handed, state. rewrite cacheState_assembleDocument.
      unfold cacheMetadata. simpl.
      by destruct (EngineScrapeResult.cacheInfo r'). }
    split; [exact Hstate|]. rewrite Hfinish. split.
    + apply finishDocument_transformers.
    + intros Hkeep d uf w' Hret.
      apply finishDocument_Returned in Hret as [Hanswer _].
      apply Hkeep in Hanswer as [-> _]. exact Hstate.
Qed.

(** *** The live path *)

Lemma has_getUnsupportedFeatures F E f :
  has (getUnsupportedFeatures F E) f = has F f && negb (engineOptions E f).
Proof.
  rewrite getUnsupportedFeatures_difference. unfold has.
  destruct (engineOptions E f) eqn:Hf; simpl;
    repeat case_bool_decide; try done;
    rewrite elem_of_difference, elem_of_capabilities in *; try tauto.
  - destruct H; split; [done|]. by rewrite Hf.
Qed.

(** The choice of the live engine reads the configuration only. *)
Lemma chooseLiveEngine_eq meta w live :
  (chooseLiveEngine env meta w).1 = Returned live ->
  forall w', exists t,
    chooseLiveEngine env meta w'
      = (Returned live, mkWorld (outside w') (trace w' ++ t))
    /\ noEngine t.
Proof.
  unfold chooseLiveEngine, selectLiveEngine.
  destruct (InternalOptions.forceEngine _) as [e|].
  - simpl. intros [= <-] w'. exists []. rewrite app_nil_r. by destruct w'.
  - destruct (Js.truthy (FIRE_ENGINE_BETA_URL env));
      [|destruct (Js.truthy (PLAYWRIGHT_MICROSERVICE_URL env))];
      simpl; intros [= <-] w'.
    + exists []. rewrite app_nil_r. by destruct w'.
    + exists []. rewrite app_nil_r. by destruct w'.
    + by eexists [_].
Qed.

(** A must-have flag the live engine lacks stops the request before the
    engine is invoked. *)
Lemma scrapeWithLiveEngine_rejects_actions meta ie att w live :
  (chooseLiveEngine env meta w).1 = Returned live ->
  actions ∈ Meta.featureFlags meta ->
  engineOptions live actions = false ->
  exists message t,
    scrapeWithLiveEngine env meta ie att w
      = (Thrown (ActionsNotSupportedError message),
         mkWorld (outside w) (trace w ++ t))
    /\ noEngine t.
Proof.
  intros Hlive Hflag Hcap.
  destruct (chooseLiveEngine_eq meta w live Hlive w) as [t [Hchoose Ht]].
  unfold scrapeWithLiveEngine.
  rewrite (bind_Returned _ _ _ _ _ Hchoose).
  rewrite has_getUnsupportedFeatures, Hcap.
  assert (has (Meta.featureFlags meta) actions = true) as ->
      by (by apply bool_decide_eq_true).
  simpl. eauto.
Qed.

(** Otherwise the live engine is invoked, once. *)
Lemma scrapeWithLiveEngine_invokes meta ie att w live :
  (chooseLiveEngine env meta w).1 = Returned live ->
  (actions ∈ Meta.featureFlags meta -> engineOptions live actions = true) ->
  (branding ∈ Meta.featureFlags meta -> engineOptions live branding = true) ->
  engineCalls (trace (scrapeWithLiveEngine env meta ie att w).2)
    = engineCalls (trace w) ++ [live]
  /\ forall meta1 outcome att1 w1,
       scrapeWithLiveEngine env meta ie att w
         = (Returned (meta1, outcome, att1), w1) ->
       EngineOutcome.engine outcome = live
       /\ EngineOutcome.indexAttempted outcome = ie.
Proof.
  intros Hlive Hactions Hbranding.
  destruct (chooseLiveEngine_eq meta w live Hlive w) as [t [Hchoose Ht]].
  unfold scrapeWithLiveEngine.
  rewrite (bind_Returned _ _ _ _ _ Hchoose).
  rewrite !has_getUnsupportedFeatures.
  assert (has (Meta.featureFlags meta) actions
          && (has (Meta.featureFlags meta) actions
              && negb (engineOptions live actions)) = false) as ->.
  { unfold has. case_bool_decide; [|done]. by rewrite Hactions. }
  assert (has (Meta.featureFlags meta) branding
          && (has (Meta.featureFlags meta) branding
              && negb (engineOptions live branding)) = false) as ->.
  { unfold has. case_bool_decide; [|done]. by rewrite Hbranding. }
  unfold scrapeURLWithEngine.
  set (w1 := mkWorld (outside w) (trace w ++ t)).
  destruct (engineHandlers env live meta (outside w1)) as [[raw|e] o']
    eqn:Hcall; apply (call_eq (EngineCall live)) in Hcall.
  - rewrite (bind_Returned _ _ _ _ _ Hcall).
    set (w2 := mkWorld o' (trace w1 ++ [EngineCall live])).
    destruct (appends_applySpecialtyParsing env noEngine noEngine_nil
                noEngine_app noEngine_other meta live raw w2)
      as [t' [Ht' Hno]].
    destruct (applySpecialtyParsing env meta live raw w2)
      as [[[meta1 parsed]|e] w3] eqn:Hparse; simpl in Ht'.
    + rewrite (bind_Returned _ _ _ _ _ Hparse). simpl.
      rewrite Ht', !engineCalls_app, Ht, Hno. simpl. rewrite !app_nil_r.
      split; [done|]. by intros ? ? ? ? [= <- <- <- <-].
    + rewrite (bind_Thrown _ _ _ _ _ Hparse). simpl.
      rewrite Ht', !engineCalls_app, Ht, Hno. simpl. rewrite !app_nil_r.
      split; [done|]. by intros.
  - rewrite (bind_Thrown _ _ _ _ _ Hcall). simpl.
    rewrite !engineCalls_app, Ht. simpl. rewrite app_nil_r.
    split; [done|]. by intros.
Qed.

(** *** Flags of a request built by [buildMetaObject] *)

Lemma elem_of_if_add (c : bool) (g f : FeatureFlag) (X : gset FeatureFlag) :
  f ∈ (if c then {[ g ]} ∪ X else X) <-> (c = true /\ f = g) \/ f ∈ X.
Proof.
  destruct c; [rewrite elem_of_union, elem_of_singleton|];
    intuition congruence.
Qed.

Lemma elem_of_if_add_mono (c : bool) (g f : FeatureFlag)
    (X : gset FeatureFlag) :
  f ∈ X -> f ∈ (if c then {[ g ]} ∪ X else X).
Proof. intros H. apply elem_of_if_add. by right. Qed.

Lemma elem_of_if_add_ne (c : bool) (g f : FeatureFlag)
    (X : gset FeatureFlag) :
  f <> g -> f ∈ (if c then {[ g ]} ∪ X else X) -> f ∈ X.
Proof. intros Hne H. apply elem_of_if_add in H as [[_ ?]|?]; done. Qed.

Lemma branding_buildFeatureFlags url options internalOptions :
  branding ∈ buildFeatureFlags env url options internalOptions ->
  Js.defined
    (hasFormatOfType env (ScrapeOptions.formats options) "branding") = true.
Proof.
  unfold buildFeatureFlags. cbv zeta. intros H.
  do 8 (apply elem_of_if_add_ne in H; [|discriminate]).
  apply elem_of_if_add in H as [[H _]|H]; [exact H|].
  exfalso.
  destruct (hasFormatOfType env (ScrapeOptions.formats options) "screenshot")
    as [fmt|]; [destruct (Js.truthy (Format.fullPage fmt))|].
  - apply elem_of_union in H as [H|H];
      [by apply elem_of_singleton in H|].
    apply elem_of_if_add_ne in H; [|discriminate].
    by apply elem_of_empty in H.
  - apply elem_of_union in H as [H|H];
      [by apply elem_of_singleton in H|].
    apply elem_of_if_add_ne in H; [|discriminate].
    by apply elem_of_empty in H.
  - apply elem_of_if_add_ne in H; [|discriminate].
    by apply elem_of_empty in H.
Qed.

Lemma shouldUseIndex_no_branding id url options internalOptions :
  shouldUseIndex env (buildMetaObject env id url options internalOptions)
    = true ->
  branding
    ∉ Meta.featureFlags (buildMetaObject env id url options internalOptions).
Proof.
  unfold shouldUseIndex, buildMetaObject.
  destruct (urlSpecificParams env url) as [[fo fi]|]; simpl;
    rewrite !andb_true_iff; intros Hidx Hflag;
    apply branding_buildFeatureFlags in Hflag; rewrite Hflag in Hidx;
    simpl in Hidx; intuition congruence.
Qed.

Lemma selectLiveEngine_not_index meta w live :
  Meta.forceEngine meta = None ->
  (chooseLiveEngine env meta w).1 = Returned live ->
  live <> index.
Proof.
  unfold Meta.forceEngine, chooseLiveEngine, selectLiveEngine.
  intros ->.
  destruct (Js.truthy (FIRE_ENGINE_BETA_URL env));
    [|destruct (Js.truthy (PLAYWRIGHT_MICROSERVICE_URL env))];
    simpl; by intros [= <-].
Qed.

(** *** Cache misses *)

Lemma selectEngineAndScrape_index_miss meta w e o :
  Meta.forceEngine meta = None ->
  shouldUseIndex env meta = true ->
  engineHandlers env index meta (outside w) = (Thrown e, o) ->
  e = IndexMissError \/ e = NoCachedDataError ->
  selectEngineAndScrape env meta w
  = scrapeWithLiveEngine env meta true ["index"]
      (mkWorld o (trace w ++ [EngineCall index])).
Proof.
  intros Hforce Hindex Hcall He. unfold selectEngineAndScrape.
  unfold Meta.forceEngine in Hforce. rewrite Hforce, Hindex. simpl.
  unfold bind, try_catch, scrapeURLWithEngine, call. rewrite Hcall.
  by destruct He as [-> | ->].
Qed.

Lemma selectEngineAndScrape_forced_index meta w e o :
  Meta.forceEngine meta = Some index ->
  engineHandlers env index meta (outside w) = (Thrown e, o) ->
  selectEngineAndScrape env meta w
  = (Thrown e, mkWorld o (trace w ++ [EngineCall index])).
Proof.
  intros Hforce Hcall. unfold selectEngineAndScrape.
  unfold Meta.forceEngine in Hforce. rewrite Hforce. simpl.
  unfold bind, scrapeURLWithEngine, call. by rewrite Hcall.
Qed.

Lemma postprocess_chain meta outcome att w d uf w' :
  postprocess env (meta, outcome, att) w = (Returned (d, uf), w') ->
  exists r' w3,
    runPostprocessors env
      (Meta.set_winnerEngine (EngineOutcome.engine outcome) meta)
      (postprocessors env) (EngineOutcome.result outcome) w
      = (Returned r', w3)
    /\ finishDocument env
         (Meta.set_winnerEngine (EngineOutcome.engine outcome) meta)
         outcome r' w3
       = (Returned (d, uf), w').
Proof.
  unfold postprocess, bind.
  destruct (runPostprocessors env
              (Meta.set_winnerEngine (EngineOutcome.engine outcome) meta)
              (postprocessors env) (EngineOutcome.result outcome) w)
    as [[r'|e] w3] eqn:Hchain; [eauto|discriminate].
Qed.

(** C3 (amended). For a request built by [buildMetaObject] that is
    index-eligible, whose index read throws [IndexMissError] or
    [NoCachedDataError], and whose [actions] flag is unset or supported
    by the live engine: the miss is swallowed and the live engine is the
    one engine invoked after the index, once. A document the request
    produces is the transformers' answer to the document assembled from
    the live engine's outcome and the result the postprocessor chain left,
    and that document has [cacheState] "miss"; so has the final document
    wherever the transformers leave the cache fields alone. When the
    index is the forced engine, the error it throws is the failure of
    the request. *)
Theorem index_miss_falls_back :
  (forall id url options internalOptions w o1 e o2 live,
     let meta := buildMetaObject env id url options internalOptions in
     Meta.forceEngine meta = None ->
     shouldUseIndex env meta = true ->
     zdrViolation meta = None ->
     throwIfAborted env (outside w) = (Returned tt, o1) ->
     engineHandlers env index meta o1 = (Thrown e, o2) ->
     e = IndexMissError \/ e = NoCachedDataError ->
     (chooseLiveEngine env meta w).1 = Returned live ->
     (actions ∈ Meta.featureFlags meta ->
      engineOptions live actions = true) ->
     engineCalls (trace (scrapeURLSingle env meta w).2)
       = engineCalls (trace w) ++ [index; live]
     /\ forall d uf w',
          scrapeURLSingle env meta w = (Returned (d, uf), w') ->
          exists meta1 outcome att w1 r' w3,
            let meta' := Meta.set_winnerEngine live meta1 in
            let handed := assembleDocument meta' outcome r' in
            selectEngineAndScrape env meta (started w o1)
              = (Returned (meta1, outcome, att), w1)
            /\ EngineOutcome.engine outcome = live
            /\ runPostprocessors env meta' (postprocessors env)
                 (EngineOutcome.result outcome) w1
               = (Returned r', w3)
            /\ executeTransformers env meta' handed (outside w3)
               = (Returned d, outside w')
            /\ uf = EngineOutcome.unsupportedFeatures outcome
            /\ Metadata.cacheState (Document.metadata handed) = Some miss
            /\ (transformersKeepCache env ->
                Metadata.cacheState (Document.metadata d) = Some miss))
  /\ (forall meta w o1 e o2,
        Meta.forceEngine meta = Some index ->
        zdrViolation meta = None ->
        throwIfAborted env (outside w) = (Returned tt, o1) ->
        engineHandlers env index meta o1 = (Thrown e, o2) ->
        scrapeURLSingle env meta w
        = (Thrown e,
           mkWorld o2 (trace (started w o1) ++ [EngineCall index]))).
Proof.
  split.
  - intros id url options internalOptions w o1 e o2 live meta
      Hforce Hindex Hzdr Habort Hcall He Hlive Hactions.
    pose proof (shouldUseIndex_no_branding _ _ _ _ Hindex) as Hbranding.
    fold meta in Hbranding.
    rewrite (scrapeURLSingle_started meta w o1 Hzdr Habort).
    set (w2 := mkWorld o2 (trace (started w o1) ++ [EngineCall index])).
    assert (Hsel : selectEngineAndScrape env meta (started w o1)
                   = scrapeWithLiveEngine env meta true ["index"] w2)
      by (by apply (selectEngineAndScrape_index_miss meta _ e o2)).
    assert (Hlive2 : (chooseLiveEngine env meta w2).1 = Returned live).
    { destruct (chooseLiveEngine_eq meta w live Hlive w2) as [t [-> _]].
      done. }
    destruct (scrapeWithLiveEngine_invokes meta true ["index"] w2 live
                Hlive2 Hactions) as [Hcalls Hout].
    { intros Hb. by destruct Hbranding. }
    destruct (scrapeWithLiveEngine env meta true ["index"] w2)
      as [[[[meta1 outcome] att]|e'] w3] eqn:Hlivepath; simpl in Hcalls.
    + destruct (Hout _ _ _ _ eq_refl) as [Hengine Hattempted].
      rewrite (bind_Returned _ _ _ _ _ Hsel).
      split.
      * rewrite appends_noEngine by apply postprocess_noEngine.
        rewrite Hcalls. unfold w2, started. simpl.
        rewrite !engineCalls_app. simpl. by rewrite app_nil_r, <- app_assoc.
      * intros d uf w' Hret.
        destruct (postprocess_chain _ _ _ _ _ _ _ Hret)
          as [r' [w4 [Hchain Hfinish]]].
        rewrite Hengine in Hchain, Hfinish.
        apply finishDocument_Returned in Hfinish as [Hanswer [Huf _]].
        exists meta1, outcome, att, w3, r', w4. cbv zeta.
        assert (Hstate :
          Metadata.cacheState
            (Document.metadata
               (assembleDocument (Meta.set_winnerEngine live meta1)
                                 outcome r'))
          = Some miss).
        { rewrite cacheState_assembleDocument, Hattempted, Hengine.
          unfold cacheMetadata.
          pose proof (selectLiveEngine_not_index meta w live Hforce Hlive).
          by case_bool_decide. }
        split; [by rewrite Hsel|]. split; [done|]. split; [done|].
        split; [done|]. split; [done|]. split; [done|].
        intros Hkeep. apply Hkeep in Hanswer as [-> _]. exact Hstate.
    + rewrite (bind_Thrown _ _ _ _ _ Hsel).
      split; [|done]. simpl. rewrite Hcalls. unfold w2, started. simpl.
      rewrite !engineCalls_app. simpl. by rewrite app_nil_r, <- app_assoc.
  - intros meta w o1 e o2 Hforce Hzdr Habort Hcall.
    rewrite (scrapeURLSingle_started meta w o1 Hzdr Habort).
    apply bind_Thrown. by apply selectEngineAndScrape_forced_index.
Qed.

(** *** Must-have capabilities *)

Lemma chooseLiveEngine_not_index meta w live :
  Meta.forceEngine meta <> Some index ->
  (chooseLiveEngine env meta w).1 = Returned live ->
  live <> index.
Proof.
  intros Hforce Hlive.
  destruct (Meta.forceEngine meta) as [e|] eqn:He.
  - unfold chooseLiveEngine in Hlive. unfold Meta.forceEngine in He.
    rewrite He in Hlive. simpl in Hlive. congruence.
  - by apply (selectLiveEngine_not_index meta w).
Qed.

Lemma chooseLiveEngine_at meta w w' live :
  (chooseLiveEngine env meta w).1 = Returned live ->
  (chooseLiveEngine env meta w').1 = Returned live.
Proof.
  intros H. by destruct (chooseLiveEngine_eq meta w live H w') as [t [-> _]].
Qed.

(** C7 (amended). For a request that passes the checks at the head of
    the pipeline, has the [actions] flag set, does not force the index
    engine, and whose live engine is marked as not supporting actions,
    the live engine is never invoked. When the request is not
    index-eligible the pipeline raises [ActionsNotSupportedError] before
    any engine is invoked; when it is, the index engine alone is invoked,
    and a cache miss raises [ActionsNotSupportedError]. *)
Theorem actions_rejected_before_live_engine meta w o1 live :
  Meta.forceEngine meta <> Some index ->
  zdrViolation meta = None ->
  throwIfAborted env (outside w) = (Returned tt, o1) ->
  (chooseLiveEngine env meta w).1 = Returned live ->
  actions ∈ Meta.featureFlags meta ->
  engineOptions live actions = false ->
  let indexEligible :=
    bool_decide (Meta.forceEngine meta = None) && shouldUseIndex env meta in
  let calls :=
    drop (List.length (engineCalls (trace w)))
         (engineCalls (trace (scrapeURLSingle env meta w).2)) in
  (live ∉ calls)
  /\ (indexEligible = false ->
      calls = []
      /\ exists message,
           (scrapeURLSingle env meta w).1
           = Thrown (ActionsNotSupportedError message))
  /\ (indexEligible = true ->
      calls = [index]
      /\ forall e o2,
           engineHandlers env index meta o1 = (Thrown e, o2) ->
           e = IndexMissError \/ e = NoCachedDataError ->
           exists message,
             (scrapeURLSingle env meta w).1
             = Thrown (ActionsNotSupportedError message)).
Proof.
  intros Hforce Hzdr Habort Hlive Hflag Hcap indexEligible calls.
  pose proof (chooseLiveEngine_not_index meta w live Hforce Hlive) as Hne.
  assert (Hcases :
    (indexEligible = false ->
      calls = []
      /\ exists message,
           (scrapeURLSingle env meta w).1
           = Thrown (ActionsNotSupportedError message))
    /\ (indexEligible = true ->
      calls = [index]
      /\ forall e o2,
           engineHandlers env index meta o1 = (Thrown e, o2) ->
           e = IndexMissError \/ e = NoCachedDataError ->
           exists message,
             (scrapeURLSingle env meta w).1
             = Thrown (ActionsNotSupportedError message))).
  { unfold calls.
    rewrite (scrapeURLSingle_started meta w o1 Hzdr Habort).
    assert (Hdrop : forall t : list Engine,
               drop (List.length (engineCalls (trace w)))
                    (engineCalls (trace w) ++ t) = t)
      by (intros t; apply drop_app_length).
    assert (Hstart : engineCalls (trace (started w o1))
                     = engineCalls (trace w)).
    { unfold started. simpl. rewrite engineCalls_app. apply app_nil_r. }
    split; intros Hie.
    - assert (Hsel : selectEngineAndScrape env meta (started w o1)
                     = scrapeWithLiveEngine env meta false [] (started w o1)).
      { unfold selectEngineAndScrape. unfold indexEligible in Hie.
        unfold Meta.forceEngine in *. rewrite Hie.
        by rewrite (bool_decide_eq_false_2 _ Hforce). }
      destruct (scrapeWithLiveEngine_rejects_actions meta false []
                  (started w o1) live) as [message [t [Hrej Ht]]];
        [by apply (chooseLiveEngine_at meta w)|done|done|].
      rewrite Hrej in Hsel. rewrite (bind_Thrown _ _ _ _ _ Hsel).
      cbn [trace snd fst].
      rewrite engineCalls_app, Ht, app_nil_r, Hstart.
      split; [apply drop_all | eauto].
    - assert (Hnone : Meta.forceEngine meta = None).
      { unfold indexEligible in Hie. apply andb_true_iff in Hie as [Hie _].
        by apply bool_decide_eq_true in Hie. }
      assert (Hidx : shouldUseIndex env meta = true).
      { unfold indexEligible in Hie. by apply andb_true_iff in Hie as [_ ?]. }
      set (w2 o := mkWorld o (trace (started w o1) ++ [EngineCall index])).
      destruct (engineHandlers env index meta o1) as [[r|e] o2] eqn:Hcall.
      + rewrite (bind_Returned _ _ _ _ _
                   (selectEngineAndScrape_index_hit meta (started w o1) r o2
                      Hnone Hidx Hcall)).
        rewrite appends_noEngine by apply postprocess_noEngine.
        cbn [trace]. rewrite engineCalls_app, Hstart.
        split; [apply (Hdrop [index]) | by intros].
      + destruct (decide (e = IndexMissError \/ e = NoCachedDataError))
          as [He|He].
        * pose proof (selectEngineAndScrape_index_miss meta (started w o1)
                        e o2 Hnone Hidx Hcall He) as Hsel.
          destruct (scrapeWithLiveEngine_rejects_actions meta true ["index"]
                      (w2 o2) live) as [message [t [Hrej Ht]]];
            [by apply (chooseLiveEngine_at meta w)|done|done|].
          fold (w2 o2) in Hsel. rewrite Hrej in Hsel.
          rewrite (bind_Thrown _ _ _ _ _ Hsel). unfold w2. cbn [trace snd fst].
          rewrite !engineCalls_app, Ht, app_nil_r, Hstart.
          split; [apply (Hdrop [index]) | eauto].
        * assert (Hsel : selectEngineAndScrape env meta (started w o1)
                         = (Thrown e, w2 o2)).
          { unfold selectEngineAndScrape. unfold Meta.forceEngine in Hnone.
            rewrite Hnone, Hidx. simpl.
            unfold bind, try_catch, scrapeURLWithEngine, call. simpl.
            rewrite Hcall.
            repeat case_bool_decide; simpl; try done; tauto. }
          rewrite (bind_Thrown _ _ _ _ _ Hsel). unfold w2. cbn [trace snd fst].
          rewrite engineCalls_app, Hstart.
          split; [apply (Hdrop [index])|].
          intros e' o' [= <- <-] He'. tauto. }
  split; [|exact Hcases].
  destruct indexEligible.
  - destruct Hcases as [_ Hc]. destruct (Hc eq_refl) as [-> _].
    intros Hin. apply list_elem_of_singleton in Hin. done.
  - destruct Hcases as [Hc _]. destruct (Hc eq_refl) as [-> _].
    apply not_elem_of_nil.
Qed.

(** *** Zero data retention *)

Lemma find_defined {A} (f : A -> bool) (l : list A) (a : A) :
  a ∈ l -> f a = true -> Js.defined (List.find f l) = true.
Proof.
  intros Hin Hf. destruct (List.find f l) eqn:Hfind; [done|].
  apply list_elem_of_In in Hin.
  by rewrite (List.find_none _ _ Hfind _ Hin) in Hf.
Qed.

Lemma screenshot_buildFeatureFlags url options internalOptions :
  Js.defined
    (hasFormatOfType env (ScrapeOptions.formats options) "screenshot") = true ->
  screenshot ∈ buildFeatureFlags env url options internalOptions
  \/ screenshot_fullScreen ∈ buildFeatureFlags env url options internalOptions.
Proof.
  unfold buildFeatureFlags. cbv zeta.
  destruct (hasFormatOfType env (ScrapeOptions.formats options) "screenshot")
    as [fmt|]; [|discriminate].
  intros _. destruct (Js.truthy (Format.fullPage fmt)); [right | left];
    do 9 apply elem_of_if_add_mono;
    apply elem_of_union; left; by apply elem_of_singleton.
Qed.

Lemma buildMetaObject_formats id url options internalOptions :
  exists options' internalOptions',
    ScrapeOptions.formats
      (Meta.options (buildMetaObject env id url options internalOptions))
    = ScrapeOptions.formats options'
    /\ Meta.featureFlags (buildMetaObject env id url options internalOptions)
       = buildFeatureFlags env url options' internalOptions'.
Proof.
  unfold buildMetaObject.
  destruct (urlSpecificParams env url) as [[fo fi]|]; simpl; eauto.
Qed.

(** C8. Under zero data retention, a request that asks for a screenshot
    format (plain or full page) or carries a screenshot or pdf action is
    rejected with [ZDRViolationError] as the first thing the pipeline
    does: no engine has been selected or invoked, the world is as it was
    but for the opening log line. *)
Theorem zero_data_retention_rejects id url options internalOptions w :
  let meta := buildMetaObject env id url options internalOptions in
  Js.truthy (InternalOptions.zeroDataRetention (Meta.internalOptions meta))
    = true ->
  (Js.defined
     (hasFormatOfType env (ScrapeOptions.formats (Meta.options meta))
                      "screenshot") = true
   \/ exists l a,
        ScrapeOptions.actions (Meta.options meta) = Some l
        /\ a ∈ l
        /\ (Action.type a = "screenshot" \/ Action.type a = "pdf")) ->
  exists feature,
    scrapeURLSingle env meta w
    = (Thrown (ZDRViolationError feature),
       mkWorld (outside w) (trace w ++ [Log "info" "Scraping URL"])).
Proof.
  intros meta Hzdr Hreq.
  assert (Hv : exists feature, zdrViolation meta = Some feature).
  { unfold zdrViolation. rewrite Hzdr. unfold has.
    destruct Hreq as [Hfmt | [l [a [Hl [Hin Hty]]]]].
    - destruct (buildMetaObject_formats id url options internalOptions)
        as [o' [i' [Hf Hflags]]].
      fold meta in Hf, Hflags. rewrite Hf in Hfmt.
      apply (screenshot_buildFeatureFlags url o' i') in Hfmt.
      rewrite <- Hflags in Hfmt.
      repeat case_bool_decide; eauto. tauto.
    - rewrite Hl.
      repeat case_bool_decide; eauto.
      destruct Hty as [Hty | Hty].
      + rewrite (find_defined _ l a Hin); [eauto|].
        rewrite Hty. reflexivity.
      + rewrite (find_defined (fun x => String.eqb (Action.type x) "pdf")
                   l a Hin); [|by rewrite Hty].
        destruct (Js.defined _); eauto. }
  destruct Hv as [feature Hv]. exists feature.
  unfold scrapeURLSingle. rewrite Hv. reflexivity.
Qed.

(** *** Cache state *)

Lemma chooseLiveEngine_total meta w :
  exists live, (chooseLiveEngine env meta w).1 = Returned live.
Proof.
  unfold chooseLiveEngine, selectLiveEngine.
  destruct (InternalOptions.forceEngine _);
    [|destruct (Js.truthy (FIRE_ENGINE_BETA_URL env));
      [|destruct (Js.truthy (PLAYWRIGHT_MICROSERVICE_URL env))]];
    simpl; eauto.
Qed.

Lemma scrapeWithLiveEngine_rejects_branding meta ie att w live :
  (chooseLiveEngine env meta w).1 = Returned live ->
  branding ∈ Meta.featureFlags meta ->
  engineOptions live branding = false ->
  exists e w', scrapeWithLiveEngine env meta ie att w = (Thrown e, w').
Proof.
  intros Hlive Hflag Hcap.
  destruct (chooseLiveEngine_eq meta w live Hlive w) as [t [Hchoose Ht]].
  unfold scrapeWithLiveEngine.
  rewrite (bind_Returned _ _ _ _ _ Hchoose).
  rewrite !has_getUnsupportedFeatures, Hcap.
  assert (has (Meta.featureFlags meta) branding = true) as ->
      by (by apply bool_decide_eq_true).
  destruct (has (Meta.featureFlags meta) actions && _); simpl; eauto.
Qed.

(** A live path that returns has invoked its engine, once. *)
Lemma scrapeWithLiveEngine_Returned meta ie att w meta1 outcome att1 w1 :
  scrapeWithLiveEngine env meta ie att w
    = (Returned (meta1, outcome, att1), w1) ->
  exists live,
    (chooseLiveEngine env meta w).1 = Returned live
    /\ engineCalls (trace w1) = engineCalls (trace w) ++ [live]
    /\ EngineOutcome.engine outcome = live
    /\ EngineOutcome.indexAttempted outcome = ie.
Proof.
  intros Hret. destruct (chooseLiveEngine_total meta w) as [live Hlive].
  exists live. split; [done|].
  destruct (scrapeWithLiveEngine_invokes meta ie att w live Hlive)
    as [Hcalls Hout].
  - intros Hin. destruct (engineOptions live actions) eqn:Hcap; [done|].
    destruct (scrapeWithLiveEngine_rejects_actions meta ie att w live
                Hlive Hin Hcap) as [m [t [Hrej _]]].
    rewrite Hrej in Hret. discriminate.
  - intros Hin. destruct (engineOptions live branding) eqn:Hcap; [done|].
    destruct (scrapeWithLiveEngine_rejects_branding meta ie att w live
                Hlive Hin Hcap) as [e [w' Hrej]].
    rewrite Hrej in Hret. discriminate.
  - rewrite Hret in Hcalls. split; [done|]. by apply (Hout _ _ _ _ Hret).
Qed.

(** The engines a returning engine selection has invoked: the index is
    among them exactly when [indexAttempted] is set, and the last of them
    is the winning engine. *)
Lemma selectEngineAndScrape_winner meta w meta1 outcome att w1 :
  selectEngineAndScrape env meta w = (Returned (meta1, outcome, att), w1) ->
  exists calls,
    engineCalls (trace w1) = engineCalls (trace w) ++ calls
    /\ (EngineOutcome.indexAttempted outcome = true <-> index ∈ calls)
    /\ last calls = Some (EngineOutcome.engine outcome).
Proof.
  unfold selectEngineAndScrape.
  destruct (decide (Meta.forceEngine meta = Some index)) as [Hf|Hf];
    unfold Meta.forceEngine in Hf.
  - rewrite (bool_decide_eq_true_2 _ Hf).
    unfold bind, scrapeURLWithEngine, call.
    destruct (engineHandlers env index meta (outside w)) as [[r|e] o];
      [|discriminate].
    intros [= <- <- <- <-]. exists [index]. simpl.
    rewrite engineCalls_app. split; [done|]. split; [|done]. split; [|done].
    intros _. apply list_elem_of_singleton. done.
  - rewrite (bool_decide_eq_false_2 _ Hf).
    assert (Hlive_ne : forall w' live,
               (chooseLiveEngine env meta w').1 = Returned live ->
               live <> index)
      by (intros w' live; by apply chooseLiveEngine_not_index).
    destruct (bool_decide _ && shouldUseIndex env meta) eqn:Hie.
    + unfold bind at 1, try_catch, bind at 1, scrapeURLWithEngine, call.
      destruct (engineHandlers env index meta (outside w)) as [[r|e] o].
      * simpl. intros [= <- <- <- <-]. exists [index]. simpl.
        rewrite engineCalls_app. split; [done|]. split; [|done].
        split; [|done]. intros _. by apply list_elem_of_singleton.
      * destruct (negb (bool_decide (e = IndexMissError))
                  && negb (bool_decide (e = NoCachedDataError)));
          [discriminate|]. simpl. intros Hret.
        apply scrapeWithLiveEngine_Returned in Hret
          as [live [_ [Hcalls [Hengine Hatt]]]].
        exists [index; live]. simpl in Hcalls.
        rewrite Hcalls, engineCalls_app, <- app_assoc.
        split; [done|]. rewrite Hatt, Hengine. split; [|done].
        split; [|done]. intros _. apply elem_of_cons. by left.
    + intros Hret.
      apply scrapeWithLiveEngine_Returned in Hret
        as [live [Hlive [Hcalls [Hengine Hatt]]]].
      exists [live]. split; [done|]. rewrite Hatt, Hengine.
      split; [|done].
      split; [done|]. intros Hin. apply list_elem_of_singleton in Hin.
      by destruct (Hlive_ne w live Hlive).
Qed.

(** What [assembleDocument] writes into the cache fields, by the outcome
    of engine selection and the result it is given. *)
Lemma cacheState_by_outcome meta outcome r :
  let state :=
    Metadata.cacheState
      (Document.metadata (assembleDocument meta outcome r)) in
  let cachedAt :=
    Metadata.cachedAt
      (Document.metadata (assembleDocument meta outcome r)) in
  (state = Some hit <->
   EngineOutcome.indexAttempted outcome = true
   /\ EngineOutcome.engine outcome = index
   /\ is_Some (EngineScrapeResult.cacheInfo r))
  /\ (EngineOutcome.indexAttempted outcome = true ->
      EngineOutcome.engine outcome <> index
      \/ EngineScrapeResult.cacheInfo r = None ->
      state = Some miss)
  /\ (EngineOutcome.indexAttempted outcome = false ->
      state = None /\ cachedAt = None).
Proof.
  cbv zeta.
  unfold assembleDocument, cacheMetadata. simpl.
  destruct (EngineOutcome.indexAttempted outcome);
    destruct (EngineScrapeResult.cacheInfo r) as [c|];
    destruct (decide (EngineOutcome.engine outcome = index)) as [He|He];
    rewrite ?(bool_decide_eq_true_2 _ He), ?(bool_decide_eq_false_2 _ He);
    simpl; repeat split; try done;
    try (intros (? & ? & []%is_Some_None));
    try (intros (? & ? & ?); congruence);
    try (intros ? [? | ?]; congruence).
Qed.

(** C10. A document a request returns is the transformers' answer to
    the document assembled from the outcome of engine selection and the
    result the postprocessor chain left. That document says "hit" exactly
    when the index engine was invoked, is the winning engine (the last
    one invoked) and the result carries [cacheInfo]; when the index was
    invoked but did not win, or won without [cacheInfo], it says "miss";
    and when the index engine was not invoked it has no [cacheState] (nor
    [cachedAt]) at all. The final document has the same cache fields
    wherever the transformers leave them alone. *)
Theorem cacheState_reflects_index_attempt meta w d uf w' :
  scrapeURLSingle env meta w = (Returned (d, uf), w') ->
  exists o1 meta1 outcome att w1 r' w3 calls,
    let meta' :=
      Meta.set_winnerEngine (EngineOutcome.engine outcome) meta1 in
    let handed := assembleDocument meta' outcome r' in
    let state := Metadata.cacheState (Document.metadata handed) in
    let cachedAt := Metadata.cachedAt (Document.metadata handed) in
    selectEngineAndScrape env meta (started w o1)
      = (Returned (meta1, outcome, att), w1)
    /\ runPostprocessors env meta' (postprocessors env)
         (EngineOutcome.result outcome) w1
       = (Returned r', w3)
    /\ executeTransformers env meta' handed (outside w3)
       = (Returned d, outside w')
    /\ engineCalls (trace w') = engineCalls (trace w) ++ calls
    /\ last calls = Some (EngineOutcome.engine outcome)
    /\ (state = Some hit <->
        index ∈ calls
        /\ EngineOutcome.engine outcome = index
        /\ is_Some (EngineScrapeResult.cacheInfo r'))
    /\ (index ∈ calls ->
        EngineOutcome.engine outcome <> index
        \/ EngineScrapeResult.cacheInfo r' = None ->
        state = Some miss)
    /\ (index ∉ calls -> state = None /\ cachedAt = None)
    /\ (transformersKeepCache env ->
        Metadata.cacheState (Document.metadata d) = state
        /\ Metadata.cachedAt (Document.metadata d) = cachedAt).
Proof.
  intros Hret.
  destruct (scrapeURLSingle_Returned _ _ _ _ _ Hret)
    as (o1 & meta1 & outcome & att & w1 & r' & w3
        & Hzdr & Habort & Hsel & Hchain & Hfinish).
  destruct (selectEngineAndScrape_winner _ _ _ _ _ _ Hsel)
    as (calls & Hcalls & Hatt & Hlast).
  destruct (finishDocument_Returned _ _ _ _ _ _ _ Hfinish) as [Hanswer _].
  destruct (cacheState_by_outcome
              (Meta.set_winnerEngine (EngineOutcome.engine outcome) meta1)
              outcome r') as (Hhit & Hmiss & Hnone).
  exists o1, meta1, outcome, att, w1, r', w3, calls. cbv zeta.
  split; [exact Hsel|]. split; [exact Hchain|]. split; [exact Hanswer|].
  split.
  { rewrite (scrapeURLSingle_started meta w o1 Hzdr Habort),
      (bind_Returned _ _ _ _ _ Hsel) in Hret.
    pose proof (appends_noEngine (postprocess env (meta1, outcome, att)) w1
                  (postprocess_noEngine (meta1, outcome, att))) as Hpost.
    rewrite Hret in Hpost. simpl in Hpost. rewrite Hpost, Hcalls.
    unfold started. simpl. rewrite engineCalls_app. simpl.
    by rewrite app_nil_r. }
  split; [exact Hlast|].
  split; [rewrite Hhit, Hatt; tauto|].
  split; [intros Hin; apply Hmiss; by apply Hatt|].
  split.
  { intros Hnot. apply Hnone.
    destruct (EngineOutcome.indexAttempted outcome); [|done].
    destruct Hnot. by apply Hatt. }
  intros Hkeep. by apply Hkeep in Hanswer.
Qed.

(** *** The postprocessor chain *)

Lemma appends_any {A} (c : Async S A) :
  appends noEngine c -> appends (fun _ => True) c.
Proof. intros H w. destruct (H w) as [t [Ht _]]. eauto. Qed.

Lemma runPostprocessor_runs meta q r w finalUrl :
  newURL env (EngineScrapeResult.url r) = Some finalUrl ->
  Postprocessor.shouldRun q meta finalUrl
    (EngineScrapeResult.postprocessorsUsed r) = true ->
  PostprocessorRun (Postprocessor.name q)
    ∈ trace (runPostprocessor env meta q r w).2.
Proof.
  intros Hurl Hshould. unfold runPostprocessor. rewrite Hurl, Hshould.
  unfold bind, log, emit, try_catch, call. simpl.
  destruct (Postprocessor.run q meta r (outside w)) as [[r'|e] o]; simpl;
    rewrite !elem_of_app, !list_elem_of_singleton; auto.
Qed.

(** C5. When a postprocessor whose [shouldRun] holds throws from [run],
    the turn of the loop returns the working result it was given (so the
    step adds nothing to [postprocessorsUsed]), the failure leaves a
    warning in the log and nothing else, and the loop goes on with the
    rest of the list from that same result: the next postprocessor, if
    its predicate holds, runs. *)
Theorem postprocessor_failure_is_tolerated meta p rest r w finalUrl e o :
  newURL env (EngineScrapeResult.url r) = Some finalUrl ->
  Postprocessor.shouldRun p meta finalUrl
    (EngineScrapeResult.postprocessorsUsed r) = true ->
  Postprocessor.run p meta r (outside w) = (Thrown e, o) ->
  let name := Postprocessor.name p in
  let w' :=
    mkWorld o
      (trace w
       ++ [ Log "info" ("Running postprocessor " ++ name)%string;
            PostprocessorRun name;
            Log "warn" ("Failed to run postprocessor " ++ name)%string ]) in
  runPostprocessor env meta p r w = (Returned r, w')
  /\ runPostprocessors env meta [p] r w = (Returned r, w')
  /\ runPostprocessors env meta (p :: rest) r w
     = runPostprocessors env meta rest r w'
  /\ forall q rest',
       rest = q :: rest' ->
       Postprocessor.shouldRun q meta finalUrl
         (EngineScrapeResult.postprocessorsUsed r) = true ->
       PostprocessorRun (Postprocessor.name q)
         ∈ trace (runPostprocessors env meta (p :: rest) r w).2.
Proof.
  intros Hurl Hshould Hrun name w'.
  assert (Hstep : runPostprocessor env meta p r w = (Returned r, w')).
  { unfold runPostprocessor. rewrite Hurl, Hshould.
    unfold bind, log, emit, try_catch, call. simpl. rewrite Hrun. simpl.
    unfold w'. by rewrite <- !app_assoc. }
  split; [exact Hstep|].
  split; [simpl; by rewrite (bind_Returned _ _ _ _ _ Hstep)|].
  split; [simpl; by rewrite (bind_Returned _ _ _ _ _ Hstep)|].
  intros q rest' -> Hq. simpl.
  rewrite (bind_Returned _ _ _ _ _ Hstep).
  pose proof (runPostprocessor_runs meta q r w' finalUrl Hurl Hq) as Hin.
  unfold bind.
  destruct (runPostprocessor env meta q r w') as [[r'|e'] w''];
    [|exact Hin].
  destruct (appends_runPostprocessors env (fun _ => True) I
              (fun _ _ _ _ => I) (fun _ _ => I) meta rest' r' w'')
    as [t [-> _]].
  apply elem_of_app. by left.
Qed.

(** *** Specialty parsing without a prefetched payload *)

Lemma applySpecialtyParsing_plan meta engine r w plan w1 :
  detectSpecialtyPlan env
    (SpecialtyDetectionInput.mk None
       (EngineScrapeResult.contentType r)
       (Some (EngineScrapeResult.html r))
       (EngineScrapeResult.binaryFile r)
       (Some (EngineScrapeResult.url r))
       (Some (EngineScrapeResult.statusCode r))
       (EngineScrapeResult.proxyUsed r)) w
    = (Returned (Some plan), w1) ->
  applySpecialtyParsing env meta engine r w
  = (if bool_decide (engine = fire_engine_chrome_cdp)
        && negb (Js.truthy (SpecialtyPlan.prefetch plan))
     then
       throw (EngineError
                ("Fire Engine response missing file payload for "
                 ++ specialtyTypeName (SpecialtyPlan.type plan))%string)
     else
       match SpecialtyPlan.type plan with
       | SpecialtyPlan.pdf =>
           pdfPrefetch <-
             (match SpecialtyPlan.prefetch plan with
              | value p => ret (value p)
              | _ => prefetchPdfFile env meta r (SpecialtyPlan.contentType plan)
              end) ;;
           pdfResult <- scrapePDF env (Meta.set_pdfPrefetch pdfPrefetch meta) ;;
           ret (Meta.set_pdfPrefetch pdfPrefetch meta,
                EngineScrapeResult.set_contentType
                  (firstContentType
                     (EngineScrapeResult.contentType pdfResult)
                     (SpecialtyPlan.contentType plan)
                     (EngineScrapeResult.contentType r))
                  pdfResult)
       | SpecialtyPlan.document =>
           documentPrefetch <-
             (match SpecialtyPlan.prefetch plan with
              | value p => ret (value p)
              | _ => prefetchDocumentFile env meta r
                       (SpecialtyPlan.contentType plan)
              end) ;;
           documentResult <-
             call (ParserCall "scrapeDocument")
                  (scrapeDocument env
                     (Meta.set_documentPrefetch documentPrefetch meta)) ;;
           ret (Meta.set_documentPrefetch documentPrefetch meta,
                EngineScrapeResult.set_contentType
                  (firstContentType
                     (EngineScrapeResult.contentType documentResult)
                     (SpecialtyPlan.contentType plan)
                     (EngineScrapeResult.contentType r))
                  documentResult)
       end) w1.
Proof.
  intros Hdetect. unfold applySpecialtyParsing.
  by rewrite (bind_Returned _ _ _ _ _ Hdetect).
Qed.

(** C6. When the detector classifies an engine's result as pdf or
    document and hands over no prefetch descriptor: for the engine
    "fire-engine;chrome-cdp" [applySpecialtyParsing] throws [EngineError]
    from the world the detector left (nothing is downloaded); for any
    other engine the next thing it does is the download, whose failure is
    the failure of the call, and whose file is the prefetch slot with
    which the parser ([scrapePDF] or [scrapeDocument]) is then invoked. *)
Theorem missing_prefetch_is_fatal_for_fire_engine meta engine r w plan w1 :
  detectSpecialtyPlan env
    (SpecialtyDetectionInput.mk None
       (EngineScrapeResult.contentType r)
       (Some (EngineScrapeResult.html r))
       (EngineScrapeResult.binaryFile r)
       (Some (EngineScrapeResult.url r))
       (Some (EngineScrapeResult.statusCode r))
       (EngineScrapeResult.proxyUsed r)) w
    = (Returned (Some plan), w1) ->
  Js.truthy (SpecialtyPlan.prefetch plan) = false ->
  let url := EngineScrapeResult.url r in
  let download :=
    downloadFile env (Meta.id meta) url
      (Js.truthy (ScrapeOptions.skipTlsVerification (Meta.options meta)))
      (ScrapeOptions.headers (Meta.options meta)) (outside w1) in
  let w2 := mkWorld download.2 (trace w1 ++ [DownloadFile url]) in
  (engine = fire_engine_chrome_cdp ->
   applySpecialtyParsing env meta engine r w
   = (Thrown
        (EngineError
           ("Fire Engine response missing file payload for "
            ++ specialtyTypeName (SpecialtyPlan.type plan))%string),
      w1))
  /\ (engine <> fire_engine_chrome_cdp ->
      (exists t,
         trace (applySpecialtyParsing env meta engine r w).2
         = trace w1 ++ DownloadFile url :: t)
      /\ (forall e,
            download.1 = Thrown e ->
            applySpecialtyParsing env meta engine r w = (Thrown e, w2))
      /\ (forall d,
            download.1 = Returned d ->
            let slot :=
              value
                (Prefetch.mk
                   (Download.tempFilePath d)
                   (Some (Download.response_url d))
                   (Download.response_status d)
                   (Js.nullish (EngineScrapeResult.proxyUsed r) basic)
                   (match Download.response_contentType d with
                    | Some ct => Some ct
                    | None => SpecialtyPlan.contentType plan
                    end)) in
            match SpecialtyPlan.type plan with
            | SpecialtyPlan.pdf =>
                applySpecialtyParsing env meta engine r w
                = (pdfResult <-
                     scrapePDF env (Meta.set_pdfPrefetch slot meta) ;;
                   ret (Meta.set_pdfPrefetch slot meta,
                        EngineScrapeResult.set_contentType
                          (firstContentType
                             (EngineScrapeResult.contentType pdfResult)
                             (SpecialtyPlan.contentType plan)
                             (EngineScrapeResult.contentType r))
                          pdfResult)) w2
            | SpecialtyPlan.document =>
                applySpecialtyParsing env meta engine r w
                = (documentResult <-
                     call (ParserCall "scrapeDocument")
                          (scrapeDocument env
                             (Meta.set_documentPrefetch slot meta)) ;;
                   ret (Meta.set_documentPrefetch slot meta,
                        EngineScrapeResult.set_contentType
                          (firstContentType
                             (EngineScrapeResult.contentType documentResult)
                             (SpecialtyPlan.contentType plan)
                             (EngineScrapeResult.contentType r))
                          documentResult)) w2
            end)).
Proof.
  intros Hdetect Hnone url download w2.
  rewrite (applySpecialtyParsing_plan meta engine r w plan w1 Hdetect).
  rewrite Hnone. split.
  - intros ->. by rewrite bool_decide_eq_true_2.
  - intros Hne. rewrite (bool_decide_eq_false_2 _ Hne). cbn [andb negb].
    assert (Hfetch :
      prefetchFile env meta r (SpecialtyPlan.contentType plan) w1
      = match download.1 with
        | Returned d =>
            (Returned
               (value
                  (Prefetch.mk
                     (Download.tempFilePath d)
                     (Some (Download.response_url d))
                     (Download.response_status d)
                     (Js.nullish (EngineScrapeResult.proxyUsed r) basic)
                     (match Download.response_contentType d with
                      | Some ct => Some ct
                      | None => SpecialtyPlan.contentType plan
                      end))), w2)
        | Thrown e => (Thrown e, w2)
        end).
    { unfold prefetchFile, bind, call, w2, download. fold url.
      by destruct (downloadFile env _ _ _ _ (outside w1)) as [[d|e] o]. }
    assert (Hslot :
      (match SpecialtyPlan.prefetch plan with
       | value p => ret (value p)
       | _ => prefetchFile env meta r (SpecialtyPlan.contentType plan)
       end) = prefetchFile env meta r (SpecialtyPlan.contentType plan)).
    { by destruct (SpecialtyPlan.prefetch plan). }
    unfold prefetchPdfFile, prefetchDocumentFile. rewrite !Hslot.
    destruct download.1 as [d|e] eqn:Hdl.
    + assert (Hpdf := bind_Returned _
               (fun pdfPrefetch =>
                  pdfResult <-
                    scrapePDF env (Meta.set_pdfPrefetch pdfPrefetch meta) ;;
                  ret (Meta.set_pdfPrefetch pdfPrefetch meta,
                       EngineScrapeResult.set_contentType
                         (firstContentType
                            (EngineScrapeResult.contentType pdfResult)
                            (SpecialtyPlan.contentType plan)
                            (EngineScrapeResult.contentType r))
                         pdfResult)) _ _ _ Hfetch).
      assert (Hdoc := bind_Returned _
               (fun documentPrefetch =>
                  documentResult <-
                    call (ParserCall "scrapeDocument")
                         (scrapeDocument env
                            (Meta.set_documentPrefetch documentPrefetch meta)) ;;
                  ret (Meta.set_documentPrefetch documentPrefetch meta,
                       EngineScrapeResult.set_contentType
                         (firstContentType
                            (EngineScrapeResult.contentType documentResult)
                            (SpecialtyPlan.contentType plan)
                            (EngineScrapeResult.contentType r))
                         documentResult)) _ _ _ Hfetch).
      split; [|split].
      * destruct (SpecialtyPlan.type plan).
        -- rewrite Hpdf.
           match goal with
           | |- context [bind ?c ?k w2] =>
               destruct (appends_bind (fun _ => True) (fun _ _ _ _ => I) c k
                           (appends_scrapePDF env _ I (fun _ _ _ _ => I)
                              (fun _ _ => I) _)
                           (fun a => appends_ret _ I _) w2) as [t [-> _]]
           end.
           unfold w2. simpl. rewrite <- app_assoc. by exists t.
        -- rewrite Hdoc.
           match goal with
           | |- context [bind ?c ?k w2] =>
               destruct (appends_bind (fun _ => True) (fun _ _ _ _ => I) c k
                           (appends_call _ _ _ I)
                           (fun a => appends_ret _ I _) w2) as [t [-> _]]
           end.
           unfold w2. simpl. rewrite <- app_assoc. by exists t.
      * intros e He. discriminate He.
      * intros d' [= <-]. cbv zeta. by destruct (SpecialtyPlan.type plan).
    + assert (Hthrow : forall A (k : Nullable Prefetch.t -> Async S A),
                 bind (prefetchFile env meta r (SpecialtyPlan.contentType plan))
                      k w1 = (Thrown e, w2))
        by (intros A k; by apply bind_Thrown).
      split; [|split].
      * destruct (SpecialtyPlan.type plan); rewrite Hthrow; by exists [].
      * intros e' [= <-]. by destruct (SpecialtyPlan.type plan).
      * intros d Hd. discriminate Hd.
Qed.

End Pipeline.

(** ** Specialty detection *)

Section Detection.

Context {S : Type} (env : Env S).
Implicit Types (w : World S) (input : SpecialtyDetectionInput.t).

Lemma base64ToPrefetch_written w content ext ty url st px ct :
  writable env ->
  exists p w',
    base64ToPrefetch env content ext ty url st px ct w
      = (Returned (value p), w')
    /\ Prefetch.contentType p = ct
    /\ files (outside w') !! Prefetch.filePath p
       = Some (fromBase64 env content)
    /\ trace w' = trace w ++ [WriteFile (Prefetch.filePath p)].
Proof.
  intros Hw. unfold base64ToPrefetch, bind, freshUUID, try_catch, writeFile.
  destruct (randomUUID env (services (outside w))) as [uuid s'] eqn:Hu.
  simpl. rewrite Hw. simpl.
  eexists _, _. split; [reflexivity|]. simpl.
  split; [reflexivity|]. split; [|reflexivity]. apply lookup_insert_eq.
Qed.

Lemma startsWith_PDF_body b :
  Js.startsWith b "%PDF-" = true ->
  Js.truthy b = true
  /\ Js.startsWith b "PK" = false
  /\ Js.startsWith b "UEsD" = false.
Proof.
  unfold Js.startsWith. destruct b as [|c b]; [done|].
  cbn [String.prefix].
  destruct (Ascii.ascii_dec "%" c) as [<-|]; [|done]. by intros _.
Qed.

Lemma startsWith_nonempty s p :
  Js.startsWith s p = true -> p <> "" -> Js.truthy s = true.
Proof.
  unfold Js.startsWith. intros H Hp. destruct s; [|done].
  destruct p; [done|]. discriminate H.
Qed.

(** C4 (amended). [detectSpecialtyPlan] answers: "pdf" for the content
    type "application/pdf"; "pdf" with no content type and no prefetch for
    a body that starts with "%PDF-" when no content type is known and the
    binary payload, if any, does not carry the zip signature; "document"
    with a prefetch descriptor whose [filePath] is a file on disk for the
    content type "application/octet-stream" and a binary payload whose
    base64 text starts with "UEsD"; and nothing when there is no content
    type, no body and no binary payload. The temporary directory is
    taken to be writable where a payload is written. *)
Theorem detectSpecialtyPlan_classifies :
  (forall input w,
     SpecialtyDetectionInput.contentType input = Some "application/pdf" ->
     writable env ->
     exists prefetch w',
       detectSpecialtyPlan env input w
       = (Returned
            (Some (SpecialtyPlan.mk SpecialtyPlan.pdf
                     (Some "application/pdf") prefetch)), w'))
  /\ (forall input w b,
        getHeaderContentType (SpecialtyDetectionInput.headers input)
          (SpecialtyDetectionInput.contentType input) = None ->
        SpecialtyDetectionInput.body input = Some b ->
        Js.startsWith b "%PDF-" = true ->
        hasDocumentSignature None
          (BinaryFile.content <$> SpecialtyDetectionInput.binaryFile input)
          = false ->
        detectSpecialtyPlan env input w
        = (Returned
             (Some (SpecialtyPlan.mk SpecialtyPlan.pdf None undefined)), w))
  /\ (forall input w bf,
        SpecialtyDetectionInput.contentType input
          = Some "application/octet-stream" ->
        SpecialtyDetectionInput.binaryFile input = Some bf ->
        Js.startsWith (BinaryFile.content bf) "UEsD" = true ->
        writable env ->
        exists p w',
          detectSpecialtyPlan env input w
          = (Returned
               (Some (SpecialtyPlan.mk SpecialtyPlan.document
                        (Some "application/octet-stream") (value p))), w')
          /\ files (outside w') !! Prefetch.filePath p
             = Some (fromBase64 env (BinaryFile.content bf))
          /\ trace w' = trace w ++ [WriteFile (Prefetch.filePath p)])
  /\ (forall input w,
        getHeaderContentType (SpecialtyDetectionInput.headers input)
          (SpecialtyDetectionInput.contentType input) = None ->
        SpecialtyDetectionInput.body input = None ->
        SpecialtyDetectionInput.binaryFile input = None ->
        (detectSpecialtyPlan env input w).1 = Returned None).
Proof.
  repeat split.
  - intros [headers ct body binary url st px] w Hct Hw. simpl in Hct.
    subst ct. unfold detectSpecialtyPlan. cbv zeta.
    cbn [SpecialtyDetectionInput.headers SpecialtyDetectionInput.contentType
         SpecialtyDetectionInput.body SpecialtyDetectionInput.binaryFile
         SpecialtyDetectionInput.url SpecialtyDetectionInput.status
         SpecialtyDetectionInput.proxyUsed].
    change (Js.toLowerCase <$>
              getHeaderContentType headers (Some "application/pdf"))
      with (Some "application/pdf").
    change (Js.truthy (Some "application/pdf")) with true.
    change (isDocument (Some "application/pdf")) with false.
    change (isOctetStream (Some "application/pdf")) with false.
    change (isPdf (Some "application/pdf")) with true.
    cbn [negb andb orb].
    destruct binary as [[name content]|]; cbn [fmap option_fmap option_map
                                               BinaryFile.content].
    + destruct (Js.truthy content) eqn:Hc.
      * destruct (base64ToPrefetch_written w content "pdf" SpecialtyPlan.pdf
                    url st px (Some "application/pdf") Hw)
          as [p [w' [Heq _]]].
        unfold bind. rewrite Heq. eauto.
      * unfold bind, ret. eauto.
    + unfold bind, ret. eauto.
  - intros [headers ct body binary url st px] w b Hct Hbody Hpdf Hdoc.
    simpl in Hct, Hbody, Hdoc. subst body.
    destruct (startsWith_PDF_body b Hpdf) as [Hb [Hpk Hzip]].
    unfold detectSpecialtyPlan. cbv zeta.
    cbn [SpecialtyDetectionInput.headers SpecialtyDetectionInput.contentType
         SpecialtyDetectionInput.body SpecialtyDetectionInput.binaryFile
         SpecialtyDetectionInput.url SpecialtyDetectionInput.status
         SpecialtyDetectionInput.proxyUsed].
    rewrite Hct. cbn [fmap option_fmap option_map].
    change (Js.truthy (@None string)) with false.
    change (Js.truthy (Some b)) with (Js.truthy b). rewrite Hb.
    change (isDocument None) with false.
    change (isOctetStream None) with false.
    change (isPdf None) with false.
    cbn [negb andb orb].
    assert (hasDocumentSignature (Some b)
              (BinaryFile.content <$> binary) = false) as ->.
    { unfold hasDocumentSignature in *. cbn [Js.nullish default from_option id] in *.
      rewrite Hpk, Hzip. exact Hdoc. }
    assert (hasPdfSignature (Some b) (BinaryFile.content <$> binary) = true)
      as ->.
    { unfold hasPdfSignature. cbn [Js.nullish default from_option id]. by rewrite Hpdf. }
    reflexivity.
  - intros [headers ct body binary url st px] w bf Hct Hbin Hzip Hw.
    simpl in Hct, Hbin. subst ct binary.
    unfold detectSpecialtyPlan. cbv zeta.
    cbn [SpecialtyDetectionInput.headers SpecialtyDetectionInput.contentType
         SpecialtyDetectionInput.body SpecialtyDetectionInput.binaryFile
         SpecialtyDetectionInput.url SpecialtyDetectionInput.status
         SpecialtyDetectionInput.proxyUsed].
    change (Js.toLowerCase <$>
              getHeaderContentType headers (Some "application/octet-stream"))
      with (Some "application/octet-stream").
    change (Js.truthy (Some "application/octet-stream")) with true.
    change (isDocument (Some "application/octet-stream")) with false.
    change (isOctetStream (Some "application/octet-stream")) with true.
    change (getDocumentExtension (Some "application/octet-stream"))
      with "tmp".
    cbn [negb andb orb fmap option_fmap option_map].
    assert (hasDocumentSignature body (Some (BinaryFile.content bf)) = true)
      as ->.
    { unfold hasDocumentSignature. cbn [Js.nullish default from_option id].
      by rewrite Hzip, !orb_true_r. }
    rewrite (startsWith_nonempty _ _ Hzip) by done.
    destruct (base64ToPrefetch_written w (BinaryFile.content bf) "tmp"
                SpecialtyPlan.document url st px
                (Some "application/octet-stream") Hw)
      as [p [w' [Heq [_ [Hfile Htrace]]]]].
    unfold bind. rewrite Heq. eauto.
  - intros [headers ct body binary url st px] w Hct Hbody Hbin.
    simpl in Hct, Hbody, Hbin. subst body binary.
    unfold detectSpecialtyPlan. cbv zeta.
    cbn [SpecialtyDetectionInput.headers SpecialtyDetectionInput.contentType
         SpecialtyDetectionInput.body SpecialtyDetectionInput.binaryFile].
    by rewrite Hct.
Qed.

End Detection.

(** ** Temporary files of the PDF parser *)

Section PDFCleanup.

Context {S : Type} (env : Env S).
Implicit Types (w : World S) (meta : Meta.t).

(** The [finally] block never throws and leaves no file at the path. *)
Lemma scrapePDF_finally_removes path w :
  exists w',
    @scrapePDF_finally S path w = (Returned tt, w')
    /\ files (outside w') !! path = None
    /\ filter (fun ev => ev = Unlink path) (trace w')
       = filter (fun ev => ev = Unlink path) (trace w) ++ [Unlink path].
Proof.
  unfold scrapePDF_finally, try_catch, unlink, log, emit.
  destruct (files (outside w) !! path) as [data|] eqn:Hfile; simpl.
  - eexists. split; [reflexivity|]. simpl. split; [apply lookup_delete_eq|].
    rewrite filter_app. f_equal. by rewrite filter_cons_True.
  - eexists. split; [reflexivity|]. simpl. split; [done|].
    rewrite !filter_app. rewrite (filter_cons_True _ (Unlink path)) by done.
    rewrite (filter_cons_False _ (Log _ _)) by done.
    rewrite !filter_nil. by rewrite app_nil_r.
Qed.

(** Once [scrapePDF] has entered its [try] block, whatever happens in it,
    the temporary file is gone when [scrapePDF] is left, and the outcome
    is that of the block. *)
Lemma scrapePDF_try_finally_cleans meta sp mp path u sc ct px w :
  let block := scrapePDF_try env meta sp mp path u sc ct px in
  let r := try_finally block (scrapePDF_finally path) w in
  r.1 = (block w).1 /\ files (outside r.2) !! path = None.
Proof.
  intros block r. unfold r, try_finally.
  destruct (block w) as [out w1].
  destruct (scrapePDF_finally_removes path w1) as [w2 [-> [Hgone _]]].
  done.
Qed.

(** A prefetched file whose content type is not a PDF's makes
    [scrapePDF] throw before its [try] block: nothing is unlinked. *)
Lemma scrapePDF_mismatch meta p ct w :
  Meta.pdfPrefetch meta = value p ->
  Prefetch.contentType p = Some ct ->
  Js.truthy ct = true ->
  Js.includes ct "application/pdf" = false ->
  scrapePDF env meta w = (Thrown PDFPrefetchFailed, w).
Proof.
  intros Hp Hct Ht Hi. unfold scrapePDF. rewrite Hp, Hct, Ht, Hi.
  reflexivity.
Qed.

End PDFCleanup.

(** ** The theorems at concrete requests *)

Lemma index_hit_short_circuits_witness :
  engineCalls
    (trace (scrapeURLSingle (Example.env Example.cached Example.unreachable [])
              (Example.meta (Example.env Example.cached Example.unreachable [])
                            None None)
              Example.emptyWorld).2)
  = [index]
  /\ exists d uf w',
       scrapeURLSingle (Example.env Example.cached Example.unreachable [])
         (Example.meta (Example.env Example.cached Example.unreachable [])
                       None None)
         Example.emptyWorld
       = (Returned (d, uf), w')
       /\ Metadata.cacheState (Document.metadata d) = Some hit.
Proof.
  destruct (index_hit_short_circuits
              (Example.env Example.cached Example.unreachable [])
              (Example.meta (Example.env Example.cached Example.unreachable [])
                            None None)
              Example.emptyWorld (mkOutside ∅ tt)
              (Example.page (Some 1700000000000)) (mkOutside ∅ tt))
    as [_ [Hcalls Hdoc]]; [reflexivity ..|].
  split; [exact Hcalls|].
  destruct (Hdoc (Example.page (Some 1700000000000))
              (mkWorld (mkOutside ∅ tt)
                 [Log "info" "Scraping URL"; EngineCall index]))
    as [_ [_ Hfinal]]; [reflexivity|].
  eassert (Heq :
    scrapeURLSingle (Example.env Example.cached Example.unreachable [])
      (Example.meta (Example.env Example.cached Example.unreachable [])
                    None None)
      Example.emptyWorld
    = (Returned (_, _), _)) by (vm_compute; reflexivity).
  eexists _, _, _. split; [exact Heq|].
  apply (fun keep => Hfinal keep _ _ _ Heq).
  intros m doc o doc' o' Hanswer. injection Hanswer as <- <-. by split.
Defined.

(** C1 as stated fails: an index entry that carries no [cacheInfo] is
    served without any live engine, under all the gating conditions, and
    the document says "miss". *)
Lemma index_hit_without_cacheInfo_says_miss :
  Meta.forceEngine
    (Example.meta (Example.env Example.unstamped Example.unreachable [])
                  None None) = None
  /\ shouldUseIndex (Example.env Example.unstamped Example.unreachable [])
       (Example.meta (Example.env Example.unstamped Example.unreachable [])
                     None None) = true
  /\ engineHandlers (Example.env Example.unstamped Example.unreachable [])
       index
       (Example.meta (Example.env Example.unstamped Example.unreachable [])
                     None None)
       (mkOutside ∅ tt)
     = (Returned (Example.page None), mkOutside ∅ tt)
  /\ exists d uf w',
       scrapeURLSingle (Example.env Example.unstamped Example.unreachable [])
         (Example.meta (Example.env Example.unstamped Example.unreachable [])
                       None None)
         Example.emptyWorld
       = (Returned (d, uf), w')
       /\ engineCalls (trace w') = [index]
       /\ Metadata.cacheState (Document.metadata d) = Some miss
       /\ Metadata.cacheState (Document.metadata d) <> Some hit.
Proof.
  repeat split; try reflexivity.
  eexists _, _, _. split; [vm_compute; reflexivity|].
  repeat split; try reflexivity. discriminate.
Qed.

Lemma index_miss_falls_back_witness :
  engineCalls
    (trace (scrapeURLSingle (Example.env Example.missing Example.live [])
              (Example.meta (Example.env Example.missing Example.live [])
                            None None)
              Example.emptyWorld).2)
  = [index; fetch]
  /\ exists d uf w',
       scrapeURLSingle (Example.env Example.missing Example.live [])
         (Example.meta (Example.env Example.missing Example.live [])
                       None None)
         Example.emptyWorld
       = (Returned (d, uf), w')
       /\ Metadata.cacheState (Document.metadata d) = Some miss.
Proof.
  destruct (index_miss_falls_back (Example.env Example.missing Example.live []))
    as [Hmiss _].
  destruct (Hmiss "scrape-1" "https://example.com/" (Example.options None)
              (Example.internalOptions None) Example.emptyWorld
              (mkOutside ∅ tt) IndexMissError (mkOutside ∅ tt) fetch)
    as [Hcalls Hdoc]; [try reflexivity .. | ].
  - by left.
  - intros Hin. apply (bool_decide_eq_true_2 _) in Hin.
    vm_compute in Hin. discriminate Hin.
  - split; [exact Hcalls|].
    eassert (Heq :
      scrapeURLSingle (Example.env Example.missing Example.live [])
        (Example.meta (Example.env Example.missing Example.live [])
                      None None)
        Example.emptyWorld
      = (Returned (_, _), _)) by (vm_compute; reflexivity).
    destruct (Hdoc _ _ _ Heq)
      as (meta1 & outcome & att & w1 & r' & w3 & _ & _ & _ & _ & _ & _
          & Hfinal).
    eexists _, _, _. split; [exact Heq|].
    apply Hfinal.
    intros m doc o doc' o' Hanswer. injection Hanswer as <- <-. by split.
Defined.

(** C3 as stated fails: with [actions: []] the request is index-eligible
    and carries the [actions] flag; after the cache miss the capability
    check of the live engine ([fetch]) raises [ActionsNotSupportedError]:
    the live engine is not invoked and there is no document. *)
Lemma index_miss_with_empty_actions_is_rejected :
  Meta.forceEngine
    (Example.meta (Example.env Example.missing Example.live [])
                  (Some []) None) = None
  /\ shouldUseIndex (Example.env Example.missing Example.live [])
       (Example.meta (Example.env Example.missing Example.live [])
                     (Some []) None) = true
  /\ engineHandlers (Example.env Example.missing Example.live []) index
       (Example.meta (Example.env Example.missing Example.live [])
                     (Some []) None)
       (mkOutside ∅ tt)
     = (Thrown IndexMissError, mkOutside ∅ tt)
  /\ (scrapeURLSingle (Example.env Example.missing Example.live [])
        (Example.meta (Example.env Example.missing Example.live [])
                      (Some []) None)
        Example.emptyWorld).1
     = Thrown
         (ActionsNotSupportedError
            "Actions are not supported by this engine. Actions require Fire Engine (fire-engine) to be enabled.")
  /\ engineCalls
       (trace (scrapeURLSingle (Example.env Example.missing Example.live [])
                 (Example.meta (Example.env Example.missing Example.live [])
                               (Some []) None)
                 Example.emptyWorld).2)
     = [index].
Proof.
  split; [reflexivity|]. split; [reflexivity|]. split; [reflexivity|].
  split; vm_compute; reflexivity.
Qed.

Lemma detectSpecialtyPlan_classifies_witness :
  exists p w',
    detectSpecialtyPlan (Example.env Example.missing Example.live [])
      (SpecialtyDetectionInput.mk None (Some "application/octet-stream") None
         (Some (BinaryFile.mk None "UEsDBA=="))
         (Some "https://example.com/file") (Some 200) (Some basic))
      Example.emptyWorld
    = (Returned
         (Some (SpecialtyPlan.mk SpecialtyPlan.document
                  (Some "application/octet-stream") (value p))), w')
    /\ files (outside w') !! Prefetch.filePath p = Some "UEsDBA=="
    /\ trace w' = [WriteFile (Prefetch.filePath p)].
Proof.
  destruct (detectSpecialtyPlan_classifies
              (Example.env Example.missing Example.live []))
    as [_ [_ [Hdoc _]]].
  apply (Hdoc
           (SpecialtyDetectionInput.mk None (Some "application/octet-stream")
              None (Some (BinaryFile.mk None "UEsDBA=="))
              (Some "https://example.com/file") (Some 200) (Some basic))
           Example.emptyWorld (BinaryFile.mk None "UEsDBA==")); try reflexivity.
  intros s path. reflexivity.
Defined.

(** C4 as stated fails: with no content type, a body that starts with
    "%PDF-" and a binary payload that starts with the zip signature, the
    detector tests the zip signature first and answers "document". *)
Lemma pdf_body_with_zip_payload_is_a_document :
  Js.startsWith "%PDF-1.5" "%PDF-" = true
  /\ detectSpecialtyPlan (Example.env Example.missing Example.live [])
       (SpecialtyDetectionInput.mk None None (Some "%PDF-1.5")
          (Some (BinaryFile.mk None "UEsDBA==")) None None None)
       Example.emptyWorld
     = (Returned
          (Some (SpecialtyPlan.mk SpecialtyPlan.document None undefined)),
        Example.emptyWorld).
Proof. split; vm_compute; reflexivity. Qed.

Lemma postprocessor_failure_is_tolerated_witness :
  runPostprocessors
    (Example.env Example.missing Example.live
                 [Example.failing; Example.tagging])
    (Example.meta (Example.env Example.missing Example.live []) None None)
    [Example.failing; Example.tagging] (Example.page None) Example.emptyWorld
  = runPostprocessors
      (Example.env Example.missing Example.live
                   [Example.failing; Example.tagging])
      (Example.meta (Example.env Example.missing Example.live []) None None)
      [Example.tagging] (Example.page None)
      (mkWorld (mkOutside ∅ tt)
         [ Log "info" "Running postprocessor failing";
           PostprocessorRun "failing";
           Log "warn" "Failed to run postprocessor failing" ])
  /\ PostprocessorRun "tagging"
       ∈ trace
           (runPostprocessors
              (Example.env Example.missing Example.live
                           [Example.failing; Example.tagging])
              (Example.meta (Example.env Example.missing Example.live [])
                            None None)
              [Example.failing; Example.tagging] (Example.page None)
              Example.emptyWorld).2.
Proof.
  destruct (postprocessor_failure_is_tolerated
              (Example.env Example.missing Example.live
                           [Example.failing; Example.tagging])
              (Example.meta (Example.env Example.missing Example.live [])
                            None None)
              Example.failing [Example.tagging] (Example.page None)
              Example.emptyWorld "https://example.com/" (Error "boom")
              (mkOutside ∅ tt))
    as [_ [_ [Hrest Hnext]]];
    [reflexivity ..
    | split; [exact Hrest | apply (Hnext Example.tagging []); reflexivity]].
Defined.

Lemma missing_prefetch_is_fatal_for_fire_engine_witness :
  applySpecialtyParsing (Example.env Example.missing Example.live [])
    (Example.meta (Example.env Example.missing Example.live []) None None)
    fire_engine_chrome_cdp Example.pdfPage Example.emptyWorld
  = (Thrown (EngineError "Fire Engine response missing file payload for pdf"),
     Example.emptyWorld).
Proof.
  destruct (missing_prefetch_is_fatal_for_fire_engine
              (Example.env Example.missing Example.live [])
              (Example.meta (Example.env Example.missing Example.live [])
                            None None)
              fire_engine_chrome_cdp Example.pdfPage Example.emptyWorld
              (SpecialtyPlan.mk SpecialtyPlan.pdf (Some "application/pdf")
                                undefined)
              Example.emptyWorld)
    as [Hfire _]; [reflexivity .. | apply Hfire; reflexivity].
Defined.

Lemma actions_rejected_before_live_engine_witness :
  (exists message,
     (scrapeURLSingle (Example.env Example.missing Example.unreachable [])
        (Example.meta (Example.env Example.missing Example.unreachable [])
                      (Some [Action.mk "click"]) None)
        Example.emptyWorld).1
     = Thrown (ActionsNotSupportedError message))
  /\ drop (List.length (engineCalls (trace Example.emptyWorld)))
       (engineCalls
          (trace
             (scrapeURLSingle
                (Example.env Example.missing Example.unreachable [])
                (Example.meta
                   (Example.env Example.missing Example.unreachable [])
                   (Some [Action.mk "click"]) None)
                Example.emptyWorld).2))
     = [].
Proof.
  destruct (actions_rejected_before_live_engine
              (Example.env Example.missing Example.unreachable [])
              (Example.meta (Example.env Example.missing Example.unreachable [])
                            (Some [Action.mk "click"]) None)
              Example.emptyWorld (mkOutside ∅ tt) fetch)
    as [_ [Hnot _]];
    [try reflexivity ..
    | destruct (Hnot eq_refl) as [Hcalls Hthrown]; split; assumption].
  discriminate.
Defined.

(** C7 as stated fails: when the index engine is forced, it is the only
    viable engine and its table marks [actions] unsupported, yet a request
    with the [actions] flag invokes it and gets its document back. *)
Lemma forced_index_serves_actions_request :
  actions
    ∈ Meta.featureFlags
        (Example.meta (Example.env Example.cached Example.unreachable [])
                      (Some [Action.mk "click"]) (Some index))
  /\ Meta.forceEngine
       (Example.meta (Example.env Example.cached Example.unreachable [])
                     (Some [Action.mk "click"]) (Some index)) = Some index
  /\ engineOptions index actions = false
  /\ exists d uf w',
       scrapeURLSingle (Example.env Example.cached Example.unreachable [])
         (Example.meta (Example.env Example.cached Example.unreachable [])
                       (Some [Action.mk "click"]) (Some index))
         Example.emptyWorld
       = (Returned (d, uf), w')
       /\ engineCalls (trace w') = [index].
Proof.
  split; [apply (bool_decide_eq_true_1 (actions ∈ _)); vm_compute; reflexivity|].
  split; [reflexivity|]. split; [reflexivity|].
  eexists _, _, _. split; [vm_compute; reflexivity|]. reflexivity.
Qed.

Lemma zero_data_retention_rejects_witness :
  exists feature,
    scrapeURLSingle (Example.env Example.cached Example.live [])
      (buildMetaObject (Example.env Example.cached Example.live [])
         "scrape-1" "https://example.com/"
         (Example.options (Some [Action.mk "wait"; Action.mk "pdf"]))
         (InternalOptions.mk "team" None None (Some true) None))
      Example.emptyWorld
    = (Thrown (ZDRViolationError feature),
       mkWorld (mkOutside ∅ tt) [Log "info" "Scraping URL"]).
Proof.
  apply (zero_data_retention_rejects
           (Example.env Example.cached Example.live [])
           "scrape-1" "https://example.com/"
           (Example.options (Some [Action.mk "wait"; Action.mk "pdf"]))
           (InternalOptions.mk "team" None None (Some true) None)
           Example.emptyWorld); [reflexivity|].
  right. exists [Action.mk "wait"; Action.mk "pdf"], (Action.mk "pdf").
  split; [reflexivity|]. split; [|by right].
  apply elem_of_cons. right. apply elem_of_cons. by left.
Defined.

(** C9, at a failing input. The prefetch slot names a file on disk whose
    content type is "text/html": [scrapePDF] throws [PDFPrefetchFailed]
    before its [try] block, the world is left as it was, the file is still
    on disk and no [unlink] was attempted. *)
Theorem scrapePDF_leaks_mismatched_prefetch :
  scrapePDF (Example.env Example.missing Example.live [])
    (Meta.set_pdfPrefetch (value Example.htmlPrefetch)
       (Example.meta (Example.env Example.missing Example.live []) None None))
    Example.diskWithPrefetch
  = (Thrown PDFPrefetchFailed, Example.diskWithPrefetch)
  /\ files (outside Example.diskWithPrefetch) !! "/tmp/tempFile-1.pdf"
     = Some "<html>denied</html>"
  /\ Unlink "/tmp/tempFile-1.pdf" ∉ trace Example.diskWithPrefetch.
Proof.
  split; [|split].
  - by apply (scrapePDF_mismatch _ _ Example.htmlPrefetch "text/html").
  - apply lookup_singleton_eq.
  - apply not_elem_of_nil.
Qed.

Lemma cacheState_reflects_index_attempt_witness :
  exists d uf w',
    scrapeURLSingle (Example.env Example.missing Example.live [])
      (Example.meta (Example.env Example.missing Example.live []) None None)
      Example.emptyWorld
    = (Returned (d, uf), w')
    /\ engineCalls (trace w') = [index; fetch]
    /\ Metadata.cacheState (Document.metadata d) = Some miss.
Proof.
  eassert (Heq :
    scrapeURLSingle (Example.env Example.missing Example.live [])
      (Example.meta (Example.env Example.missing Example.live []) None None)
      Example.emptyWorld
    = (Returned (_, _), _)) by (vm_compute; reflexivity).
  destruct (cacheState_reflects_index_attempt
              (Example.env Example.missing Example.live []) _ _ _ _ _ Heq)
    as (o1 & meta1 & outcome & att & w1 & r' & w3 & calls
        & _ & _ & _ & Hcalls & Hlast & _ & Hmiss & _ & Hkeep).
  assert (Hfetch : calls = [index; fetch]).
  { symmetry. exact Hcalls. }
  eexists _, _, _. split; [exact Heq|]. split; [reflexivity|].
  destruct Hkeep as [-> _].
  { intros m doc o doc' o' Hanswer. injection Hanswer as <- <-. by split. }
  rewrite Hfetch in Hlast. injection Hlast as Hengine.
  apply Hmiss.
  - rewrite Hfetch. apply elem_of_cons. by left.
  - left. rewrite <- Hengine. discriminate.
Defined.

(** * Further properties *)

(** ** Engine forcing *)

Section EngineForcingFacts.

Import EngineForcing.

Lemma endsWith_app (a p : string) : JsString.endsWith (a ++ p)%string p = true.
Proof.
  induction a as [|c a IH].
  - change ("" ++ p)%string with p.
    destruct p; cbn [JsString.endsWith]; by rewrite String.eqb_refl.
  - change (String c a ++ p)%string with (String c (a ++ p)).
    cbn [JsString.endsWith]. by rewrite IH, orb_true_r.
Qed.

Lemma endsWith_iff (s p : string) :
  JsString.endsWith s p = true <-> exists a, s = (a ++ p)%string.
Proof.
  split.
  - induction s as [|c s IH]; cbn [JsString.endsWith].
    + rewrite orb_false_r. intros H%String.eqb_eq. by exists "".
    + intros [H%String.eqb_eq | H]%orb_true_iff.
      * by exists "".
      * destruct (IH H) as [a ->]. by exists (String c a).
  - intros [a ->]. apply endsWith_app.
Qed.

(** X1. A pattern without the wildcard prefix matches a domain exactly
    when the domain is the pattern or ends with a dot followed by the
    pattern: the domain itself and its subdomains, never a domain that
    merely ends with the same letters. *)
Theorem domainMatchesPattern_subdomains (domain pattern : string) :
  Js.startsWith pattern "*." = false ->
  domainMatchesPattern domain pattern = true
  <-> domain = pattern
      \/ exists sub, domain = (sub ++ "." ++ pattern)%string.
Proof.
  intros Hplain. unfold domainMatchesPattern. rewrite Hplain.
  destruct (String.eqb_spec domain pattern) as [->|Hne].
  - split; auto.
  - simpl. rewrite endsWith_iff. split; [by right | by intros [? | ?]].
Qed.

Lemma domainMatchesPattern_subdomains_witness :
  domainMatchesPattern "docs.example.com" "example.com" = true
  /\ domainMatchesPattern "notexample.com" "example.com" = false.
Proof.
  split.
  - apply (domainMatchesPattern_subdomains "docs.example.com" "example.com");
      [reflexivity|]. right. by exists "docs".
  - reflexivity.
Defined.

(** X2. The wildcard prefix adds nothing: "*.b" matches the same domains
    as "b" (the domain "b" itself included), for every pattern "b" that
    does not itself start with the prefix. *)
Theorem domainMatchesPattern_wildcard_redundant (domain base : string) :
  Js.startsWith base "*." = false ->
  domainMatchesPattern domain ("*." ++ base) = domainMatchesPattern domain base.
Proof.
  intros Hplain. unfold domainMatchesPattern at 2. rewrite Hplain.
  unfold domainMatchesPattern.
  assert (Js.startsWith ("*." ++ base) "*." = true) as ->
      by (unfold Js.startsWith; simpl; by destruct base).
  change (JsString.substringFrom 2 ("*." ++ base)%string) with base.
  cbv zeta.
  destruct (String.eqb_spec domain ("*." ++ base)%string) as [->|Hne].
  - destruct (String.eqb_spec ("*." ++ base)%string base) as [Heq|_].
    + done.
    + cbn [orb]. symmetry.
      change ("*." ++ base)%string with ("*" ++ ("." ++ base))%string.
      apply endsWith_app.
  - by destruct (String.eqb domain base).
Qed.

Lemma domainMatchesPattern_wildcard_redundant_witness :
  domainMatchesPattern "example.com" "*.example.com"
  = domainMatchesPattern "example.com" "example.com".
Proof.
  apply (domainMatchesPattern_wildcard_redundant "example.com" "example.com").
  reflexivity.
Defined.

Lemma firstMatch_Some toLowerCase domain entries e :
  firstMatch toLowerCase domain entries = Some e <->
  exists before pattern after,
    entries = before ++ (pattern, e) :: after
    /\ domainMatchesPattern domain (toLowerCase pattern) = true
    /\ forall p' e',
         (p', e') ∈ before ->
         domainMatchesPattern domain (toLowerCase p') = false.
Proof.
  induction entries as [|[p x] rest IH]; simpl.
  - split; [done|]. intros (before & ? & ? & H & _). by destruct before.
  - destruct (domainMatchesPattern domain (toLowerCase p)) eqn:Hm.
    + split.
      * intros [= <-]. exists [], p, rest. split; [done|]. split; [done|].
        intros ? ? Hin. by apply not_elem_of_nil in Hin.
      * intros (before & pattern & after & Heq & Hmatch & Hbefore).
        destruct before as [|[p0 e0] before]; simpl in Heq.
        -- by injection Heq as <- <- <-.
        -- injection Heq as <- <- ->.
           rewrite (Hbefore p x) in Hm; [done|]. apply elem_of_cons. by left.
    + rewrite IH. split.
      * intros (before & pattern & after & -> & Hmatch & Hbefore).
        exists ((p, x) :: before), pattern, after. split; [done|].
        split; [done|]. intros p' e' [[= -> ->]|Hin]%elem_of_cons; eauto.
      * intros (before & pattern & after & Heq & Hmatch & Hbefore).
        destruct before as [|[p0 e0] before]; simpl in Heq.
        -- injection Heq as -> -> ->. congruence.
        -- injection Heq as -> -> ->.
           exists before, pattern, after. split; [done|]. split; [done|].
           intros p' e' Hin. apply (Hbefore p' e'). apply elem_of_cons.
           by right.
Qed.

(** X3. [getEngineForUrl] forces an engine exactly when the mappings are
    initialised, tldts finds a domain in the trimmed, lower-cased URL, and
    some lower-cased pattern matches it; the engine is that of the first
    matching pattern in the order of the mappings. This holds whatever
    [trim], [toLowerCase] and tldts do to their arguments. *)
Theorem getEngineForUrl_first_match
    engineMappings trim toLowerCase parse url e :
  (getEngineForUrl engineMappings trim toLowerCase parse url).1 = Some e
  <-> exists before pattern after domain,
        engineMappings = Some (before ++ (pattern, e) :: after)
        /\ parse (toLowerCase (trim url)) = Some (Some domain)
        /\ domain <> ""
        /\ domainMatchesPattern domain (toLowerCase pattern) = true
        /\ forall p' e',
             (p', e') ∈ before ->
             domainMatchesPattern domain (toLowerCase p') = false.
Proof.
  unfold getEngineForUrl. split.
  - destruct engineMappings as [entries|]; [|done].
    case_bool_decide; [done|].
    destruct (parse (toLowerCase (trim url))) as [[domain|]|] eqn:Hparse;
      try done.
    destruct domain as [|c domain]; [done|]. simpl.
    intros (before & pattern & after & -> & Hm & Hb)%firstMatch_Some.
    exists before, pattern, after, (String c domain). eauto 10.
  - intros (before & pattern & after & domain & -> & Hparse & Hne & Hm & Hb).
    rewrite bool_decide_eq_false_2 by (by destruct before).
    rewrite Hparse. destruct domain as [|c domain]; [done|]. simpl.
    apply firstMatch_Some. eauto 10.
Qed.

Lemma getEngineForUrl_first_match_witness :
  (getEngineForUrl
     (Some [("example.org", fetch); ("*.BÜCHER.de", playwright);
            ("shop.bücher.de", index)])
     (fun s => s)
     (fun s => if String.eqb s "*.BÜCHER.de" then "*.bücher.de"
               else if String.eqb s "https://Shop.BÜCHER.de/a"
                    then "https://shop.bücher.de/a"
                    else s)
     (fun s => if String.eqb s "https://shop.bücher.de/a"
               then Some (Some "bücher.de") else Some None)
     "https://Shop.BÜCHER.de/a").1
  = Some playwright.
Proof.
  apply (getEngineForUrl_first_match _ _ _ _ _ playwright).
  exists [("example.org", fetch)], "*.BÜCHER.de",
    [("shop.bücher.de", index)], "bücher.de".
  split; [reflexivity|]. split; [reflexivity|]. split; [discriminate|].
  split; [reflexivity|].
  intros p' e' [= -> ->]%list_elem_of_singleton. reflexivity.
Defined.

Lemma engineOfName_Some s e : engineOfName s = Some e <-> s = engineName e.
Proof.
  unfold engineOfName. split.
  - destruct (String.eqb_spec s "fire-engine;chrome-cdp") as [->|?];
      [by intros [= <-]|].
    destruct (String.eqb_spec s "playwright") as [->|?]; [by intros [= <-]|].
    destruct (String.eqb_spec s "fetch") as [->|?]; [by intros [= <-]|].
    destruct (String.eqb_spec s "index") as [->|?]; [by intros [= <-]|].
    discriminate.
  - intros ->. by destruct e.
Qed.

Lemma elem_of_setOwn m k v d e :
  (d, e) ∈ setOwn m k v -> (d, e) ∈ m \/ (d = k /\ e = v).
Proof.
  induction m as [|[k0 x] m IH]; simpl.
  - intros [= -> ->]%list_elem_of_singleton. by right.
  - destruct (String.eqb_spec k0 k) as [->|Hne].
    + intros [[= -> ->]|Hin]%elem_of_cons; [by right|].
      left. apply elem_of_cons. by right.
    + intros [[= -> ->]|Hin]%elem_of_cons.
      * left. apply elem_of_cons. by left.
      * destruct (IH Hin) as [?|?]; [|by right].
        left. apply elem_of_cons. by right.
Qed.

Lemma elem_of_assign m k v d e :
  (d, e) ∈ assign m k v -> (d, e) ∈ m \/ (d = k /\ e = v).
Proof.
  unfold assign. destruct (String.eqb k "__proto__"); [by left|].
  apply elem_of_setOwn.
Qed.

Lemma setOwn_keys m k v :
  map fst (setOwn m k v)
  = if bool_decide (k ∈ map fst m) then map fst m else map fst m ++ [k].
Proof.
  induction m as [|[k0 x] m IH]; simpl.
  - reflexivity.
  - destruct (String.eqb_spec k0 k) as [->|Hne]; simpl.
    + rewrite bool_decide_eq_true_2; [done|]. apply elem_of_cons. by left.
    + rewrite IH. case_bool_decide as Hin.
      * rewrite bool_decide_eq_true_2; [done|]. apply elem_of_cons. by right.
      * rewrite bool_decide_eq_false_2; [done|].
        intros [?|?]%elem_of_cons; congruence.
Qed.

Lemma assign_NoDup m k v : NoDup (map fst m) -> NoDup (map fst (assign m k v)).
Proof.
  intros H. unfold assign. destruct (String.eqb k "__proto__"); [done|].
  rewrite setOwn_keys. case_bool_decide as Hin; [done|].
  apply NoDup_app. split; [done|]. split.
  - intros x Hx [= ->]%list_elem_of_singleton. done.
  - apply NoDup_singleton.
Qed.

Lemma collect_sound entries acc logged d e :
  (d, e) ∈ (collect entries acc logged).1 ->
  (d, e) ∈ acc \/ (d, JString (engineName e)) ∈ entries.
Proof.
  revert acc logged. induction entries as [|[dom j] rest IH]; simpl;
    intros acc logged Hin; [by left|].
  destruct j as [name|].
  - destruct (engineOfName name) as [x|] eqn:Hname.
    + apply engineOfName_Some in Hname as ->.
      destruct (IH _ _ Hin) as [Hacc|Hrest].
      * destruct (elem_of_assign _ _ _ _ _ Hacc) as [?|[-> ->]]; [by left|].
        right. apply elem_of_cons. by left.
      * right. apply elem_of_cons. by right.
    + destruct (IH _ _ Hin) as [?|?]; [by left|].
      right. apply elem_of_cons. by right.
  - destruct (IH _ _ Hin) as [?|?]; [by left|].
    right. apply elem_of_cons. by right.
Qed.

Lemma collect_NoDup entries acc logged :
  NoDup (map fst acc) -> NoDup (map fst (collect entries acc logged).1).
Proof.
  revert acc logged. induction entries as [|[dom j] rest IH]; simpl;
    intros acc logged Hnd; [done|].
  destruct j as [name|]; [destruct (engineOfName name)|]; apply IH; try done.
  by apply assign_NoDup.
Qed.

(** X4. Whatever [FORCED_ENGINE_DOMAINS] holds, the mappings
    [initializeEngineForcing] leaves have one entry per domain pattern,
    and each entry was read from an entry of the parsed object whose value
    is the string naming that engine: nothing else is ever stored. *)
Theorem initializeEngineForcing_sound trim JSON_parse envVar :
  let engineMappings := (initializeEngineForcing trim JSON_parse envVar).1 in
  NoDup (map fst engineMappings)
  /\ forall d e,
       (d, e) ∈ engineMappings ->
       exists text parsed,
         envVar = Some text
         /\ JSON_parse text = Some parsed
         /\ (d, JString (engineName e)) ∈ parsed.
Proof.
  cbv zeta.
  assert (Hempty :
    NoDup (map fst ([] : list (string * Engine)))
    /\ forall d e,
         (d, e) ∈ ([] : list (string * Engine)) ->
         exists text parsed,
           envVar = Some text
           /\ JSON_parse text = Some parsed
           /\ (d, JString (engineName e)) ∈ parsed).
  { split; [constructor|]. intros d e Hin. by apply not_elem_of_nil in Hin. }
  unfold initializeEngineForcing.
  destruct envVar as [text|]; [|exact Hempty].
  destruct (negb (Js.truthy text) || String.eqb (trim text) "");
    [exact Hempty|].
  destruct (JSON_parse text) as [parsed|] eqn:Hparse; [|exact Hempty].
  split; [apply collect_NoDup; constructor|].
  intros d e Hin. exists text, parsed. split; [done|]. split; [done|].
  destruct (collect_sound _ _ _ _ _ Hin) as [Hacc|?]; [|done].
  by apply not_elem_of_nil in Hacc.
Qed.

Lemma initializeEngineForcing_sound_witness :
  exists text parsed,
    Some "{...}" = Some text
    /\ (fun _ : string =>
          Some [("example.com", JString "playwright");
                ("bad.example", JString "selenium");
                ("other.example", JOther)]) text = Some parsed
    /\ ("example.com", JString (engineName playwright)) ∈ parsed.
Proof.
  destruct (initializeEngineForcing_sound (fun s => s)
              (fun _ => Some [("example.com", JString "playwright");
                              ("bad.example", JString "selenium");
                              ("other.example", JOther)])
              (Some "{...}")) as [_ Hsound].
  apply (Hsound "example.com" playwright).
  apply list_elem_of_singleton. reflexivity.
Defined.

(** X5. Engine forcing is off until configured: before
    [initializeEngineForcing] has run, and after it has run on an unset,
    blank or unparsable [FORCED_ENGINE_DOMAINS], [getEngineForUrl] forces
    no engine for any URL, whatever tldts makes of it. *)
Theorem getEngineForUrl_off_by_default
    trim toLowerCase JSON_parse parse url :
  (getEngineForUrl None trim toLowerCase parse url).1 = None
  /\ (forall envVar,
        envVar = None
        \/ (exists text, envVar = Some text /\ trim text = "")
        \/ (exists text, envVar = Some text /\ JSON_parse text = None) ->
        (getEngineForUrl
           (Some (initializeEngineForcing trim JSON_parse envVar).1)
           trim toLowerCase parse url).1 = None).
Proof.
  split; [reflexivity|].
  intros envVar [-> | [[text [-> Hblank]] | [text [-> Hthrow]]]].
  - reflexivity.
  - unfold initializeEngineForcing. rewrite Hblank. simpl.
    by rewrite orb_true_r.
  - unfold initializeEngineForcing. rewrite Hthrow.
    by destruct (negb (Js.truthy text) || String.eqb (trim text) "").
Qed.

Lemma getEngineForUrl_off_by_default_witness :
  (getEngineForUrl
     (Some (initializeEngineForcing (fun s => s) (fun _ => None)
                                    (Some "not json")).1)
     (fun s => s) Js.toLowerCase (fun _ => Some (Some "example.com"))
     "https://example.com/").1 = None.
Proof.
  destruct (getEngineForUrl_off_by_default (fun s => s) Js.toLowerCase
              (fun _ => None) (fun _ => Some (Some "example.com"))
              "https://example.com/")
    as [_ Hoff].
  apply Hoff. right. right. by exists "not json".
Defined.

End EngineForcingFacts.

(** ** Engines invoked by a request *)

Section EngineInvocations.

Context {S : Type} (env : Env S).
Implicit Types (meta : Meta.t) (w : World S).

Lemma scrapeWithLiveEngine_calls meta ie att w live :
  (chooseLiveEngine env meta w).1 = Returned live ->
  exists calls,
    engineCalls (trace (scrapeWithLiveEngine env meta ie att w).2)
      = engineCalls (trace w) ++ calls
    /\ (calls = [live]
        \/ calls = []
           /\ exists e, (scrapeWithLiveEngine env meta ie att w).1 = Thrown e).
Proof.
  intros Hlive.
  destruct (decide (actions ∈ Meta.featureFlags meta
                    /\ engineOptions live actions = false)) as [[Ha Hc]|Hna].
  { destruct (scrapeWithLiveEngine_rejects_actions env meta ie att w live
                Hlive Ha Hc) as [m [t [-> Ht]]].
    exists []. simpl. rewrite engineCalls_app, Ht. eauto. }
  destruct (decide (branding ∈ Meta.featureFlags meta
                    /\ engineOptions live branding = false)) as [[Hb Hc]|Hnb].
  { destruct (chooseLiveEngine_eq env meta w live Hlive w) as [t [Hchoose Ht]].
    unfold scrapeWithLiveEngine.
    rewrite (bind_Returned _ _ _ _ _ Hchoose).
    rewrite !has_getUnsupportedFeatures, Hc.
    assert (has (Meta.featureFlags meta) branding = true) as ->
        by (by apply bool_decide_eq_true).
    exists [].
    destruct (has (Meta.featureFlags meta) actions && _); simpl;
      rewrite engineCalls_app, Ht; eauto. }
  destruct (scrapeWithLiveEngine_invokes env meta ie att w live Hlive)
    as [Hcalls _].
  - intros Hin. destruct (engineOptions live actions) eqn:Hcap; [done|].
    by destruct Hna.
  - intros Hin. destruct (engineOptions live branding) eqn:Hcap; [done|].
    by destruct Hnb.
  - exists [live]. auto.
Qed.

(** What engine selection invokes, by the way it was entered. *)
Lemma selectEngineAndScrape_calls meta w live :
  (chooseLiveEngine env meta w).1 = Returned live ->
  exists calls,
    engineCalls (trace (selectEngineAndScrape env meta w).2)
      = engineCalls (trace w) ++ calls
    /\ (if bool_decide (Meta.forceEngine meta = Some index)
        then calls = [index]
        else if bool_decide (Meta.forceEngine meta = None)
                && shouldUseIndex env meta
        then calls = [index] \/ (calls = [index; live] /\ live <> index)
        else (calls = [] \/ calls = [live]) /\ live <> index).
Proof.
  intros Hlive. unfold selectEngineAndScrape, Meta.forceEngine.
  destruct (decide (InternalOptions.forceEngine (Meta.internalOptions meta)
                    = Some index)) as [Hf|Hf].
  - rewrite !(bool_decide_eq_true_2 _ Hf).
    unfold bind, scrapeURLWithEngine, call.
    destruct (engineHandlers env index meta (outside w)) as [[r|e] o];
      exists [index]; simpl; by rewrite engineCalls_app.
  - rewrite !(bool_decide_eq_false_2 _ Hf).
    pose proof (chooseLiveEngine_not_index env meta w live Hf Hlive) as Hne.
    destruct (bool_decide _ && shouldUseIndex env meta) eqn:Hie.
    + unfold bind at 1, try_catch, bind at 1, scrapeURLWithEngine, call.
      destruct (engineHandlers env index meta (outside w)) as [[r|e] o].
      * exists [index]. simpl. rewrite engineCalls_app. auto.
      * destruct (negb (bool_decide (e = IndexMissError))
                  && negb (bool_decide (e = NoCachedDataError))).
        -- exists [index]. simpl. rewrite engineCalls_app. auto.
        -- simpl.
           set (w1 := mkWorld o (trace w ++ [EngineCall index])).
           destruct (scrapeWithLiveEngine_calls meta true ["index"] w1 live)
             as [calls [Hcalls Hshape]];
             [by apply (chooseLiveEngine_at env meta w)|].
           rewrite Hcalls. unfold w1. simpl. rewrite engineCalls_app. simpl.
           rewrite <- app_assoc.
           destruct Hshape as [-> | [-> _]]; eexists; split; eauto.
    + destruct (scrapeWithLiveEngine_calls meta false [] w live Hlive)
        as [calls [Hcalls Hshape]].
      exists calls. split; [done|]. split; [|done].
      destruct Hshape as [-> | [-> _]]; auto.
Qed.

Lemma scrapeURLSingle_calls meta w live :
  (chooseLiveEngine env meta w).1 = Returned live ->
  exists calls,
    engineCalls (trace (scrapeURLSingle env meta w).2)
      = engineCalls (trace w) ++ calls
    /\ (calls = []
        \/ if bool_decide (Meta.forceEngine meta = Some index)
           then calls = [index]
           else if bool_decide (Meta.forceEngine meta = None)
                   && shouldUseIndex env meta
           then calls = [index] \/ (calls = [index; live] /\ live <> index)
           else (calls = [] \/ calls = [live]) /\ live <> index).
Proof.
  intros Hlive. unfold scrapeURLSingle.
  unfold bind at 1. unfold log, emit. cbn [fst snd].
  destruct (zdrViolation meta) as [feature|].
  { exists []. unfold bind, throw. simpl. rewrite engineCalls_app. simpl.
    auto. }
  unfold bind at 1. unfold ret at 1. unfold bind at 1, quiet. cbn [outside].
  destruct (throwIfAborted env (outside w)) as [[[]|e] o].
  - set (w1 := mkWorld o _).
    destruct (selectEngineAndScrape_calls meta w1 live) as [calls [Hc Hshape]];
      [by apply (chooseLiveEngine_at env meta w)|].
    exists calls. split; [|by right].
    unfold bind.
    destruct (selectEngineAndScrape env meta w1) as [[selected|e] w2].
    + rewrite appends_noEngine by apply postprocess_noEngine.
      simpl in Hc. rewrite Hc. unfold w1. simpl. rewrite engineCalls_app.
      simpl. by rewrite app_nil_r.
    + simpl in *. rewrite Hc. unfold w1. simpl. rewrite engineCalls_app.
      simpl. by rewrite app_nil_r.
  - exists []. simpl. rewrite engineCalls_app. simpl. auto.
Qed.

(** X6. A request invokes at most two engines and never the same one
    twice: the engines called are, in order, nothing, the index alone, the
    live engine alone, or the index and then the live engine. No live
    engine is tried after another, and nothing is retried. *)
Theorem at_most_one_live_engine meta w live :
  (chooseLiveEngine env meta w).1 = Returned live ->
  exists calls,
    engineCalls (trace (scrapeURLSingle env meta w).2)
      = engineCalls (trace w) ++ calls
    /\ calls ∈ [ []; [index]; [live]; [index; live] ]
    /\ NoDup calls.
Proof.
  intros Hlive.
  destruct (scrapeURLSingle_calls meta w live Hlive) as [calls [Hc Hshape]].
  exists calls. split; [done|].
  assert (Hcases : calls = [] \/ calls = [index] \/ calls = [live]
                   \/ (calls = [index; live] /\ live <> index)).
  { destruct Hshape as [?|Hshape]; [auto|].
    case_bool_decide; [auto|].
    destruct (bool_decide _ && shouldUseIndex env meta); tauto. }
  destruct Hcases as [-> | [-> | [-> | [-> Hne]]]].
  - split; [rewrite !elem_of_cons; auto | constructor].
  - split; [rewrite !elem_of_cons; auto | apply NoDup_singleton].
  - split; [rewrite !elem_of_cons; auto | apply NoDup_singleton].
  - split; [rewrite !elem_of_cons; auto 6|].
    apply NoDup_cons. split; [|apply NoDup_singleton].
    intros Hin%list_elem_of_singleton. congruence.
Qed.

(** X7. When no engine is forced and [shouldUseIndex] fails (the index is
    disabled or write-only, [maxAge] is 0, headers or actions are given,
    the proxy is stealth, ...), or a live engine is forced, the index
    engine is never invoked, whatever else happens to the request. *)
Theorem index_not_read_when_ineligible meta w :
  Meta.forceEngine meta <> Some index ->
  bool_decide (Meta.forceEngine meta = None) && shouldUseIndex env meta
    = false ->
  exists calls,
    engineCalls (trace (scrapeURLSingle env meta w).2)
      = engineCalls (trace w) ++ calls
    /\ index ∉ calls.
Proof.
  intros Hforce Hie.
  destruct (chooseLiveEngine_total env meta w) as [live Hlive].
  destruct (scrapeURLSingle_calls meta w live Hlive) as [calls [Hc Hshape]].
  exists calls. split; [done|].
  rewrite (bool_decide_eq_false_2 _ Hforce), Hie in Hshape.
  destruct Hshape as [-> | [[-> | ->] Hne]].
  - apply not_elem_of_nil.
  - apply not_elem_of_nil.
  - intros Hin%list_elem_of_singleton. congruence.
Qed.

(** X8. A forced engine is the only engine a request can invoke: the
    index is not read first, and no other live engine is chosen. *)
Theorem forced_engine_is_the_only_engine meta w e :
  Meta.forceEngine meta = Some e ->
  exists calls,
    engineCalls (trace (scrapeURLSingle env meta w).2)
      = engineCalls (trace w) ++ calls
    /\ (calls = [] \/ calls = [e]).
Proof.
  intros Hforce.
  assert (Hlive : (chooseLiveEngine env meta w).1 = Returned e).
  { unfold chooseLiveEngine. unfold Meta.forceEngine in Hforce.
    by rewrite Hforce. }
  destruct (scrapeURLSingle_calls meta w e Hlive) as [calls [Hc Hshape]].
  exists calls. split; [done|]. rewrite Hforce in Hshape.
  destruct Hshape as [?|Hshape]; [auto|].
  case_bool_decide as He; [injection He as ->; auto|].
  rewrite bool_decide_eq_false_2 in Hshape by discriminate.
  simpl in Hshape. tauto.
Qed.

(** X9. An error of the index engine that is neither [IndexMissError] nor
    [NoCachedDataError] is not a miss: it fails the request as it is, and
    the live engine is not invoked. *)
Theorem index_failure_is_not_a_miss meta w o1 e o2 :
  Meta.forceEngine meta = None ->
  shouldUseIndex env meta = true ->
  zdrViolation meta = None ->
  throwIfAborted env (outside w) = (Returned tt, o1) ->
  engineHandlers env index meta o1 = (Thrown e, o2) ->
  e <> IndexMissError ->
  e <> NoCachedDataError ->
  scrapeURLSingle env meta w
  = (Thrown e, mkWorld o2 (trace (started w o1) ++ [EngineCall index])).
Proof.
  intros Hforce Hidx Hzdr Habort Hcall Hm Hn.
  rewrite (scrapeURLSingle_started env meta w o1 Hzdr Habort).
  apply bind_Thrown. unfold selectEngineAndScrape.
  unfold Meta.forceEngine in Hforce. rewrite Hforce, Hidx. simpl.
  unfold bind, try_catch, scrapeURLWithEngine, call. simpl. rewrite Hcall.
  by rewrite (bool_decide_eq_false_2 _ Hm), (bool_decide_eq_false_2 _ Hn).
Qed.

(** X10. A request cancelled or timed out before it starts fails with
    what [throwIfAborted] throws, before engine selection: no engine is
    invoked. *)
Theorem aborted_before_start meta w e o :
  zdrViolation meta = None ->
  throwIfAborted env (outside w) = (Thrown e, o) ->
  scrapeURLSingle env meta w = (Thrown e, started w o).
Proof.
  intros Hzdr Habort. unfold scrapeURLSingle. rewrite Hzdr.
  unfold bind at 1. simpl. unfold bind at 1. simpl.
  unfold bind at 1. unfold quiet. simpl. by rewrite Habort.
Qed.

End EngineInvocations.

Lemma at_most_one_live_engine_witness :
  exists calls,
    engineCalls
      (trace (scrapeURLSingle (Example.env Example.missing Example.live [])
                (Example.meta (Example.env Example.missing Example.live [])
                              None None)
                Example.emptyWorld).2)
      = engineCalls (trace Example.emptyWorld) ++ calls
    /\ calls ∈ [ []; [index]; [fetch]; [index; fetch] ]
    /\ NoDup calls.
Proof.
  apply (at_most_one_live_engine
           (Example.env Example.missing Example.live [])
           (Example.meta (Example.env Example.missing Example.live [])
                         None None)
           Example.emptyWorld fetch).
  reflexivity.
Defined.

Lemma index_not_read_when_ineligible_witness :
  exists calls,
    engineCalls
      (trace (scrapeURLSingle (Example.env Example.cached Example.live [])
                (Example.meta (Example.env Example.cached Example.live [])
                              None (Some fetch))
                Example.emptyWorld).2)
      = engineCalls (trace Example.emptyWorld) ++ calls
    /\ index ∉ calls.
Proof.
  apply (index_not_read_when_ineligible
           (Example.env Example.cached Example.live [])
           (Example.meta (Example.env Example.cached Example.live [])
                         None (Some fetch))
           Example.emptyWorld); [discriminate | reflexivity].
Defined.

Lemma forced_engine_is_the_only_engine_witness :
  exists calls,
    engineCalls
      (trace (scrapeURLSingle (Example.env Example.cached Example.live [])
                (Example.meta (Example.env Example.cached Example.live [])
                              None (Some playwright))
                Example.emptyWorld).2)
      = engineCalls (trace Example.emptyWorld) ++ calls
    /\ (calls = [] \/ calls = [playwright]).
Proof.
  apply (forced_engine_is_the_only_engine
           (Example.env Example.cached Example.live [])
           (Example.meta (Example.env Example.cached Example.live [])
                         None (Some playwright))
           Example.emptyWorld playwright).
  reflexivity.
Defined.

Lemma index_failure_is_not_a_miss_witness :
  scrapeURLSingle
    (Example.env (Thrown (Error "index down")) Example.unreachable [])
    (Example.meta
       (Example.env (Thrown (Error "index down")) Example.unreachable [])
       None None)
    Example.emptyWorld
  = (Thrown (Error "index down"),
     mkWorld (mkOutside ∅ tt) [Log "info" "Scraping URL"; EngineCall index]).
Proof.
  apply (index_failure_is_not_a_miss
           (Example.env (Thrown (Error "index down")) Example.unreachable [])
           _ Example.emptyWorld (mkOutside ∅ tt) (Error "index down")
           (mkOutside ∅ tt)); try reflexivity; discriminate.
Defined.


Lemma aborted_before_start_witness :
  scrapeURLSingle
    (Deployment.configured
       (Deployment.mkKnobs (Some AbortManagerThrownError) None true None None
                           3 None true)
       Example.unreachable [])
    (Example.meta (Example.env Example.cached Example.unreachable [])
                  None None)
    Example.emptyWorld
  = (Thrown AbortManagerThrownError,
     mkWorld (mkOutside ∅ tt) [Log "info" "Scraping URL"]).
Proof.
  apply (aborted_before_start
           (Deployment.configured
              (Deployment.mkKnobs (Some AbortManagerThrownError) None true
                                  None None 3 None true)
              Example.unreachable [])
           _ Example.emptyWorld AbortManagerThrownError (mkOutside ∅ tt));
    reflexivity.
Defined.

(** ** The temporary file of [scrapePDF] *)

Lemma noUnlink_nil : noUnlink [].
Proof. constructor. Qed.

Lemma noUnlink_app t1 t2 : noUnlink t1 -> noUnlink t2 -> noUnlink (t1 ++ t2).
Proof. intros H1 H2. by apply Forall_app. Qed.

Lemma unlinks_app path t1 t2 :
  unlinks path (t1 ++ t2) = (unlinks path t1 + unlinks path t2)%nat.
Proof. unfold unlinks. by rewrite List.filter_app, List.length_app. Qed.

Lemma unlinks_noUnlink path t : noUnlink t -> unlinks path t = 0%nat.
Proof.
  unfold unlinks. induction 1 as [|ev t Hev _ IH]; [done|]. simpl.
  rewrite bool_decide_eq_false_2; [exact IH|]. by intros ->.
Qed.

Lemma unlinks_Unlink path : unlinks path [Unlink path] = 1%nat.
Proof. unfold unlinks. simpl. by rewrite bool_decide_eq_true_2. Qed.

Lemma noUnlink_other ev : isUnlink ev = false -> noUnlink [ev].
Proof. intros H. by repeat constructor. Qed.

Section PDFFile.

Context {S : Type} (env : Env S).
Implicit Types (meta : Meta.t) (w : World S) (p : Prefetch.t).

Lemma scrapePDF_try_noUnlink meta sp mp path u sc ct px :
  appends noUnlink (scrapePDF_try env meta sp mp path u sc ct px).
Proof.
  pose proof noUnlink_nil. pose proof noUnlink_app.
  pose proof noUnlink_other.
  unfold scrapePDF_try, scrapePDFWithParsePDF. repeat appends_step.
Qed.

Lemma scrapePDF_finally_unlinks path w :
  exists w',
    @scrapePDF_finally S path w = (Returned tt, w')
    /\ files (outside w') !! path = None
    /\ unlinks path (trace w') = Datatypes.S (unlinks path (trace w)).
Proof.
  unfold scrapePDF_finally, try_catch, unlink, log, emit.
  destruct (files (outside w) !! path) as [data|] eqn:Hfile; simpl.
  - eexists. split; [reflexivity|]. simpl. split; [apply lookup_delete_eq|].
    rewrite unlinks_app, unlinks_Unlink. lia.
  - eexists. split; [reflexivity|]. simpl. split; [done|].
    rewrite !unlinks_app, unlinks_Unlink.
    change (unlinks path [Log _ _]) with 0%nat. lia.
Qed.

(** [scrapePDF] on a prefetched file whose content type passes the check
    is its [try] block under its [finally] block. *)
Lemma scrapePDF_prefetched meta p w :
  Meta.pdfPrefetch meta = value p ->
  match Prefetch.contentType p with
  | Some ct => Js.truthy ct && negb (Js.includes ct "application/pdf")
  | None => false
  end = false ->
  scrapePDF env meta w
  = try_finally
      (scrapePDF_try env meta
         (shouldParsePDF env (ScrapeOptions.parsers (Meta.options meta)))
         (getPDFMaxPages env (ScrapeOptions.parsers (Meta.options meta)))
         (Prefetch.filePath p)
         (Js.nullish (Prefetch.url p)
            (Js.nullish (Meta.rewrittenUrl meta) (Meta.url meta)))
         (Prefetch.status p) (Prefetch.contentType p) (Prefetch.proxyUsed p))
      (scrapePDF_finally (Prefetch.filePath p)) w.
Proof.
  intros Hp Hok. unfold scrapePDF. rewrite Hp, Hok. reflexivity.
Qed.

(** X11. Once the content type of a prefetched file has passed the check,
    [scrapePDF] leaves no file at its path, whatever its [try] block did
    (returned, failed to read or parse, ran out of time, was aborted);
    [unlink] is called exactly once, and the outcome of the block is the
    outcome of [scrapePDF]: the cleanup never replaces it. *)
Theorem scrapePDF_unlinks_once meta p w :
  Meta.pdfPrefetch meta = value p ->
  match Prefetch.contentType p with
  | Some ct => Js.truthy ct && negb (Js.includes ct "application/pdf")
  | None => false
  end = false ->
  let block :=
    scrapePDF_try env meta
      (shouldParsePDF env (ScrapeOptions.parsers (Meta.options meta)))
      (getPDFMaxPages env (ScrapeOptions.parsers (Meta.options meta)))
      (Prefetch.filePath p)
      (Js.nullish (Prefetch.url p)
         (Js.nullish (Meta.rewrittenUrl meta) (Meta.url meta)))
      (Prefetch.status p) (Prefetch.contentType p) (Prefetch.proxyUsed p) in
  let r := scrapePDF env meta w in
  files (outside r.2) !! Prefetch.filePath p = None
  /\ unlinks (Prefetch.filePath p) (trace r.2)
     = Datatypes.S (unlinks (Prefetch.filePath p) (trace w))
  /\ r.1 = (block w).1.
Proof.
  intros Hp Hok block r. unfold r.
  rewrite (scrapePDF_prefetched meta p w Hp Hok). fold block.
  unfold try_finally.
  destruct (scrapePDF_try_noUnlink meta
              (shouldParsePDF env (ScrapeOptions.parsers (Meta.options meta)))
              (getPDFMaxPages env (ScrapeOptions.parsers (Meta.options meta)))
              (Prefetch.filePath p)
              (Js.nullish (Prefetch.url p)
                 (Js.nullish (Meta.rewrittenUrl meta) (Meta.url meta)))
              (Prefetch.status p) (Prefetch.contentType p)
              (Prefetch.proxyUsed p) w) as [t [Ht Hno]].
  fold block in Ht. destruct (block w) as [out w1]. simpl in Ht.
  destruct (scrapePDF_finally_unlinks (Prefetch.filePath p) w1)
    as [w2 [-> [Hgone Hcount]]].
  simpl. split; [done|]. split; [|done].
  rewrite Hcount, Ht, unlinks_app, (unlinks_noUnlink _ t Hno). lia.
Qed.

Lemma readFile_eq path w data :
  files (outside w) !! path = Some data ->
  @readFile S path w
  = (Returned data, mkWorld (outside w) (trace w ++ [ReadFile path])).
Proof. intros H. unfold readFile. by rewrite H. Qed.

(** Whatever a block did, [scrapePDF]'s [finally] keeps its outcome and
    removes the file. *)
Lemma scrapePDF_finally_after {A} (c : Async S A) path w out w1 :
  c w = (out, w1) ->
  let r := try_finally c (scrapePDF_finally path) w in
  r.1 = out
  /\ files (outside r.2) !! path = None
  /\ exists tail,
       trace r.2 = trace w1 ++ Unlink path :: tail
       /\ (tail = []
           \/ tail = [Log "warn" "Failed to clean up temporary PDF file"]).
Proof.
  intros Hc. unfold try_finally. rewrite Hc.
  unfold scrapePDF_finally, try_catch, unlink, log, emit.
  destruct (files (outside w1) !! path) eqn:Hfile; simpl.
  - split; [done|]. split; [apply lookup_delete_eq|]. exists []. auto.
  - split; [done|]. split; [done|].
    exists [Log "warn" "Failed to clean up temporary PDF file"].
    rewrite <- app_assoc. auto.
Qed.

(** X12. With PDF parsing switched off, [scrapePDF] returns the file's
    bytes in base64 as both [html] and [markdown], with the URL, status,
    content type and proxy of the prefetch, and deletes the file; no
    parser is called. *)
Theorem scrapePDF_without_parsing meta p w data :
  Meta.pdfPrefetch meta = value p ->
  match Prefetch.contentType p with
  | Some ct => Js.truthy ct && negb (Js.includes ct "application/pdf")
  | None => false
  end = false ->
  shouldParsePDF env (ScrapeOptions.parsers (Meta.options meta)) = false ->
  files (outside w) !! Prefetch.filePath p = Some data ->
  scrapePDF env meta w
  = (Returned
       (EngineScrapeResult.mk
          (Js.nullish (Prefetch.url p)
             (Js.nullish (Meta.rewrittenUrl meta) (Meta.url meta)))
          (toBase64 env data) (Some (toBase64 env data)) (Prefetch.status p)
          None None None None None None (Prefetch.contentType p) None
          (Some (Prefetch.proxyUsed p)) None None),
     mkWorld
       (mkOutside (delete (Prefetch.filePath p) (files (outside w)))
                  (services (outside w)))
       (trace w ++ [ReadFile (Prefetch.filePath p);
                    Unlink (Prefetch.filePath p)])).
Proof.
  intros Hp Hok Hparse Hfile.
  rewrite (scrapePDF_prefetched meta p w Hp Hok), Hparse.
  unfold try_finally, scrapePDF_try, bind, readFile. rewrite Hfile. simpl.
  unfold scrapePDF_finally, try_catch, unlink. simpl. rewrite Hfile.
  by rewrite <- app_assoc.
Qed.

(** The page count [scrapePDF] budgets for. *)
Lemma effectivePageCount_le (maxPages : option Z) (numPages : Z) :
  match maxPages with
  | Some m => if Js.truthy m then Z.min numPages m else numPages
  | None => numPages
  end <= numPages.
Proof. destruct maxPages as [m|]; [destruct (Js.truthy m)|]; lia. Qed.

(** X13. When the pages to parse, at 150 ms a page, exceed the time left
    of the request, [scrapePDF] throws [PDFInsufficientTimeError] with the
    page count and that time plus five seconds, without calling a parser,
    and the temporary file is gone. The page count is the document's,
    capped by a non-zero [maxPages]. *)
Theorem scrapePDF_insufficient_time meta p w data md o1 timeLeft :
  Meta.pdfPrefetch meta = value p ->
  match Prefetch.contentType p with
  | Some ct => Js.truthy ct && negb (Js.includes ct "application/pdf")
  | None => false
  end = false ->
  shouldParsePDF env (ScrapeOptions.parsers (Meta.options meta)) = true ->
  files (outside w) !! Prefetch.filePath p = Some data ->
  getPdfMetadata env (Prefetch.filePath p) (outside w) = (Returned md, o1) ->
  scrapeTimeout env (services o1) = Some timeLeft ->
  let effectivePageCount :=
    match getPDFMaxPages env (ScrapeOptions.parsers (Meta.options meta)) with
    | Some m =>
        if Js.truthy m then Z.min (PdfMetadata.numPages md) m
        else PdfMetadata.numPages md
    | None => PdfMetadata.numPages md
    end in
  timeLeft < effectivePageCount * MILLISECONDS_PER_PAGE ->
  let r := scrapePDF env meta w in
  r.1 = Thrown
          (PDFInsufficientTimeError effectivePageCount
             (effectivePageCount * MILLISECONDS_PER_PAGE + 5000))
  /\ files (outside r.2) !! Prefetch.filePath p = None
  /\ exists tail,
       trace r.2
       = trace w ++ [ReadFile (Prefetch.filePath p);
                     ParserCall "getPdfMetadata";
                     Unlink (Prefetch.filePath p)] ++ tail
       /\ (tail = []
           \/ tail = [Log "warn" "Failed to clean up temporary PDF file"]).
Proof.
  intros Hp Hok Hparse Hfile Hmd Htime eff Hlt r. unfold r.
  rewrite (scrapePDF_prefetched meta p w Hp Hok), Hparse.
  apply Z.ltb_lt in Hlt.
  edestruct (scrapePDF_finally_after
               (scrapePDF_try env meta true
                  (getPDFMaxPages env
                     (ScrapeOptions.parsers (Meta.options meta)))
                  (Prefetch.filePath p)
                  (Js.nullish (Prefetch.url p)
                     (Js.nullish (Meta.rewrittenUrl meta) (Meta.url meta)))
                  (Prefetch.status p) (Prefetch.contentType p)
                  (Prefetch.proxyUsed p))
               (Prefetch.filePath p) w)
    as [Hout [Hgone [tail [Htrace Htail]]]].
  { unfold scrapePDF_try.
    rewrite (bind_Returned _ _ _ _ _ (readFile_eq _ _ _ Hfile)). cbn [negb].
    erewrite bind_Returned; [|apply call_eq; exact Hmd].
    erewrite bind_Returned; [|reflexivity].
    cbn [outside services]. rewrite Htime. fold eff. rewrite Hlt.
    reflexivity. }
  split; [exact Hout|]. split; [exact Hgone|].
  exists tail. split; [|exact Htail].
  rewrite Htrace. cbn [trace]. by rewrite <- !app_assoc.
Qed.

(** X14. A failure of the RunPod parser is final. When RunPod is
    configured, the file is small enough for it and it throws (an abort
    as well as any other error), [scrapePDF] never falls back to the
    local parser: it throws what RunPod threw, or, when the time left of
    the request is too short for the pages, [PDFInsufficientTimeError]
    before RunPod is called. The temporary file is gone either way. *)
Theorem scrapePDF_RunPod_failure_is_final meta p w data md o1 e o2 :
  Meta.pdfPrefetch meta = value p ->
  match Prefetch.contentType p with
  | Some ct => Js.truthy ct && negb (Js.includes ct "application/pdf")
  | None => false
  end = false ->
  shouldParsePDF env (ScrapeOptions.parsers (Meta.options meta)) = true ->
  files (outside w) !! Prefetch.filePath p = Some data ->
  getPdfMetadata env (Prefetch.filePath p) (outside w) = (Returned md, o1) ->
  Z.of_nat (String.length (toBase64 env data)) < MAX_FILE_SIZE ->
  Js.truthy (RUNPOD_MU_API_KEY env) = true ->
  Js.truthy (RUNPOD_MU_POD_ID env) = true ->
  scrapePDFWithRunPodMU env meta (Prefetch.filePath p) (toBase64 env data)
    (getPDFMaxPages env (ScrapeOptions.parsers (Meta.options meta))) o1
    = (Thrown e, o2) ->
  let effectivePageCount :=
    match getPDFMaxPages env (ScrapeOptions.parsers (Meta.options meta)) with
    | Some m =>
        if Js.truthy m then Z.min (PdfMetadata.numPages md) m
        else PdfMetadata.numPages md
    | None => PdfMetadata.numPages md
    end in
  let insufficient :=
    match scrapeTimeout env (services o1) with
    | Some t => t <? effectivePageCount * MILLISECONDS_PER_PAGE
    | None => false
    end in
  let r := scrapePDF env meta w in
  r.1 = Thrown
          (if insufficient
           then PDFInsufficientTimeError effectivePageCount
                  (effectivePageCount * MILLISECONDS_PER_PAGE + 5000)
           else e)
  /\ files (outside r.2) !! Prefetch.filePath p = None
  /\ exists t,
       trace r.2 = trace w ++ t
       /\ (ParserCall "PdfParse" ∉ t)
       /\ (ParserCall "scrapePDFWithRunPodMU" ∈ t <-> insufficient = false).
Proof.
  intros Hp Hok Hparse Hfile Hmd Hsize Hkey Hpod Hrun eff insufficient r.
  unfold r.
  rewrite (scrapePDF_prefetched meta p w Hp Hok), Hparse.
  apply Z.ltb_lt in Hsize.
  assert (exists t1 o',
    scrapePDF_try env meta true
      (getPDFMaxPages env (ScrapeOptions.parsers (Meta.options meta)))
      (Prefetch.filePath p)
      (Js.nullish (Prefetch.url p)
         (Js.nullish (Meta.rewrittenUrl meta) (Meta.url meta)))
      (Prefetch.status p) (Prefetch.contentType p) (Prefetch.proxyUsed p) w
    = (Thrown
         (if insufficient
          then PDFInsufficientTimeError eff
                 (eff * MILLISECONDS_PER_PAGE + 5000)
          else e),
       mkWorld o' (trace w ++ t1))
    /\ (ParserCall "PdfParse" ∉ t1)
    /\ (ParserCall "scrapePDFWithRunPodMU" ∈ t1 <-> insufficient = false))
    as (t1 & o' & Hblock & Hno & Hran).
  { unfold scrapePDF_try.
    rewrite (bind_Returned _ _ _ _ _ (readFile_eq _ _ _ Hfile)). cbn [negb].
    erewrite bind_Returned; [|apply call_eq; exact Hmd].
    erewrite bind_Returned; [|reflexivity].
    cbn [outside services]. fold eff. fold insufficient.
    destruct insufficient.
    { exists [ReadFile (Prefetch.filePath p); ParserCall "getPdfMetadata"], o1.
      split; [unfold throw; cbn [trace]; by rewrite <- !app_assoc|].
      split; [rewrite !elem_of_cons; intros [?|[?|?%elem_of_nil]]; done|].
      split; [|done].
      rewrite !elem_of_cons. intros [?|[?|?%elem_of_nil]]; done. }
    rewrite Hsize, Hkey, Hpod. cbn [andb].
    destruct (bool_decide (e = AbortManagerThrownError)) eqn:Habort.
    - exists [ReadFile (Prefetch.filePath p); ParserCall "getPdfMetadata";
              ParserCall "scrapePDFWithRunPodMU"], o2.
      split.
      + eapply eq_trans;
          [eapply bind_Thrown; eapply eq_trans;
           [eapply try_catch_Thrown, bind_Thrown, call_eq; exact Hrun|];
           cbv beta; rewrite Habort; reflexivity|].
        cbn [trace]. by rewrite <- !app_assoc.
      + split; [rewrite !elem_of_cons;
                intros [?|[?|[?|?%elem_of_nil]]]; done|].
        split; [done|]. intros _. rewrite !elem_of_cons. auto.
    - exists [ReadFile (Prefetch.filePath p); ParserCall "getPdfMetadata";
              ParserCall "scrapePDFWithRunPodMU";
              Log "warn" "RunPod MU failed to parse PDF";
              Log "info" "MU v1 failed"], o2.
      split.
      + eapply eq_trans;
          [eapply bind_Thrown; eapply eq_trans;
           [eapply try_catch_Thrown, bind_Thrown, call_eq; exact Hrun|];
           cbv beta; rewrite Habort; reflexivity|].
        cbn [trace outside]. by rewrite <- !app_assoc.
      + split; [rewrite !elem_of_cons;
                intros [?|[?|[?|[?|[?|?%elem_of_nil]]]]]; done|].
        split; [done|]. intros _. rewrite !elem_of_cons. auto. }
  destruct (scrapePDF_finally_after _ (Prefetch.filePath p) w _ _ Hblock)
    as [Hout [Hgone [tail [Htrace Htail]]]].
  split; [exact Hout|]. split; [exact Hgone|].
  exists (t1 ++ Unlink (Prefetch.filePath p) :: tail).
  split; [rewrite Htrace; cbn [trace]; by rewrite <- app_assoc|].
  assert (Hafter : forall name,
            ParserCall name ∉ Unlink (Prefetch.filePath p) :: tail).
  { intros name. rewrite elem_of_cons. intros [?|Hin]; [done|].
    destruct Htail as [-> | ->].
    - by apply elem_of_nil in Hin.
    - by apply list_elem_of_singleton in Hin. }
  split.
  - rewrite elem_of_app. intros [?|Hin]; [done|]. by apply Hafter in Hin.
  - rewrite elem_of_app, <- Hran. split; [|by left].
    intros [?|Hin]; [done|]. by apply Hafter in Hin.
Qed.

(** X15. When RunPod is not configured (or the file is too large for
    it), [scrapePDF] parses locally: it reads the file a second time,
    returns the escaped text of [PdfParse] as both [html] and [markdown],
    and reports as [numPages] the capped page count, not the count of
    [getPdfMetadata]; RunPod is not called and the file is gone. *)
Theorem scrapePDF_local_parser meta p w data md o1 data' text o2 :
  Meta.pdfPrefetch meta = value p ->
  match Prefetch.contentType p with
  | Some ct => Js.truthy ct && negb (Js.includes ct "application/pdf")
  | None => false
  end = false ->
  shouldParsePDF env (ScrapeOptions.parsers (Meta.options meta)) = true ->
  files (outside w) !! Prefetch.filePath p = Some data ->
  getPdfMetadata env (Prefetch.filePath p) (outside w) = (Returned md, o1) ->
  let effectivePageCount :=
    match getPDFMaxPages env (ScrapeOptions.parsers (Meta.options meta)) with
    | Some m =>
        if Js.truthy m then Z.min (PdfMetadata.numPages md) m
        else PdfMetadata.numPages md
    | None => PdfMetadata.numPages md
    end in
  match scrapeTimeout env (services o1) with
  | Some t => t <? effectivePageCount * MILLISECONDS_PER_PAGE
  | None => false
  end = false ->
  (Z.of_nat (String.length (toBase64 env data)) <? MAX_FILE_SIZE)
    && Js.truthy (RUNPOD_MU_API_KEY env)
    && Js.truthy (RUNPOD_MU_POD_ID env) = false ->
  files o1 !! Prefetch.filePath p = Some data' ->
  PdfParse env data' o1 = (Returned text, o2) ->
  let r := scrapePDF env meta w in
  r.1 = Returned
          (EngineScrapeResult.mk
             (Js.nullish (Prefetch.url p)
                (Js.nullish (Meta.rewrittenUrl meta) (Meta.url meta)))
             (escapeHtml env text) (Some (escapeHtml env text))
             (Prefetch.status p) None None None None
             (Some (PdfMetadata.mk effectivePageCount
                                   (PdfMetadata.title md)))
             None (Prefetch.contentType p) None
             (Some (Prefetch.proxyUsed p)) None None)
  /\ effectivePageCount <= PdfMetadata.numPages md
  /\ files (outside r.2) !! Prefetch.filePath p = None
  /\ exists t,
       trace r.2 = trace w ++ t
       /\ (ParserCall "scrapePDFWithRunPodMU" ∉ t)
       /\ ParserCall "PdfParse" ∈ t.
Proof.
  intros Hp Hok Hparse Hfile Hmd eff Htime Hlocal Hfile' Htext r. unfold r.
  rewrite (scrapePDF_prefetched meta p w Hp Hok), Hparse.
  edestruct (scrapePDF_finally_after
               (scrapePDF_try env meta true
                  (getPDFMaxPages env
                     (ScrapeOptions.parsers (Meta.options meta)))
                  (Prefetch.filePath p)
                  (Js.nullish (Prefetch.url p)
                     (Js.nullish (Meta.rewrittenUrl meta) (Meta.url meta)))
                  (Prefetch.status p) (Prefetch.contentType p)
                  (Prefetch.proxyUsed p))
               (Prefetch.filePath p) w)
    as [Hout [Hgone [tail [Htrace Htail]]]].
  { unfold scrapePDF_try.
    rewrite (bind_Returned _ _ _ _ _ (readFile_eq _ _ _ Hfile)). cbn [negb].
    erewrite bind_Returned; [|apply call_eq; exact Hmd].
    erewrite bind_Returned; [|reflexivity].
    cbn [outside services]. fold eff. rewrite Htime, Hlocal.
    erewrite bind_Returned; [reflexivity|].
    unfold scrapePDFWithParsePDF.
    erewrite bind_Returned; [|reflexivity].
    erewrite bind_Returned; [|apply readFile_eq; exact Hfile'].
    erewrite bind_Returned; [|apply call_eq; exact Htext].
    reflexivity. }
  split; [exact Hout|].
  split; [apply effectivePageCount_le|].
  split; [exact Hgone|].
  eexists. split; [rewrite Htrace; cbn [trace]; rewrite <- !app_assoc;
                   reflexivity|].
  split.
  - rewrite !elem_of_app, !elem_of_cons.
    intros [[?|?%elem_of_nil]|[[?|?%elem_of_nil]|[[?|?%elem_of_nil]|
           [[?|?%elem_of_nil]|[[?|?%elem_of_nil]|[?|Hin]]]]]]; try done.
    destruct Htail as [-> | ->].
    + by apply elem_of_nil in Hin.
    + by apply list_elem_of_singleton in Hin.
  - rewrite !elem_of_app, !elem_of_cons. auto 10.
Qed.

(** X16. The content type check after [downloadFile] stands before the
    [try] block as well: when the download answers with a content type
    that is not a PDF's, [scrapePDF] throws [PDFPrefetchFailed] and leaves
    the world as the download left it; the file just downloaded is not
    unlinked. *)
Theorem scrapePDF_leaks_mismatched_download meta w d o ct :
  (forall p, Meta.pdfPrefetch meta <> value p) ->
  downloadFile env (Meta.id meta)
    (Js.nullish (Meta.rewrittenUrl meta) (Meta.url meta))
    (Js.truthy (ScrapeOptions.skipTlsVerification (Meta.options meta)))
    (ScrapeOptions.headers (Meta.options meta)) (outside w)
    = (Returned d, o) ->
  Download.response_contentType d = Some ct ->
  Js.truthy ct = true ->
  Js.includes ct "application/pdf" = false ->
  scrapePDF env meta w
  = (Thrown PDFPrefetchFailed,
     mkWorld o
       (trace w
        ++ [DownloadFile
              (Js.nullish (Meta.rewrittenUrl meta) (Meta.url meta))])).
Proof.
  intros Hno Hdl Hct Ht Hi. unfold scrapePDF. cbv zeta.
  apply bind_Thrown.
  destruct (Meta.pdfPrefetch meta) as [| |p] eqn:Hp;
    [| |by destruct (Hno p)];
    (erewrite bind_Returned; [|apply call_eq; exact Hdl]);
    by rewrite Hct, Ht, Hi.
Qed.

End PDFFile.

Lemma scrapePDF_unlinks_once_witness :
  files
    (outside
       (scrapePDF (Deployment.configured Deployment.defaults Example.live [])
                  (Deployment.pdfMeta Deployment.defaults)
                  Deployment.pdfOnDisk).2)
    !! "/tmp/tempFile-1.pdf" = None
  /\ unlinks "/tmp/tempFile-1.pdf"
       (trace
          (scrapePDF (Deployment.configured Deployment.defaults Example.live [])
                     (Deployment.pdfMeta Deployment.defaults)
                     Deployment.pdfOnDisk).2)
     = 1%nat.
Proof.
  destruct (scrapePDF_unlinks_once
              (Deployment.configured Deployment.defaults Example.live [])
              (Deployment.pdfMeta Deployment.defaults)
              Deployment.pdfPrefetch Deployment.pdfOnDisk
              eq_refl eq_refl) as [Hgone [Hcount _]].
  split; [exact Hgone | exact Hcount].
Defined.

Lemma scrapePDF_without_parsing_witness :
  scrapePDF
    (Deployment.configured
       (Deployment.mkKnobs None None false None None 3 None true)
       Example.live [])
    (Deployment.pdfMeta
       (Deployment.mkKnobs None None false None None 3 None true))
    Deployment.pdfOnDisk
  = (Returned
       (EngineScrapeResult.mk "https://example.com/paper.pdf"
          "%PDF-1.5 body" (Some "%PDF-1.5 body") 200
          None None None None None None (Some "application/pdf") None
          (Some basic) None None),
     mkWorld
       (mkOutside
          (delete "/tmp/tempFile-1.pdf"
                  {[ "/tmp/tempFile-1.pdf" := "%PDF-1.5 body" ]}) tt)
       [ReadFile "/tmp/tempFile-1.pdf"; Unlink "/tmp/tempFile-1.pdf"]).
Proof.
  apply (scrapePDF_without_parsing
           (Deployment.configured
              (Deployment.mkKnobs None None false None None 3 None true)
              Example.live [])
           (Deployment.pdfMeta
              (Deployment.mkKnobs None None false None None 3 None true))
           Deployment.pdfPrefetch Deployment.pdfOnDisk "%PDF-1.5 body");
    reflexivity.
Defined.

Lemma scrapePDF_insufficient_time_witness :
  (scrapePDF
     (Deployment.configured
        (Deployment.mkKnobs None None true (Some 2) (Some 200) 10 None true)
        Example.live [])
     (Deployment.pdfMeta
        (Deployment.mkKnobs None None true (Some 2) (Some 200) 10 None true))
     Deployment.pdfOnDisk).1
  = Thrown (PDFInsufficientTimeError 2 5300).
Proof.
  destruct (scrapePDF_insufficient_time
              (Deployment.configured
                 (Deployment.mkKnobs None None true (Some 2) (Some 200) 10
                                     None true)
                 Example.live [])
              (Deployment.pdfMeta
                 (Deployment.mkKnobs None None true (Some 2) (Some 200) 10
                                     None true))
              Deployment.pdfPrefetch Deployment.pdfOnDisk "%PDF-1.5 body"
              (PdfMetadata.mk 10 None) (outside Deployment.pdfOnDisk) 200
              eq_refl eq_refl eq_refl eq_refl eq_refl eq_refl eq_refl)
    as [Hout _].
  exact Hout.
Defined.

Lemma scrapePDF_RunPod_failure_is_final_witness :
  (scrapePDF
     (Deployment.configured
        (Deployment.mkKnobs None None true None (Some 30000) 3
           (Some (Thrown AbortManagerThrownError)) true)
        Example.live [])
     (Deployment.pdfMeta
        (Deployment.mkKnobs None None true None (Some 30000) 3
           (Some (Thrown AbortManagerThrownError)) true))
     Deployment.pdfOnDisk).1
  = Thrown AbortManagerThrownError.
Proof.
  destruct (scrapePDF_RunPod_failure_is_final
              (Deployment.configured
                 (Deployment.mkKnobs None None true None (Some 30000) 3
                    (Some (Thrown AbortManagerThrownError)) true)
                 Example.live [])
              (Deployment.pdfMeta
                 (Deployment.mkKnobs None None true None (Some 30000) 3
                    (Some (Thrown AbortManagerThrownError)) true))
              Deployment.pdfPrefetch Deployment.pdfOnDisk "%PDF-1.5 body"
              (PdfMetadata.mk 3 None) (outside Deployment.pdfOnDisk)
              AbortManagerThrownError
              (outside Deployment.pdfOnDisk)
              eq_refl eq_refl eq_refl eq_refl eq_refl eq_refl eq_refl
              eq_refl eq_refl)
    as [Hout _].
  exact Hout.
Defined.

Lemma scrapePDF_local_parser_witness :
  (scrapePDF
     (Deployment.configured
        (Deployment.mkKnobs None None true (Some 2) None 10 None true)
        Example.live [])
     (Deployment.pdfMeta
        (Deployment.mkKnobs None None true (Some 2) None 10 None true))
     Deployment.pdfOnDisk).1
  = Returned
      (EngineScrapeResult.mk "https://example.com/paper.pdf"
         "%PDF-1.5 body" (Some "%PDF-1.5 body") 200 None None None None
         (Some (PdfMetadata.mk 2 None)) None (Some "application/pdf") None
         (Some basic) None None).
Proof.
  destruct (scrapePDF_local_parser
              (Deployment.configured
                 (Deployment.mkKnobs None None true (Some 2) None 10 None
                                     true)
                 Example.live [])
              (Deployment.pdfMeta
                 (Deployment.mkKnobs None None true (Some 2) None 10 None
                                     true))
              Deployment.pdfPrefetch Deployment.pdfOnDisk "%PDF-1.5 body"
              (PdfMetadata.mk 10 None) (outside Deployment.pdfOnDisk)
              "%PDF-1.5 body" "%PDF-1.5 body" (outside Deployment.pdfOnDisk)
              eq_refl eq_refl eq_refl eq_refl eq_refl eq_refl eq_refl
              eq_refl eq_refl)
    as [Hout _].
  exact Hout.
Defined.

Lemma scrapePDF_leaks_mismatched_download_witness :
  scrapePDF
    (Deployment.answering (Some "text/html")
       (Deployment.configured Deployment.defaults Example.live []))
    (Example.meta (Deployment.configured Deployment.defaults Example.live [])
                  None None)
    Example.emptyWorld
  = (Thrown PDFPrefetchFailed,
     mkWorld
       (mkOutside {[ "/tmp/download.bin" := "<html>denied</html>" ]} tt)
       [DownloadFile "https://example.com/"]).
Proof.
  apply (scrapePDF_leaks_mismatched_download
           (Deployment.answering (Some "text/html")
              (Deployment.configured Deployment.defaults Example.live []))
           (Example.meta (Deployment.configured Deployment.defaults Example.live [])
                         None None)
           Example.emptyWorld
           (Download.mk "/tmp/download.bin" "https://example.com/" 200
                        (Some "text/html"))
           (mkOutside {[ "/tmp/download.bin" := "<html>denied</html>" ]} tt)
           "text/html");
    [intros p; discriminate | reflexivity ..].
Defined.

(** ** More on specialty detection *)

Lemma prefix_app p s :
  String.prefix p s = true -> exists rest, s = (p ++ rest)%string.
Proof.
  revert s. induction p as [|a p IH]; intros s H.
  - by exists s.
  - destruct s as [|b s]; [discriminate|]. simpl in H.
    destruct (ascii_dec a b) as [->|]; [|discriminate].
    destruct (IH s H) as [rest ->]. by exists rest.
Qed.

Lemma prefix_weaken p s t :
  String.prefix p s = true -> String.prefix p (s ++ t)%string = true.
Proof.
  revert s. induction p as [|a p IH]; intros s H;
    [by destruct (s ++ t)%string|].
  destruct s as [|b s]; [discriminate|]. simpl in *.
  destruct (ascii_dec a b); [by apply IH | discriminate].
Qed.

Lemma includes_cons a s k :
  Js.includes (String a s) k = String.prefix k (String a s) || Js.includes s k.
Proof. reflexivity. Qed.

Lemma includes_weaken s t k :
  Js.includes s k = true -> Js.includes (s ++ t)%string k = true.
Proof.
  induction s as [|a s IH]; intros H.
  - destruct k; [by destruct t|discriminate].
  - rewrite includes_cons in H. apply orb_true_iff in H as [H|H].
    + change (String a s ++ t)%string with (String a (s ++ t)%string).
      rewrite includes_cons.
      change (String a (s ++ t)%string) with (String a s ++ t)%string.
      by rewrite (prefix_weaken _ _ _ H).
    + change (String a s ++ t)%string with (String a (s ++ t)%string).
      rewrite includes_cons, (IH H). apply orb_true_r.
Qed.

(** What [getDocumentExtension] answers for a content type that starts
    with a type in which one of its keywords occurs. *)
Lemma getDocumentExtension_keyword ct type :
  Js.startsWith ct type = true ->
  Js.truthy type = true ->
  Js.includes type "wordprocessingml" || Js.includes type "msword"
  || Js.includes type "spreadsheetml" || Js.includes type "ms-excel"
  || Js.includes type "opendocument.text" || Js.includes type "rtf" = true ->
  getDocumentExtension (Some ct) ∈ ["docx"; "xlsx"; "odt"; "rtf"].
Proof.
  intros Hstart Htype Hkey. apply prefix_app in Hstart as [rest ->].
  unfold getDocumentExtension.
  assert (Js.truthy (type ++ rest)%string = true) as -> by by destruct type.
  cbn [negb].
  assert (Hw : forall k, Js.includes type k = true ->
                         Js.includes (type ++ rest)%string k = true)
    by (intros k; apply includes_weaken).
  destruct (Js.includes (type ++ rest)%string "wordprocessingml") eqn:H1;
    [rewrite !elem_of_cons; auto|].
  destruct (Js.includes (type ++ rest)%string "msword") eqn:H2;
    [rewrite !elem_of_cons; auto|].
  destruct (Js.includes (type ++ rest)%string "spreadsheetml") eqn:H3;
    [rewrite !elem_of_cons; auto|].
  destruct (Js.includes (type ++ rest)%string "ms-excel") eqn:H4;
    [rewrite !elem_of_cons; auto|].
  destruct (Js.includes (type ++ rest)%string "opendocument.text") eqn:H5;
    [rewrite !elem_of_cons; auto 6|].
  destruct (Js.includes (type ++ rest)%string "rtf") eqn:H6;
    [rewrite !elem_of_cons; auto 6|].
  exfalso. repeat (apply orb_true_iff in Hkey as [Hkey|Hkey]);
    apply Hw in Hkey; congruence.
Qed.

(** X17. Every content type that [detectSpecialtyPlan] takes for a
    document gets a real file extension from [getDocumentExtension]:
    never the fallback "tmp". *)
Theorem document_types_have_an_extension ct :
  isDocument (Some ct) = true ->
  getDocumentExtension (Some ct) ∈ ["docx"; "xlsx"; "odt"; "rtf"].
Proof.
  unfold isDocument. rewrite existsb_exists. intros [type [Hin Hstart]].
  cbn [startsWith'] in Hstart.
  apply (getDocumentExtension_keyword ct type Hstart);
    unfold documentTypes in Hin; cbn [In] in Hin;
    repeat (destruct Hin as [<-|Hin]; [by vm_compute|]); destruct Hin.
Qed.

Section DetectionMore.

Context {S : Type} (env : Env S).
Implicit Types (meta : Meta.t) (w : World S).

(** A known content type that is neither a document type, PDF nor
    octet-stream: the detector answers nothing and does nothing, whatever
    the body and the payload look like. *)
Lemma detectSpecialtyPlan_other input w c :
  getHeaderContentType (SpecialtyDetectionInput.headers input)
    (SpecialtyDetectionInput.contentType input) = Some c ->
  Js.truthy c = true ->
  isDocument (Some (Js.toLowerCase c)) = false ->
  isPdf (Some (Js.toLowerCase c)) = false ->
  isOctetStream (Some (Js.toLowerCase c)) = false ->
  detectSpecialtyPlan env input w = (Returned None, w).
Proof.
  intros Hct Hc Hdoc Hpdf Hoct. unfold detectSpecialtyPlan. cbv zeta.
  rewrite Hct. cbn [fmap option_fmap option_map].
  assert (Js.truthy (Some (Js.toLowerCase c)) = true) as ->
    by by destruct c.
  rewrite Hdoc, Hpdf, Hoct. reflexivity.
Qed.

(** X18. An engine result of an ordinary content type (say "text/html")
    passes [applySpecialtyParsing] untouched: same result, same request,
    no file written, nothing downloaded, no parser called, even when its
    body or payload starts with a PDF or zip signature. *)
Theorem ordinary_content_passes_through meta engine r w c :
  EngineScrapeResult.contentType r = Some c ->
  Js.truthy c = true ->
  isDocument (Some (Js.toLowerCase c)) = false ->
  isPdf (Some (Js.toLowerCase c)) = false ->
  isOctetStream (Some (Js.toLowerCase c)) = false ->
  applySpecialtyParsing env meta engine r w = (Returned (meta, r), w).
Proof.
  intros Hct Hc Hdoc Hpdf Hoct. unfold applySpecialtyParsing.
  rewrite (bind_Returned _ _ w None w); [reflexivity|].
  apply (detectSpecialtyPlan_other _ w c); try assumption.
  cbn [SpecialtyDetectionInput.headers SpecialtyDetectionInput.contentType].
  unfold getHeaderContentType. rewrite Hct.
  by assert (Js.truthy (Some c) = true) as -> by exact Hc.
Qed.

(** X19. Without a content type the detector only sniffs: it never
    throws, writes no file and leaves the services alone, and a plan it
    returns carries neither a content type nor a prefetch, also when the
    response came with a binary payload. *)
Theorem detection_without_content_type_writes_nothing input w :
  getHeaderContentType (SpecialtyDetectionInput.headers input)
    (SpecialtyDetectionInput.contentType input) = None ->
  let r := detectSpecialtyPlan env input w in
  outside r.2 = outside w
  /\ exists answer,
       r.1 = Returned answer
       /\ forall plan,
            answer = Some plan ->
            SpecialtyPlan.contentType plan = None
            /\ SpecialtyPlan.prefetch plan = undefined.
Proof.
  intros Hct r. unfold r, detectSpecialtyPlan. cbv zeta.
  rewrite Hct. cbn [fmap option_fmap option_map].
  change (isDocument None) with false.
  change (isPdf None) with false.
  change (isOctetStream None) with false.
  change (Js.truthy (@None string)) with false.
  cbn [negb andb orb].
  repeat match goal with
         | |- context [if ?b then _ else _] => destruct b
         end;
    (split; [reflexivity|]); eexists; (split; [reflexivity|]);
    intros plan Hplan; try discriminate Hplan;
    injection Hplan as <-; by split.
Qed.

(** X20. A response of "fire-engine;chrome-cdp" that carries a PDF as
    binary payload but names no content type is rejected with
    [EngineError]: the payload is not used, because the detector builds a
    prefetch only where it knows the content type. *)
Theorem inline_pdf_without_content_type_is_rejected meta r w bf :
  Js.truthy (EngineScrapeResult.contentType r) = false ->
  EngineScrapeResult.binaryFile r = Some bf ->
  Js.startsWith (BinaryFile.content bf) "JVBERi0" = true ->
  hasDocumentSignature (Some (EngineScrapeResult.html r)) None = false ->
  applySpecialtyParsing env meta fire_engine_chrome_cdp r w
  = (Thrown
       (EngineError "Fire Engine response missing file payload for pdf"),
     w).
Proof.
  intros Hct Hbf Hsig Hdoc. unfold applySpecialtyParsing.
  assert (Hnone : getHeaderContentType None (EngineScrapeResult.contentType r)
                  = None).
  { unfold getHeaderContentType. by rewrite Hct. }
  apply prefix_app in Hsig as [rest Hrest].
  assert (Hdetect :
    detectSpecialtyPlan env
      (SpecialtyDetectionInput.mk None
         (EngineScrapeResult.contentType r)
         (Some (EngineScrapeResult.html r))
         (EngineScrapeResult.binaryFile r)
         (Some (EngineScrapeResult.url r))
         (Some (EngineScrapeResult.statusCode r))
         (EngineScrapeResult.proxyUsed r)) w
    = (Returned (Some (SpecialtyPlan.mk SpecialtyPlan.pdf None undefined)),
       w)).
  { unfold detectSpecialtyPlan. cbv zeta.
    cbn [SpecialtyDetectionInput.headers SpecialtyDetectionInput.contentType
         SpecialtyDetectionInput.body SpecialtyDetectionInput.binaryFile].
    rewrite Hnone, Hbf. cbn [fmap option_fmap option_map].
    change (isDocument None) with false.
    change (isPdf None) with false.
    change (isOctetStream None) with false.
    change (Js.truthy (@None string)) with false.
    rewrite Hrest.
    assert (hasDocumentSignature (Some (EngineScrapeResult.html r))
              (Some ("JVBERi0" ++ rest)%string) = false) as ->.
    { revert Hdoc. unfold hasDocumentSignature.
      cbn [Js.nullish default from_option id].
      rewrite !orb_false_iff. intros [[-> ->] _]. split; [done|reflexivity]. }
    assert (hasPdfSignature (Some (EngineScrapeResult.html r))
              (Some ("JVBERi0" ++ rest)%string) = true) as ->.
    { unfold hasPdfSignature. cbn [Js.nullish default from_option id].
      rewrite !orb_true_iff. right. by destruct rest. }
    change (Js.truthy (Some ("JVBERi0" ++ rest)%string)) with true.
    change (Js.truthy (Some (EngineScrapeResult.html r)))
      with (Js.truthy (EngineScrapeResult.html r)).
    by destruct (Js.truthy (EngineScrapeResult.html r)). }
  rewrite (bind_Returned _ _ _ _ _ Hdetect). reflexivity.
Qed.

(** X21. When the temporary file cannot be written, [base64ToPrefetch]
    logs the failure and rethrows the error of [writeFile]: no prefetch
    descriptor is returned and no file appears. *)
Theorem base64ToPrefetch_write_failure w content ext ty url st px ct e :
  (forall s path, writeFileError env s path = Some e) ->
  exists path w',
    base64ToPrefetch env content ext ty url st px ct w = (Thrown e, w')
    /\ files (outside w') = files (outside w)
    /\ trace w'
       = trace w ++ [WriteFile path;
                     Log "error"
                       ("Failed to write " ++ specialtyTypeName ty
                        ++ " prefetch file")%string].
Proof.
  intros Hfail.
  unfold base64ToPrefetch, bind, freshUUID, try_catch, writeFile.
  destruct (randomUUID env (services (outside w))) as [uuid s'] eqn:Hu.
  simpl. rewrite Hfail. simpl.
  eexists _, _. split; [reflexivity|]. simpl.
  split; [reflexivity|]. by rewrite <- app_assoc.
Qed.

End DetectionMore.

Lemma document_types_have_an_extension_witness :
  getDocumentExtension (Some "application/msword; charset=binary")
    ∈ ["docx"; "xlsx"; "odt"; "rtf"].
Proof. apply document_types_have_an_extension. reflexivity. Defined.

Lemma ordinary_content_passes_through_witness :
  applySpecialtyParsing
    (Deployment.configured Deployment.defaults Example.live [])
    (Deployment.pdfMeta Deployment.defaults) fetch Deployment.disguisedPage
    Example.emptyWorld
  = (Returned (Deployment.pdfMeta Deployment.defaults,
               Deployment.disguisedPage),
     Example.emptyWorld).
Proof.
  apply (ordinary_content_passes_through
           (Deployment.configured Deployment.defaults Example.live [])
           (Deployment.pdfMeta Deployment.defaults) fetch
           Deployment.disguisedPage Example.emptyWorld
           "text/html; charset=utf-8");
    reflexivity.
Defined.

Lemma detection_without_content_type_writes_nothing_witness :
  outside
    (detectSpecialtyPlan
       (Deployment.configured Deployment.defaults Example.live [])
       (SpecialtyDetectionInput.mk None None (Some "")
          (Some (BinaryFile.mk None "JVBERi0xLjQK")) None None None)
       Example.emptyWorld).2
  = outside Example.emptyWorld.
Proof.
  destruct (detection_without_content_type_writes_nothing
              (Deployment.configured Deployment.defaults Example.live [])
              (SpecialtyDetectionInput.mk None None (Some "")
                 (Some (BinaryFile.mk None "JVBERi0xLjQK")) None None None)
              Example.emptyWorld eq_refl) as [H _].
  exact H.
Defined.

Lemma inline_pdf_without_content_type_is_rejected_witness :
  applySpecialtyParsing
    (Deployment.configured Deployment.defaults Example.live [])
    (Deployment.pdfMeta Deployment.defaults) fire_engine_chrome_cdp
    Deployment.inlinePdf Example.emptyWorld
  = (Thrown
       (EngineError "Fire Engine response missing file payload for pdf"),
     Example.emptyWorld).
Proof.
  apply (inline_pdf_without_content_type_is_rejected
           (Deployment.configured Deployment.defaults Example.live [])
           (Deployment.pdfMeta Deployment.defaults) Deployment.inlinePdf
           Example.emptyWorld (BinaryFile.mk None "JVBERi0xLjQK"));
    reflexivity.
Defined.

Lemma base64ToPrefetch_write_failure_witness :
  exists path w',
    base64ToPrefetch
      (Deployment.configured
         (Deployment.mkKnobs None (Some (Error "ENOSPC")) true None None 3
                             None true)
         Example.live [])
      "JVBERi0xLjQK" "pdf" SpecialtyPlan.pdf None None None
      (Some "application/pdf") Example.emptyWorld
    = (Thrown (Error "ENOSPC"), w')
    /\ files (outside w') = files (outside Example.emptyWorld)
    /\ trace w'
       = trace Example.emptyWorld
         ++ [WriteFile path;
             Log "error"
               ("Failed to write " ++ specialtyTypeName SpecialtyPlan.pdf
                ++ " prefetch file")%string].
Proof.
  apply (base64ToPrefetch_write_failure
           (Deployment.configured
              (Deployment.mkKnobs None (Some (Error "ENOSPC")) true None
                                  None 3 None true)
              Example.live [])
           Example.emptyWorld "JVBERi0xLjQK" "pdf" SpecialtyPlan.pdf None
           None None (Some "application/pdf") (Error "ENOSPC")).
  intros s path. reflexivity.
Defined.

(** ** More on the request and on the postprocessor chain *)

Lemma noDownload_nil : noDownload [].
Proof. constructor. Qed.

Lemma noDownload_app t1 t2 :
  noDownload t1 -> noDownload t2 -> noDownload (t1 ++ t2).
Proof. intros H1 H2. by apply Forall_app. Qed.

Lemma noDownload_other ev : isDownload ev = false -> noDownload [ev].
Proof. intros H. by repeat constructor. Qed.

Lemma postprocessorRuns_app t1 t2 :
  postprocessorRuns (t1 ++ t2) = postprocessorRuns t1 ++ postprocessorRuns t2.
Proof. apply omap_app. Qed.

(** The flags [buildFeatureFlags] has set once it is through with the
    formats: at most "actions" and one of the two screenshot flags. *)
Lemma elem_of_screenshot_layer
    (o : option Format.t) (A : gset FeatureFlag) (f : FeatureFlag) :
  f ∈ match o with
      | Some fmt =>
          if Js.truthy (Format.fullPage fmt)
          then {[ screenshot_fullScreen ]} ∪ A
          else {[ screenshot ]} ∪ A
      | None => A
      end ->
  (exists fmt,
     o = Some fmt
     /\ (if Js.truthy (Format.fullPage fmt)
         then f = screenshot_fullScreen else f = screenshot))
  \/ f ∈ A.
Proof.
  destruct o as [fmt|]; [|by right].
  destruct (Js.truthy (Format.fullPage fmt)) eqn:Hfull;
    rewrite elem_of_union, elem_of_singleton; intros [->|H]; auto;
    left; exists fmt; by rewrite Hfull.
Qed.

Section RequestMore.

Context {S : Type} (env : Env S).
Implicit Types (meta : Meta.t) (w : World S).

Lemma elem_of_actions_layer (c : bool) (f : FeatureFlag) :
  f ∈ (if c then {[ actions ]} ∪ (∅ : gset FeatureFlag) else ∅) ->
  f = actions /\ c = true.
Proof.
  intros H. apply elem_of_if_add in H as [[? ?]|H]; [done|].
  by apply elem_of_empty in H.
Qed.

Lemma screenshot_buildFeatureFlags_format url options internalOptions f :
  f = screenshot \/ f = screenshot_fullScreen ->
  f ∈ buildFeatureFlags env url options internalOptions ->
  exists fmt,
    hasFormatOfType env (ScrapeOptions.formats options) "screenshot"
      = Some fmt
    /\ (if Js.truthy (Format.fullPage fmt)
        then f = screenshot_fullScreen else f = screenshot).
Proof.
  unfold buildFeatureFlags. cbv zeta. intros Hf H.
  do 9 (apply elem_of_if_add_ne in H;
        [|by destruct Hf as [-> | ->]]).
  apply elem_of_screenshot_layer in H as [H|H]; [exact H|].
  apply elem_of_actions_layer in H as [-> _]. by destruct Hf.
Qed.

(** X22. [buildFeatureFlags] never sets both screenshot flags: a request
    that has "screenshot" has no "screenshot@fullScreen". *)
Theorem screenshot_flags_exclusive url options internalOptions :
  screenshot ∈ buildFeatureFlags env url options internalOptions ->
  screenshot_fullScreen ∉ buildFeatureFlags env url options internalOptions.
Proof.
  intros H1 H2.
  apply screenshot_buildFeatureFlags_format in H1 as [fmt1 [Hf1 H1]];
    [|by left].
  apply screenshot_buildFeatureFlags_format in H2 as [fmt2 [Hf2 H2]];
    [|by right].
  rewrite Hf1 in Hf2. injection Hf2 as <-.
  by destruct (Js.truthy (Format.fullPage fmt1)).
Qed.

Lemma skipTlsVerification_buildFeatureFlags url options internalOptions :
  skipTlsVerification ∈ buildFeatureFlags env url options internalOptions ->
  Js.truthy (ScrapeOptions.skipTlsVerification options) = true.
Proof.
  unfold buildFeatureFlags. cbv zeta. intros H.
  do 3 (apply elem_of_if_add_ne in H; [|discriminate]).
  apply elem_of_if_add in H as [[H _]|H]; [exact H|].
  exfalso.
  do 5 (apply elem_of_if_add_ne in H; [|discriminate]).
  apply elem_of_screenshot_layer in H as [[fmt [_ H]]|H].
  - by destruct (Js.truthy (Format.fullPage fmt)).
  - by apply elem_of_actions_layer in H as [? _].
Qed.

Lemma stealthProxy_buildFeatureFlags url options internalOptions :
  stealthProxy ∈ buildFeatureFlags env url options internalOptions ->
  ScrapeOptions.proxy options = Some "stealth".
Proof.
  unfold buildFeatureFlags. cbv zeta. intros H.
  do 1 (apply elem_of_if_add_ne in H; [|discriminate]).
  apply elem_of_if_add in H as [[H _]|H];
    [by apply bool_decide_eq_true in H|].
  exfalso.
  do 7 (apply elem_of_if_add_ne in H; [|discriminate]).
  apply elem_of_screenshot_layer in H as [[fmt [_ H]]|H].
  - by destruct (Js.truthy (Format.fullPage fmt)).
  - by apply elem_of_actions_layer in H as [? _].
Qed.

Lemma actions_buildFeatureFlags url options internalOptions :
  actions ∈ buildFeatureFlags env url options internalOptions ->
  Js.defined (ScrapeOptions.actions options) = true.
Proof.
  unfold buildFeatureFlags. cbv zeta. intros H.
  do 9 (apply elem_of_if_add_ne in H; [|discriminate]).
  apply elem_of_screenshot_layer in H as [[fmt [_ H]]|H].
  - by destruct (Js.truthy (Format.fullPage fmt)).
  - by apply elem_of_actions_layer in H as [_ ?].
Qed.

(** X23. The default [buildMetaObject] gives [skipTlsVerification] (true
    unless the request has headers or actions) reaches the options of the
    request but not its feature flags, which are computed from the
    options as they came in. *)
Theorem default_skipTlsVerification_sets_no_flag
    id url options internalOptions :
  urlSpecificParams env url = None ->
  ScrapeOptions.skipTlsVerification options = None ->
  let meta := buildMetaObject env id url options internalOptions in
  ScrapeOptions.skipTlsVerification (Meta.options meta)
  = Some (negb (match ScrapeOptions.headers options with
                | Some (_ :: _) => true
                | _ => false
                end
                || match ScrapeOptions.actions options with
                   | Some (_ :: _) => true
                   | _ => false
                   end))
  /\ skipTlsVerification ∉ Meta.featureFlags meta.
Proof.
  intros Hspec Hskip meta. unfold meta, buildMetaObject.
  rewrite Hspec. cbn [Meta.options Meta.featureFlags
                      ScrapeOptions.skipTlsVerification].
  rewrite Hskip. split.
  - cbn [Js.nullish default from_option].
    by destruct (_ || _).
  - intros H. apply skipTlsVerification_buildFeatureFlags in H.
    by rewrite Hskip in H.
Qed.

(** X24. What an index entry can fail to honour of a request that
    [buildMetaObject] built and [shouldUseIndex] accepts: only "atsv",
    and "actions" when the request came with an empty action list. *)
Theorem index_eligible_request_lacks_little
    id url options internalOptions f :
  let meta := buildMetaObject env id url options internalOptions in
  shouldUseIndex env meta = true ->
  f ∈ getUnsupportedFeatures (Meta.featureFlags meta) index ->
  f = atsv
  \/ (f = actions /\ ScrapeOptions.actions (Meta.options meta) = Some []).
Proof.
  intros meta Hidx Hf.
  rewrite getUnsupportedFeatures_difference, elem_of_difference,
    elem_of_capabilities in Hf.
  destruct Hf as [Hin Hcap].
  pose proof (shouldUseIndex_no_branding env id url options internalOptions
                Hidx) as Hbrand.
  fold meta in Hbrand.
  revert Hidx Hin Hbrand. unfold meta, shouldUseIndex, buildMetaObject.
  destruct (urlSpecificParams env url) as [[fo fi]|];
    cbn [fst snd Meta.options Meta.featureFlags ScrapeOptions.formats
         ScrapeOptions.actions ScrapeOptions.proxy ScrapeOptions.headers
         ScrapeOptions.maxAge ScrapeOptions.parsers];
    rewrite !andb_true_iff; intros [[_ Hact] Hproxy] Hin Hbrand;
    (destruct f; try (by left); try (by destruct Hcap);
     [ right; split; [done|];
       apply actions_buildFeatureFlags in Hin;
       match type of Hact with
       | match ?a with _ => _ end = true =>
           destruct a as [[|x l]|]; [done|discriminate..]
       end
     | apply stealthProxy_buildFeatureFlags in Hin; rewrite Hin in Hproxy;
       discriminate Hproxy ]).
Qed.

(** *** The postprocessor chain, again *)

(** X25. Postprocessors that do not apply leave the engine's result and
    the world as they are. *)
Theorem idle_postprocessors_change_nothing meta chain r w finalUrl :
  newURL env (EngineScrapeResult.url r) = Some finalUrl ->
  (forall q, q ∈ chain ->
     Postprocessor.shouldRun q meta finalUrl
       (EngineScrapeResult.postprocessorsUsed r) = false) ->
  runPostprocessors env meta chain r w = (Returned r, w).
Proof.
  intros Hurl. induction chain as [|q rest IH]; intros Hidle; [done|].
  cbn [runPostprocessors].
  rewrite (bind_Returned _ _ w r w).
  - apply IH. intros q' Hq'. apply Hidle. by right.
  - unfold runPostprocessor. rewrite Hurl, Hidle; [done|by left].
Qed.

(** X26. A result whose URL [new URL] rejects fails the pipeline with a
    [TypeError] at the first postprocessor, before any of them runs; with
    an empty chain the URL is never parsed and the result passes. *)
Theorem invalid_result_url_fails_the_chain meta chain r w :
  newURL env (EngineScrapeResult.url r) = None ->
  runPostprocessors env meta chain r w
  = (if bool_decide (chain = []) then Returned r
     else Thrown (TypeError "Invalid URL"), w).
Proof.
  intros Hurl. destruct chain as [|q rest]; [done|].
  rewrite bool_decide_eq_false_2 by done.
  cbn [runPostprocessors]. apply bind_Thrown.
  unfold runPostprocessor. by rewrite Hurl.
Qed.

Lemma runPostprocessor_runs_at_most_once meta q r w :
  exists t,
    trace (runPostprocessor env meta q r w).2 = trace w ++ t
    /\ (postprocessorRuns t = []
        \/ postprocessorRuns t = [Postprocessor.name q]).
Proof.
  unfold runPostprocessor.
  destruct (newURL env (EngineScrapeResult.url r)) as [finalUrl|].
  - destruct (Postprocessor.shouldRun q meta finalUrl _).
    + unfold bind, log, emit, try_catch, call. cbn [outside trace].
      destruct (Postprocessor.run q meta r (outside w)) as [[r'|e] o'];
        cbn [trace]; eexists; (split; [by rewrite <- !app_assoc|]);
        by right.
    + exists []. split; [by rewrite app_nil_r|by left].
  - exists []. split; [by rewrite app_nil_r|by left].
Qed.

(** X27. The postprocessors that run do so in the order of the chain,
    each at most once. *)
Theorem postprocessors_run_in_chain_order meta chain r w :
  exists t,
    trace (runPostprocessors env meta chain r w).2 = trace w ++ t
    /\ postprocessorRuns t `sublist_of` map Postprocessor.name chain.
Proof.
  revert r w. induction chain as [|q rest IH]; intros r w.
  - exists []. split; [by rewrite app_nil_r|done].
  - cbn [runPostprocessors]. unfold bind.
    destruct (runPostprocessor_runs_at_most_once meta q r w)
      as [t1 [Ht1 Hruns]].
    destruct (runPostprocessor env meta q r w) as [[r1|e] w1];
      cbn [snd] in Ht1.
    + destruct (IH r1 w1) as [t2 [Ht2 Hsub]].
      exists (t1 ++ t2). split; [by rewrite Ht2, Ht1, app_assoc|].
      rewrite postprocessorRuns_app. cbn [map].
      destruct Hruns as [-> | ->].
      * by apply sublist_cons.
      * by apply sublist_skip.
    + exists t1. split; [done|]. cbn [map].
      destruct Hruns as [-> | ->].
      * apply sublist_nil_l.
      * apply sublist_skip, sublist_nil_l.
Qed.

(** *** Payloads and downloads *)

Lemma scrapePDF_prefetched_noDownload meta p :
  Meta.pdfPrefetch meta = value p ->
  appends noDownload (scrapePDF env meta).
Proof.
  intros Hp.
  pose proof noDownload_nil. pose proof noDownload_app.
  pose proof noDownload_other.
  unfold scrapePDF, scrapePDF_try, scrapePDF_finally, scrapePDFWithParsePDF.
  rewrite Hp. repeat appends_step.
Qed.

Lemma appends_bind_ret {A B} (P : list Event -> Prop) (a : A)
    (k : A -> Async S B) :
  appends P (k a) -> appends P (bind (ret a) k).
Proof. intros H w. apply H. Qed.

(** X28. A payload the engine delivered is not fetched again: when the
    detector hands over a prefetch descriptor, [applySpecialtyParsing]
    parses that file and downloads nothing. *)
Theorem delivered_payload_is_not_downloaded meta engine r w plan w1 p :
  detectSpecialtyPlan env
    (SpecialtyDetectionInput.mk None
       (EngineScrapeResult.contentType r)
       (Some (EngineScrapeResult.html r))
       (EngineScrapeResult.binaryFile r)
       (Some (EngineScrapeResult.url r))
       (Some (EngineScrapeResult.statusCode r))
       (EngineScrapeResult.proxyUsed r)) w
    = (Returned (Some plan), w1) ->
  SpecialtyPlan.prefetch plan = value p ->
  exists t,
    trace (applySpecialtyParsing env meta engine r w).2 = trace w1 ++ t
    /\ noDownload t.
Proof.
  intros Hplan Hp.
  rewrite (applySpecialtyParsing_plan env meta engine r w plan w1 Hplan).
  rewrite Hp.
  pose proof noDownload_nil. pose proof noDownload_app.
  pose proof noDownload_other.
  assert (Happ : forall c : Async S (Meta.t * EngineScrapeResult.t),
            appends noDownload c ->
            exists t, trace (c w1).2 = trace w1 ++ t /\ noDownload t)
    by (intros c Hc; apply Hc).
  apply Happ.
  repeat first
    [ match goal with
      | |- appends _ (bind (ret _) _) => apply appends_bind_ret
      end
    | apply (scrapePDF_prefetched_noDownload _ p); reflexivity
    | appends_step ].
Qed.

End RequestMore.

Lemma screenshot_flags_exclusive_witness :
  screenshot
    ∈ buildFeatureFlags (Deployment.configured Deployment.defaults Example.live [])
        "https://example.com/" Deployment.screenshotOptions
        (Example.internalOptions None)
  /\ screenshot_fullScreen
       ∉ buildFeatureFlags
           (Deployment.configured Deployment.defaults Example.live [])
           "https://example.com/" Deployment.screenshotOptions
           (Example.internalOptions None).
Proof.
  assert (H : screenshot
                ∈ buildFeatureFlags
                    (Deployment.configured Deployment.defaults Example.live [])
                    "https://example.com/" Deployment.screenshotOptions
                    (Example.internalOptions None)).
  { apply (bool_decide_eq_true_1 (screenshot ∈ _)). vm_compute.
    reflexivity. }
  split; [exact H|].
  exact (screenshot_flags_exclusive _ _ _ _ H).
Defined.

Lemma default_skipTlsVerification_sets_no_flag_witness :
  ScrapeOptions.skipTlsVerification
    (Meta.options
       (Example.meta (Deployment.configured Deployment.defaults Example.live [])
                     None None))
  = Some true
  /\ skipTlsVerification
       ∉ Meta.featureFlags
           (Example.meta (Deployment.configured Deployment.defaults Example.live [])
                         None None).
Proof.
  apply (default_skipTlsVerification_sets_no_flag
           (Deployment.configured Deployment.defaults Example.live [])
           "scrape-1" "https://example.com/" (Example.options None)
           (Example.internalOptions None));
    reflexivity.
Defined.

Lemma index_eligible_request_lacks_little_witness :
  actions = atsv
  \/ (actions = actions
      /\ ScrapeOptions.actions
           (Meta.options
              (Example.meta
                 (Example.env Example.cached Example.unreachable [])
                 (Some []) None))
         = Some []).
Proof.
  apply (index_eligible_request_lacks_little
           (Example.env Example.cached Example.unreachable [])
           "scrape-1" "https://example.com/" (Example.options (Some []))
           (Example.internalOptions None) actions).
  - vm_compute. reflexivity.
  - apply (bool_decide_eq_true_1 (actions ∈ _)). vm_compute. reflexivity.
Defined.

Lemma idle_postprocessors_change_nothing_witness :
  runPostprocessors
    (Deployment.configured Deployment.defaults Example.live [])
    (Deployment.pdfMeta Deployment.defaults) [Deployment.dormant]
    (Example.page None) Example.emptyWorld
  = (Returned (Example.page None), Example.emptyWorld).
Proof.
  apply (idle_postprocessors_change_nothing
           (Deployment.configured Deployment.defaults Example.live [])
           (Deployment.pdfMeta Deployment.defaults) [Deployment.dormant]
           (Example.page None) Example.emptyWorld "https://example.com/").
  - reflexivity.
  - intros q Hq. apply list_elem_of_singleton in Hq. subst q. reflexivity.
Defined.

Lemma invalid_result_url_fails_the_chain_witness :
  runPostprocessors
    (Deployment.configured
       (Deployment.mkKnobs None None true None None 3 None false)
       Example.live [])
    (Deployment.pdfMeta Deployment.defaults) [Example.tagging]
    (Example.page None) Example.emptyWorld
  = (Thrown (TypeError "Invalid URL"), Example.emptyWorld).
Proof.
  apply (invalid_result_url_fails_the_chain
           (Deployment.configured
              (Deployment.mkKnobs None None true None None 3 None false)
              Example.live [])
           (Deployment.pdfMeta Deployment.defaults) [Example.tagging]
           (Example.page None) Example.emptyWorld).
  reflexivity.
Defined.

Lemma delivered_payload_is_not_downloaded_witness :
  exists t,
    trace
      (applySpecialtyParsing
         (Example.env Example.cached Example.unreachable [])
         (Example.meta (Example.env Example.cached Example.unreachable [])
                       None None)
         fetch Deployment.declaredPdf Example.emptyWorld).2
    = trace
        (detectSpecialtyPlan
           (Example.env Example.cached Example.unreachable [])
           (SpecialtyDetectionInput.mk None (Some "application/pdf")
              (Some "") (Some (BinaryFile.mk None "JVBERi0xLjQK"))
              (Some "https://example.com/paper.pdf") (Some 200)
              (Some basic))
           Example.emptyWorld).2
      ++ t
    /\ noDownload t.
Proof.
  apply (delivered_payload_is_not_downloaded
           (Example.env Example.cached Example.unreachable [])
           (Example.meta (Example.env Example.cached Example.unreachable [])
                         None None)
           fetch Deployment.declaredPdf Example.emptyWorld
           (SpecialtyPlan.mk SpecialtyPlan.pdf (Some "application/pdf")
              (value
                 (Prefetch.mk
                    "/tmp/tempFile-00000000-0000-4000-8000-000000000000.pdf"
                    (Some "https://example.com/paper.pdf") 200 basic
                    (Some "application/pdf"))))
           _
           (Prefetch.mk
              "/tmp/tempFile-00000000-0000-4000-8000-000000000000.pdf"
              (Some "https://example.com/paper.pdf") 200 basic
              (Some "application/pdf"))).
  - vm_compute. reflexivity.
  - reflexivity.
Defined.
